(** * Remote worker pool of Testplan: staging of one remote worker

    Shallow embedding of [testplan/runners/pools/remote.py]
    (classes [WorkerSetupMetadata], [_LocationPaths], [RemoteWorker] and
    [RemotePool]) and the properties of its staging plan.

    Python values are embedded as follows.
    - [str] is [string], the text in UTF-8; comparison of strings is the
      lexicographic order on character codes ([String.leb]), as Python
      compares them, and the characters that [len] counts and unpacking
      yields are the code points ([Py.chars]).
    - An attribute that may hold [None] is an [option].
    - Exceptions are the constructors of [exn]; a method that can raise
      returns a [result].
    - Methods of [RemoteWorker] that run subprocesses are computations in
      the monad [M]: they read and update the worker object, append to the
      list of executed commands and to the log, and may raise.  The state
      survives a raise, as the attributes of a Python object do. *)

From Stdlib Require Import ZArith Ascii String DecimalString.
From stdpp Require Import base option list sorting strings gmap.



(** ** Python string methods *)

Module Py.

(** [s.startswith(p)]. *)
Definition startswith (s p : string) : bool := String.prefix p s.

(** [sep.join(parts)]. *)
Definition join (sep : string) (parts : list string) : string :=
  String.concat sep parts.

(** [s.split(sep)] for a separator of one character: the fields between
    the occurrences of [sep]; never the empty list. *)
Fixpoint split (sep : ascii) (s : string) : list string :=
  match s with
  | EmptyString => [EmptyString]
  | String c s' =>
      if Ascii.eqb c sep then EmptyString :: split sep s'
      else match split sep s' with
           | [] => [String c EmptyString]
           | f :: fs => String c f :: fs
           end
  end.

(** [l[-1]] on a list of strings; [IndexError] cannot arise on the
    result of [split], so the empty list is mapped to the empty string. *)
Definition last_field (l : list string) : string := List.last l EmptyString.

(** [s.rstrip(sep)] for a set of one character. *)
Fixpoint rstrip (sep : ascii) (s : string) : string :=
  match s with
  | EmptyString => EmptyString
  | String c s' =>
      match rstrip sep s' with
      | EmptyString => if Ascii.eqb c sep then EmptyString
                       else String c EmptyString
      | r => String c r
      end
  end.

(** [s.rpartition(sep)[0]] for a separator of one character: what comes
    before the last [sep], the empty string when there is none. *)
Fixpoint rpartition_head_aux (sep : ascii) (s : string) : option string :=
  match s with
  | EmptyString => None
  | String c s' =>
      match rpartition_head_aux sep s' with
      | Some h => Some (String c h)
      | None => if Ascii.eqb c sep then Some EmptyString else None
      end
  end.

Definition rpartition_head (sep : ascii) (s : string) : string :=
  default EmptyString (rpartition_head_aux sep s).

(** [str(x)] of a value that is a string or [None]. *)
Definition str (x : option string) : string := default "None" x.

(** [str(n)] of an integer. *)
Definition str_int (n : Z) : string := NilZero.string_of_int (Z.to_int n).

(** Truth value of a string-or-None and of a list-or-None. *)
Definition truthy_str (x : option string) : bool :=
  match x with
  | Some (String _ _) => true
  | _ => false
  end.

Definition truthy_list {A} (x : option (list A)) : bool :=
  match x with
  | Some (_ :: _) => true
  | _ => false
  end.

(** [os.path.commonprefix([a, b])]: the longest common leading string,
    character by character. *)
Fixpoint commonprefix (a b : string) : string :=
  match a, b with
  | String c a', String d b' =>
      if Ascii.eqb c d then String c (commonprefix a' b') else EmptyString
  | _, _ => EmptyString
  end.

(** [c in s] for a character. *)
Definition has_char (c : ascii) (s : string) : bool :=
  existsb (Ascii.eqb c) (list_ascii_of_string s).

(** [posixpath.basename], parameterised by the separator:
    [p[p.rfind(sep) + 1:]]. *)
Fixpoint basename (sep : ascii) (p : string) : string :=
  match p with
  | EmptyString => EmptyString
  | String c p' =>
      if has_char sep p' then basename sep p'
      else if Ascii.eqb c sep then p'
      else p
  end.

(** [s.replace(old, new)] for two characters. *)
Fixpoint replace_char (old new : ascii) (s : string) : string :=
  match s with
  | EmptyString => EmptyString
  | String c s' =>
      String (if Ascii.eqb c old then new else c) (replace_char old new s')
  end.

(** The bytes [10xxxxxx], which continue a character in UTF-8. *)
Definition is_continuation (c : ascii) : bool :=
  match c with
  | Ascii _ _ _ _ _ _ b6 b7 => b7 && negb b6
  end.

(** [list(s)]: the characters of [s], each with the bytes that continue
    it. *)
Fixpoint chars (s : string) : list string :=
  match s with
  | EmptyString => []
  | String c s' =>
      let continued :=
        match s' with
        | String d _ => is_continuation d
        | EmptyString => false
        end in
      match chars s' with
      | g :: gs =>
          if continued then String c g :: gs
          else String c EmptyString :: g :: gs
      | [] => [String c EmptyString]
      end
  end.

(** [len(s)] *)
Definition len (s : string) : nat := length (chars s).

End Py.

(** ** Exceptions and results *)

Inductive runtime_error : Type :=
  | CommandFailed (cmd : list string) (rc : Z)
  | PushNotUnderRoot (path root : string)
  | WorkingDirOutsideWorkspace (ws cwd : string).

Inductive type_error : Type :=
  | BadPushConfig
  | NoneOperand.

Inductive exn : Type :=
  | RuntimeError (e : runtime_error)
  | TypeError (e : type_error)
  | AttributeError
  | IndexError
  | ValueError
  | KeyError (key : string).

Inductive result (A : Type) : Type :=
  | Ok (a : A)
  | Raise (e : exn).
Arguments Ok {A} a.
Arguments Raise {A} e.

Definition rbind {A B} (r : result A) (k : A → result B) : result B :=
  match r with
  | Ok a => k a
  | Raise e => Raise e
  end.

(** ** [_LocationPaths] *)

(** The class stores a local path and its remote equivalent.  The worker's
    own pairs start with both sides [None] ([A := option string]); the
    pairs of the push lists are built with both sides given
    ([A := string]). *)
Record LocationPaths (A : Type) : Type := mkLocationPaths {
  local : A;
  remote : A
}.
Arguments mkLocationPaths {A} local remote.
Arguments local {A} _.
Arguments remote {A} _.

Abbreviation PushPath := (LocationPaths string).

(** ** Elimination of push duplications (in [_build_push_lists]) *)

Module Dedup.

(** [push_dirs.sort(key=lambda x: x.local)]: Python's sort is stable and
    ascending.  A stable sort has one possible result, computed here by
    insertion: a new head goes before the first element whose key is not
    smaller. *)
Definition key_le (x y : PushPath) : bool := String.leb (local x) (local y).

Fixpoint insert_sorted (x : PushPath) (l : list PushPath) : list PushPath :=
  match l with
  | [] => [x]
  | y :: l' => if key_le x y then x :: y :: l' else y :: insert_sorted x l'
  end.

Fixpoint sort_by_local (l : list PushPath) : list PushPath :=
  match l with
  | [] => []
  | x :: l' => insert_sorted x (sort_by_local l')
  end.

(** One iteration of
    [if push_dirs[idx + 1].local.startswith(push_dirs[idx].local):
         push_dirs[idx] = None]
    on the list whose slots may already hold [None]. *)
Definition mark_step (dirs : list (option PushPath)) (idx : nat)
  : result (list (option PushPath)) :=
  match dirs !! (idx + 1) with
  | None => Raise IndexError
  | Some None => Raise AttributeError
  | Some (Some next) =>
      match dirs !! idx with
      | None => Raise IndexError
      | Some None => Raise AttributeError
      | Some (Some cur) =>
          if Py.startswith (local next) (local cur)
          then Ok (<[idx := None]> dirs)
          else Ok dirs
      end
  end.

(** [for idx in range(len(push_dirs) - 1): ...] *)
Fixpoint mark_loop (idxs : list nat) (dirs : list (option PushPath))
  : result (list (option PushPath)) :=
  match idxs with
  | [] => Ok dirs
  | idx :: rest => rbind (mark_step dirs idx) (mark_loop rest)
  end.

(** [[_dir for _dir in push_dirs if _dir is not None]] *)
Definition not_none (dirs : list (option PushPath)) : list PushPath :=
  omap id dirs.

(** The whole block guarded by [if push_dirs and len(push_dirs) > 1]. *)
Definition eliminate_duplications (push_dirs : list PushPath)
  : result (list PushPath) :=
  match push_dirs with
  | _ :: _ :: _ =>
      let sorted := sort_by_local push_dirs in
      rbind (mark_loop (seq 0 (length sorted - 1)) (Some <$> sorted))
            (λ marked, Ok (not_none marked))
  | _ => Ok push_dirs
  end.

End Dedup.

(** ** The local machine and the collaborators of the module *)

(** What the module reads from its surroundings: the [os], [sys],
    [platform] and [getpass] modules, the helpers of
    [testplan.common.utils] ([path], [strings]), the [testplan] package
    and the [ProcessWorker] superclass.  None of them is defined in
    [remote.py]; they are fields of a record so that every result holds
    for every implementation of them. *)
Record Host : Type := mkHost {
  os_sep : ascii;                           (* os.sep *)
  getuser : string;                         (* getpass.getuser() *)
  environ : gmap string string;             (* os.environ *)
  pwd : string;                             (* pathutils.pwd() *)
  platform_system : string;                 (* platform.system() *)
  python_version : string;                  (* platform.python_version() *)
  sys_executable : string;                  (* sys.executable *)
  isfile : string → bool;                   (* os.path.isfile *)
  isdir : string → bool;                    (* os.path.isdir *)
  relpath : string → string → string;       (* os.path.relpath(path, start) *)
  path_join : string → string → string;     (* os.path.join *)
  slugify : string → string;                (* utils.strings.slugify *)
  fix_home_prefix : string → string;        (* utils.path.fix_home_prefix *)
  is_subdir : string → string → bool;       (* pathutils.is_subdir(child, parent) *)
  to_posix_path : string → string;          (* pathutils.to_posix_path *)
  TESTPLAN_DEPENDENCIES_PATH : string;      (* testplan.TESTPLAN_DEPENDENCIES_PATH *)
  testplan_abspath : string;
    (* os.path.abspath(os.path.join(os.path.dirname(module_abspath(testplan)), '..')) *)
  child_path : string;                      (* ProcessWorker._child_path() *)
  transport_address : string;               (* self.transport.address *)
  parent_runpath : string;                  (* self.parent.runpath *)
  dirname : string → string;                (* os.path.dirname *)
  makedirs : string → bool;                 (* pathutils.makedirs: true unless it raises *)
  effective_log_level : Z;                  (* TESTPLAN_LOGGER.getEffectiveLevel() *)
  returncode : list (list string * Z) → list string → Z
    (* exit code of a subprocess, given the commands run before it *)
}.

(** ** Configuration ([self.cfg], with the pool's options it inherits) *)

(** An element of the [push] option: a path, or a tuple of paths. *)
Inductive push_item : Type :=
  | PushStr (s : string)
  | PushTuple (t : list string).

(** The keyword arguments given to [copy_cmd]: none, or [exclude=...]. *)
Inductive copy_args : Type :=
  | NoCopyArgs
  | Exclude (patterns : option (list string)).

Abbreviation ssh_cmd_t := (string → string → list string).

Record Cfg : Type := mkCfg {
  cfg_index : string;
  cfg_workers : Z;
  cfg_pool_type : string;
  cfg_plan_name : string;                   (* cfg.parent.parent.name *)
  cfg_ssh_cmd : ssh_cmd_t;                  (* ssh_cmd(host, command) *)
  cfg_copy_cmd : option string → option string → copy_args → list string;
  cfg_link_cmd : string → string → list string;   (* link_cmd(path=, link=) *)
  cfg_workspace : string;
  cfg_workspace_exclude : option (list string);
  cfg_remote_workspace : option string;
  cfg_copy_workspace_check : option (ssh_cmd_t → string → string → list string);
  cfg_env : option (gmap string string);
  cfg_setup_script : option (list string);
  cfg_push : option (list push_item);
  cfg_push_exclude : option (list string);
  cfg_push_relative_dir : option string;
  cfg_pull : option (list string);
  cfg_pull_exclude : option (list string);
  cfg_remote_mkdir : list string;
  cfg_testplan_path : option string
}.

(** ** [WorkerSetupMetadata] and [RemoteWorker] *)

(** [setup_metadata.workspace_paths] is assigned the object
    [self._workspace_paths] itself: the attribute is a reference, and a
    reader sees the worker's pair as it is when the metadata is read. *)
Inductive paths_ref : Type := WorkspacePathsOfWorker.

Record WorkerSetupMetadata : Type := mkWorkerSetupMetadata {
  push_dirs : option (list string);
  push_files : option (list string);
  push_dir : option string;
  setup_script : option (list string);
  env : option (gmap string string);
  workspace_paths : option paths_ref;
  workspace_pushed : bool
}.

(** [WorkerSetupMetadata.__init__] *)
Definition WorkerSetupMetadata_init : WorkerSetupMetadata :=
  {| push_dirs := None; push_files := None; push_dir := None;
     setup_script := None; env := None; workspace_paths := None;
     workspace_pushed := false |}.

(** The attributes of a [RemoteWorker].  [_remote_push_dir] is not
    created by [__init__]: it exists only once [_build_push_dests] has
    assigned it, [None] here standing for the missing attribute. *)
Record RemoteWorker : Type := mkRemoteWorker {
  _remote_testplan_path : option string;
  _user : string;
  _workspace_paths : LocationPaths (option string);
  _child_paths : LocationPaths (option string);
  _working_dirs : LocationPaths (option string);
  _should_transfer_workspace : bool;
  _remote_testplan_runpath : option string;
  setup_metadata : WorkerSetupMetadata;
  remote_push_dir : option string;
  _remote_push_dir : option string
}.

(** Messages of the log at warning level and above. *)
Inductive log_event : Type :=
  | WarnNoFilesToPush
  | WarnIgnoringPushRelativeDir
  | ErrorCannotBePushed (source : string)
  | ErrorCouldNotCreateDirectory (dirname : string)
  | ErrorCouldNotFetchResults.

(** The state a method acts on: the worker object, the subprocesses run
    so far with their exit codes, and the log. *)
Record World : Type := mkWorld {
  worker : RemoteWorker;
  executed : list (list string * Z);
  logged : list log_event
}.

(** ** The monad of worker methods *)

Definition M (A : Type) : Type := World → result A * World.

Definition ret {A} (a : A) : M A := λ σ, (Ok a, σ).
Definition raise {A} (e : exn) : M A := λ σ, (Raise e, σ).
Definition bind {A B} (m : M A) (k : A → M B) : M B :=
  λ σ, match m σ with
       | (Ok a, σ') => k a σ'
       | (Raise e, σ') => (Raise e, σ')
       end.
Definition get : M RemoteWorker := λ σ, (Ok (worker σ), σ).
Definition modify (f : RemoteWorker → RemoteWorker) : M unit :=
  λ σ, (Ok tt, mkWorld (f (worker σ)) (executed σ) (logged σ)).
Definition emit (ev : log_event) : M unit :=
  λ σ, (Ok tt, mkWorld (worker σ) (executed σ) (logged σ ++ [ev])).
Definition lift {A} (r : result A) : M A := λ σ, (r, σ).

(** [try: m except Exception as exc: handler(exc)] *)
Definition try_except {A} (m : M A) (handler : exn → M A) : M A :=
  λ σ, match m σ with
       | (Ok a, σ') => (Ok a, σ')
       | (Raise e, σ') => handler e σ'
       end.

(** A value that must not be [None] where a string operation uses it. *)
Definition some_or {A} (e : exn) (x : option A) : M A :=
  match x with
  | Some a => ret a
  | None => raise e
  end.

(** The monad is used through stdpp's notations [x ← m; k] and [m;; k]. *)
#[export] Instance M_ret : MRet M := @ret.
#[export] Instance M_bind : MBind M := λ A B k m, bind m k.

(** [for x in xs: body(x)] *)
Fixpoint for_each {A} (xs : list A) (body : A → M unit) : M unit :=
  match xs with
  | [] => ret tt
  | x :: xs' => body x;; for_each xs' body
  end.

(** [[f(x) for x in xs]] where [f] may raise. *)
Fixpoint map_M {A B} (f : A → M B) (xs : list A) : M (list B) :=
  match xs with
  | [] => ret []
  | x :: xs' => y ← f x; ys ← map_M f xs'; ret (y :: ys)
  end.

(** Assignments to attributes. *)
Definition set_remote_testplan_path v (w : RemoteWorker) : RemoteWorker :=
  mkRemoteWorker v (_user w) (_workspace_paths w) (_child_paths w)
    (_working_dirs w) (_should_transfer_workspace w)
    (_remote_testplan_runpath w) (setup_metadata w) (remote_push_dir w)
    (_remote_push_dir w).
Definition set_workspace_paths v (w : RemoteWorker) : RemoteWorker :=
  mkRemoteWorker (_remote_testplan_path w) (_user w) v (_child_paths w)
    (_working_dirs w) (_should_transfer_workspace w)
    (_remote_testplan_runpath w) (setup_metadata w) (remote_push_dir w)
    (_remote_push_dir w).
Definition set_child_paths v (w : RemoteWorker) : RemoteWorker :=
  mkRemoteWorker (_remote_testplan_path w) (_user w) (_workspace_paths w) v
    (_working_dirs w) (_should_transfer_workspace w)
    (_remote_testplan_runpath w) (setup_metadata w) (remote_push_dir w)
    (_remote_push_dir w).
Definition set_working_dirs v (w : RemoteWorker) : RemoteWorker :=
  mkRemoteWorker (_remote_testplan_path w) (_user w) (_workspace_paths w)
    (_child_paths w) v (_should_transfer_workspace w)
    (_remote_testplan_runpath w) (setup_metadata w) (remote_push_dir w)
    (_remote_push_dir w).
Definition set_should_transfer_workspace v (w : RemoteWorker) : RemoteWorker :=
  mkRemoteWorker (_remote_testplan_path w) (_user w) (_workspace_paths w)
    (_child_paths w) (_working_dirs w) v
    (_remote_testplan_runpath w) (setup_metadata w) (remote_push_dir w)
    (_remote_push_dir w).
Definition set_remote_testplan_runpath v (w : RemoteWorker) : RemoteWorker :=
  mkRemoteWorker (_remote_testplan_path w) (_user w) (_workspace_paths w)
    (_child_paths w) (_working_dirs w) (_should_transfer_workspace w)
    v (setup_metadata w) (remote_push_dir w) (_remote_push_dir w).
Definition set_setup_metadata v (w : RemoteWorker) : RemoteWorker :=
  mkRemoteWorker (_remote_testplan_path w) (_user w) (_workspace_paths w)
    (_child_paths w) (_working_dirs w) (_should_transfer_workspace w)
    (_remote_testplan_runpath w) v (remote_push_dir w) (_remote_push_dir w).
Definition set__remote_push_dir v (w : RemoteWorker) : RemoteWorker :=
  mkRemoteWorker (_remote_testplan_path w) (_user w) (_workspace_paths w)
    (_child_paths w) (_working_dirs w) (_should_transfer_workspace w)
    (_remote_testplan_runpath w) (setup_metadata w) (remote_push_dir w) v.

Definition set_local {A} (v : A) (p : LocationPaths A) : LocationPaths A :=
  mkLocationPaths v (remote p).
Definition set_remote {A} (v : A) (p : LocationPaths A) : LocationPaths A :=
  mkLocationPaths (local p) v.

Definition set_push_dirs v (m : WorkerSetupMetadata) : WorkerSetupMetadata :=
  mkWorkerSetupMetadata v (push_files m) (push_dir m) (setup_script m)
    (env m) (workspace_paths m) (workspace_pushed m).
Definition set_push_files v (m : WorkerSetupMetadata) : WorkerSetupMetadata :=
  mkWorkerSetupMetadata (push_dirs m) v (push_dir m) (setup_script m)
    (env m) (workspace_paths m) (workspace_pushed m).
Definition set_push_dir v (m : WorkerSetupMetadata) : WorkerSetupMetadata :=
  mkWorkerSetupMetadata (push_dirs m) (push_files m) v (setup_script m)
    (env m) (workspace_paths m) (workspace_pushed m).
Definition set_setup_script v (m : WorkerSetupMetadata) : WorkerSetupMetadata :=
  mkWorkerSetupMetadata (push_dirs m) (push_files m) (push_dir m) v
    (env m) (workspace_paths m) (workspace_pushed m).
Definition set_env v (m : WorkerSetupMetadata) : WorkerSetupMetadata :=
  mkWorkerSetupMetadata (push_dirs m) (push_files m) (push_dir m)
    (setup_script m) v (workspace_paths m) (workspace_pushed m).
Definition set_workspace_paths_ref v (m : WorkerSetupMetadata)
  : WorkerSetupMetadata :=
  mkWorkerSetupMetadata (push_dirs m) (push_files m) (push_dir m)
    (setup_script m) (env m) v (workspace_pushed m).
Definition set_workspace_pushed v (m : WorkerSetupMetadata)
  : WorkerSetupMetadata :=
  mkWorkerSetupMetadata (push_dirs m) (push_files m) (push_dir m)
    (setup_script m) (env m) (workspace_paths m) v.

(** [RemoteWorker.__init__] *)
Definition RemoteWorker_init (h : Host) : RemoteWorker :=
  {| _remote_testplan_path := None;
     _user := getuser h;
     _workspace_paths := mkLocationPaths None None;
     _child_paths := mkLocationPaths None None;
     _working_dirs := mkLocationPaths None None;
     _should_transfer_workspace := true;
     _remote_testplan_runpath := None;
     setup_metadata := WorkerSetupMetadata_init;
     remote_push_dir := None;
     _remote_push_dir := None |}.

Definition World_init (h : Host) : World :=
  mkWorld (RemoteWorker_init h) [] [].

(** ** Methods of [RemoteWorker] *)

Section RemoteWorker.

Context (h : Host) (cfg : Cfg).

(** [_execute_cmd(cmd, check=...)]: run the subprocess, record it, and
    raise when [check] is set and the exit code is not 0.  The label and
    the redirections of the source only affect what is printed; the line
    [y] written to the standard input of the subprocess is part of what
    [returncode] stands for. *)
Definition _execute_cmd (cmd : list string) (check : bool) : M Z :=
  λ σ,
    let rc := returncode h (executed σ) cmd in
    let σ' := mkWorld (worker σ) (executed σ ++ [(cmd, rc)]) (logged σ) in
    if check && negb (rc =? 0)%Z
    then (Raise (RuntimeError (CommandFailed cmd rc)), σ')
    else (Ok rc, σ').

(** [self.cfg.ssh_cmd(self.cfg.index, ' '.join([str(a) for a in cmd]))] *)
Definition remote_shell (cmd : list string) : list string :=
  cfg_ssh_cmd cfg (cfg_index cfg) (Py.join " " cmd).

(** [_mkdir_remote(remote_dir)] *)
Definition _mkdir_remote (remote_dir : option string) : M unit :=
  _execute_cmd
    (remote_shell (cfg_remote_mkdir cfg ++ [Py.str remote_dir])) true;;
  mret tt.

(** [_define_remote_dirs] *)
Definition _define_remote_dirs : M unit :=
  let testplan_path_dirs := [""; "var"; "tmp"; getuser h; "testplan"] in
  let remote_testplan_path :=
    Py.join "/" (testplan_path_dirs ++
                 ["remote_workspaces"; slugify h (cfg_plan_name cfg)]) in
  modify (set_remote_testplan_path (Some remote_testplan_path));;
  modify (set_remote_testplan_runpath
            (Some (Py.join "/" [remote_testplan_path; "runpath";
                                cfg_index cfg]))).

(** [_create_remote_dirs] *)
Definition _create_remote_dirs : M unit :=
  w ← get;
  _execute_cmd
    (remote_shell (cfg_remote_mkdir cfg ++
                   [Py.str (_remote_testplan_path w)])) true;;
  mret tt.

(** [_remote_copy_path(path)]: [user@host:path]. *)
Definition _remote_copy_path (w : RemoteWorker) (path : option string)
  : string :=
  _user w +:+ "@" +:+ cfg_index cfg +:+ ":" +:+ Py.str path.

(** [_transfer_data(source, target, remote_source, remote_target,
    **copy_args)] *)
Definition _transfer_data (source target : option string)
    (remote_source remote_target : bool) (args : copy_args) : M unit :=
  w ← get;
  let source :=
    if remote_source then Some (_remote_copy_path w source) else source in
  let target :=
    if remote_target then Some (_remote_copy_path w target) else target in
  _execute_cmd (cfg_copy_cmd cfg source target args) true;;
  mret tt.

(** [_copy_child_script] *)
Definition _copy_child_script : M unit :=
  w ← get;
  modify (set_child_paths
            (set_remote
               (Some (Py.str (_remote_testplan_path w) +:+ "/child.py"))
               (_child_paths w)));;
  w ← get;
  _transfer_data (local (_child_paths w)) (remote (_child_paths w))
    false true NoCopyArgs.

(** [_copy_dependencies_module] *)
Definition _copy_dependencies_module : M unit :=
  match environ h !! "TESTPLAN_DEPENDENCIES_PATH" with
  | None => mret tt
  | Some path =>
      w ← get;
      let local_path := path +:+ "/dependencies.py" in
      let remote_path :=
        Py.str (_remote_testplan_path w) +:+ "/dependencies.py" in
      _transfer_data (Some local_path) (Some remote_path)
        false true NoCopyArgs
  end.

(** [_copy_workspace] *)
Definition _copy_workspace : M unit :=
  w ← get;
  ws_local ← some_or AttributeError (local (_workspace_paths w));
  let ws_remote :=
    Py.str (_remote_testplan_path w) +:+ "/" +:+
    Py.last_field (Py.split (os_sep h) ws_local) in
  modify (set_workspace_paths (set_remote (Some ws_remote)
                                 (_workspace_paths w)));;
  match cfg_remote_workspace cfg with
  | Some (String _ _ as remote_workspace) =>
      (* User defined the remote workspace to be used: soft link. *)
      _execute_cmd
        (remote_shell
           (cfg_link_cmd cfg (fix_home_prefix h remote_workspace)
              ws_remote)) true;;
      mret tt
  | _ =>
      if _should_transfer_workspace w then
        (* Workspace should be copied to remote. *)
        _transfer_data (Some ws_local) (_remote_testplan_path w)
          false true (Exclude (cfg_workspace_exclude cfg));;
        modify (λ w, set_setup_metadata
                       (set_workspace_pushed true (setup_metadata w)) w)
      else
        (* Soft link instead of copying the workspace. *)
        _execute_cmd
          (remote_shell (cfg_link_cmd cfg ws_local ws_remote)) true;;
        mret tt
  end.

(** The property [_remote_working_dir]. *)
Definition _remote_working_dir : M string :=
  w ← get;
  cwd ← some_or (TypeError NoneOperand) (local (_working_dirs w));
  ws ← some_or (TypeError NoneOperand) (local (_workspace_paths w));
  if negb (is_subdir h cwd ws) then
    raise (RuntimeError (WorkingDirOutsideWorkspace ws cwd))
  else
    ws_remote ← some_or (TypeError NoneOperand)
                  (remote (_workspace_paths w));
    mret (to_posix_path h (path_join h ws_remote (relpath h cwd ws))).

(** *** Push lists *)

(** [_to_relative_push_dest(local_path)] *)
Definition _to_relative_push_dest (local_path : string) : M string :=
  match cfg_push_relative_dir cfg with
  | None => raise (TypeError NoneOperand)
  | Some relative_root =>
      if negb (is_subdir h local_path relative_root) then
        raise (RuntimeError (PushNotUnderRoot local_path relative_root))
      else
        let local_rel_path := relpath h local_path relative_root in
        w ← get;
        push_dir ← some_or AttributeError (_remote_push_dir w);
        mret (Py.join "/" [push_dir; to_posix_path h local_rel_path])
  end.

(** [_build_push_dests(push_sources)] *)
Definition _build_push_dests (push_sources : list string)
  : M (list string) :=
  if Py.truthy_str (cfg_push_relative_dir cfg) then
    (* Set up the remote push dir. *)
    w ← get;
    rtp ← some_or (TypeError NoneOperand) (_remote_testplan_path w);
    modify (set__remote_push_dir (Some (Py.join "/" [rtp; "push_files"])));;
    w ← get;
    _mkdir_remote (_remote_push_dir w);;
    modify (λ w, set_setup_metadata
                   (set_push_dir (_remote_push_dir w) (setup_metadata w))
                   w);;
    map_M _to_relative_push_dest push_sources
  else
    mret (to_posix_path h <$> push_sources).

(** [isinstance(cfg, six.string_types)] *)
Definition is_string (item : push_item) : bool :=
  match item with
  | PushStr _ => true
  | PushTuple _ => false
  end.

(** [len(pair)] *)
Definition item_len (item : push_item) : nat :=
  match item with
  | PushStr s => Py.len s
  | PushTuple t => length t
  end.

(** The target list [source, dest] of the [for] loop: an element is
    unpacked as any sequence of two items is, a string of two
    characters included. *)
Definition unpack_pair (item : push_item) : result (string * string) :=
  match item with
  | PushTuple [source; dest] => Ok (source, dest)
  | PushStr s =>
      match Py.chars s with
      | [source; dest] => Ok (source, dest)
      | _ => Raise ValueError
      end
  | _ => Raise ValueError
  end.

Definition source_of (item : push_item) : string :=
  match item with
  | PushStr s => s
  | PushTuple _ => EmptyString
  end.

(** The loop that separates the push sources into files and
    directories. *)
Fixpoint classify (push_locations : list (result (string * string)))
    (push_files push_dirs : list PushPath)
  : M (list PushPath * list PushPath) :=
  match push_locations with
  | [] => mret (push_files, push_dirs)
  | location :: rest =>
      '(source, dest) ← lift location;
      let source := Py.rstrip (os_sep h) source in
      if isfile h source then
        classify rest (push_files ++ [mkLocationPaths source dest])
          push_dirs
      else if isdir h source then
        classify rest push_files
          (push_dirs ++ [mkLocationPaths source dest])
      else
        emit (ErrorCannotBePushed source);;
        classify rest push_files push_dirs
  end.

(** [_build_push_lists] *)
Definition _build_push_lists : M (list PushPath * list PushPath) :=
  push ← some_or (TypeError NoneOperand) (cfg_push cfg);
  push_locations ←
    (if forallb is_string push then
       let push_sources := source_of <$> push in
       push_dsts ← _build_push_dests push_sources;
       mret (Ok <$> zip push_sources push_dsts)
     else
       if negb (forallb (λ pair, Nat.eqb (item_len pair) 2) push) then
         raise (TypeError BadPushConfig)
       else
         (if Py.truthy_str (cfg_push_relative_dir cfg)
          then emit WarnIgnoringPushRelativeDir else mret tt);;
         mret (unpack_pair <$> push));
  '(push_files, push_dirs) ← classify push_locations [] [];
  (* Eliminate push duplications *)
  push_dirs ← lift (Dedup.eliminate_duplications push_dirs);
  mret (push_files, push_dirs).

(** [_push_files_to_dst(push_files, push_dirs)] *)
Definition _push_files_to_dst (push_files push_dirs : list PushPath)
  : M unit :=
  for_each (push_files ++ push_dirs) (λ item,
    let remote_dir := Py.rpartition_head "/" (remote item) in
    _mkdir_remote (Some remote_dir);;
    _transfer_data (Some (local item)) (Some (remote item)) false true
      (Exclude (cfg_push_exclude cfg))).

(** [_push_files] *)
Definition _push_files : M unit :=
  if negb (Py.truthy_list (cfg_push cfg)) then
    (* Short-circuit if we've been given no files to push. *)
    if Py.truthy_list (cfg_push_exclude cfg)
       || Py.truthy_str (cfg_push_relative_dir cfg)
    then emit WarnNoFilesToPush
    else mret tt
  else
    '(push_files, push_dirs) ← _build_push_lists;
    (* Add the remote paths to the setup metadata. *)
    modify (λ w, set_setup_metadata
                   (set_push_files (Some (remote <$> push_files))
                      (setup_metadata w)) w);;
    modify (λ w, set_setup_metadata
                   (set_push_dirs (Some (remote <$> push_dirs))
                      (setup_metadata w)) w);;
    (* Now actually push the files to the remote host. *)
    _push_files_to_dst push_files push_dirs.

(** *** Preparation of the remote host *)

(** [_prepare_remote] *)
Definition _prepare_remote : M unit :=
  modify (λ w, set_child_paths
                 (set_local (Some (child_path h)) (_child_paths w)) w);;
  modify (λ w, set_workspace_paths
                 (set_local (Some (fix_home_prefix h (cfg_workspace cfg)))
                    (_workspace_paths w)) w);;
  match cfg_copy_workspace_check cfg with
  | Some copy_workspace_check =>
      w ← get;
      let cmd := copy_workspace_check (cfg_ssh_cmd cfg) (cfg_index cfg)
                   (Py.str (local (_workspace_paths w))) in
      rc ← _execute_cmd cmd false;
      modify (set_should_transfer_workspace (negb (rc =? 0)%Z))
  | None => mret tt
  end;;
  _define_remote_dirs;;
  _create_remote_dirs;;
  _copy_child_script;;
  _copy_dependencies_module;;
  _copy_workspace;;
  modify (λ w, set_working_dirs
                 (set_local (Some (pwd h)) (_working_dirs w)) w);;
  remote_wd ← _remote_working_dir;
  modify (λ w, set_working_dirs
                 (set_remote (Some remote_wd) (_working_dirs w)) w);;
  _push_files;;
  modify (λ w, set_setup_metadata
                 (set_setup_script (cfg_setup_script cfg)
                    (setup_metadata w)) w);;
  modify (λ w, set_setup_metadata
                 (set_env (cfg_env cfg) (setup_metadata w)) w);;
  modify (λ w, set_setup_metadata
                 (set_workspace_paths_ref (Some WorkspacePathsOfWorker)
                    (setup_metadata w)) w).

(** *** Results and pulled files *)

(** [_pull_files] *)
Definition _pull_files : M unit :=
  pull ← some_or (TypeError NoneOperand) (cfg_pull cfg);
  for_each (Py.rstrip "/" <$> pull) (λ entry,
    (* Prepare target path for possible windows usage. *)
    let dirname :=
      Py.join (String (os_sep h) EmptyString)
        (Py.split "/" (dirname h entry)) in
    if makedirs h dirname then
      _transfer_data (Some entry) (Some dirname) true false
        (Exclude (cfg_pull_exclude cfg))
    else
      emit (ErrorCouldNotCreateDirectory dirname)).

(** [_fetch_results] *)
Definition _fetch_results : M unit :=
  w ← get;
  _transfer_data (_remote_testplan_runpath w) (Some (parent_runpath h))
    true false NoCopyArgs.

(** [stopping], up to the call of the superclass. *)
Definition stopping : M unit :=
  _fetch_results;;
  if Py.truthy_list (cfg_pull cfg) then _pull_files else mret tt.

(** [aborting], up to the call of the superclass. *)
Definition aborting : M unit :=
  try_except _fetch_results (λ exc, emit ErrorCouldNotFetchResults).

(** *** The command that starts the child process *)

(** [_add_testplan_import_path(cmd, flag='--testplan')]: the items
    appended to [cmd]. *)
Definition _add_testplan_import_path (flag : string)
  : M (list (option string)) :=
  if Py.truthy_str (cfg_testplan_path cfg) then
    mret [Some flag; cfg_testplan_path cfg]
  else
    let testplan_path := testplan_abspath h in
    w ← get;
    ws_local ← some_or (TypeError NoneOperand) (local (_workspace_paths w));
    (* Import testplan from outside the local workspace *)
    if negb (Py.startswith testplan_path ws_local) then mret []
    else
      let common_prefix := Py.commonprefix testplan_path ws_local in
      mret [Some flag;
            Some (Py.str (remote (_workspace_paths w)) +:+ "/" +:+
                  Py.join "/"
                    (Py.split (os_sep h)
                       (relpath h testplan_path common_prefix)))].

(** [_add_testplan_deps_import_path(cmd, flag='--testplan-deps')] *)
Definition _add_testplan_deps_import_path (flag : string)
  : list (option string) :=
  if Py.truthy_str (environ h !! TESTPLAN_DEPENDENCIES_PATH h) then
    [Some flag; environ h !! TESTPLAN_DEPENDENCIES_PATH h]
  else [].

(** [os.environ[name]] *)
Definition environ_item (name : string) : M string :=
  some_or (KeyError name) (environ h !! name).

(** The list [cmd] built by [_proc_cmd], before it is joined. *)
Definition _proc_cmd_args : M (list (option string)) :=
  python_binary ←
    (if String.eqb (platform_system h) "Windows" then
       if Py.startswith (python_version h) "3"
       then environ_item "PYTHON3_REMOTE_BINARY"
       else environ_item "PYTHON2_REMOTE_BINARY"
     else mret (sys_executable h));
  w ← get;
  let cmd :=
    [Some python_binary; Some "-uB";
     remote (_child_paths w);
     Some "--index"; Some (cfg_index cfg);
     Some "--address"; Some (transport_address h);
     Some "--type"; Some "remote_worker";
     Some "--log-level"; Some (Py.str_int (effective_log_level h));
     Some "--wd"; remote (_working_dirs w);
     Some "--runpath"; _remote_testplan_runpath w;
     Some "--remote-pool-type"; Some (cfg_pool_type cfg);
     Some "--remote-pool-size"; Some (Py.str_int (cfg_workers cfg))] in
  testplan_flag ← _add_testplan_import_path "--testplan";
  let cmd := cmd ++ testplan_flag in
  if negb (_should_transfer_workspace w) then
    mret (cmd ++ _add_testplan_deps_import_path "--testplan-deps")
  else mret cmd.

(** [' '.join(cmd)]: every item must be a string. *)
Definition join_items (sep : string) (items : list (option string))
  : M string :=
  items ← some_or (TypeError NoneOperand) (mapM id items);
  mret (Py.join sep items).

(** [_proc_cmd] *)
Definition _proc_cmd : M (list string) :=
  cmd ← _proc_cmd_args;
  joined ← join_items " " cmd;
  mret (cfg_ssh_cmd cfg (cfg_index cfg) joined).

End RemoteWorker.

(** ** [RemotePool]: the handler of [MetadataPull] *)

(** The setup metadata as a reader finds it: every attribute by value,
    the reference to the workspace paths followed. *)
Record SetupMetadata : Type := mkSetupMetadata {
  sm_push_dirs : option (list string);
  sm_push_files : option (list string);
  sm_push_dir : option string;
  sm_setup_script : option (list string);
  sm_env : option (gmap string string);
  sm_workspace_paths : option (LocationPaths (option string));
  sm_workspace_pushed : bool
}.

Definition read_setup_metadata (w : RemoteWorker) : SetupMetadata :=
  let m := setup_metadata w in
  {| sm_push_dirs := push_dirs m;
     sm_push_files := push_files m;
     sm_push_dir := push_dir m;
     sm_setup_script := setup_script m;
     sm_env := env m;
     sm_workspace_paths :=
       match workspace_paths m with
       | Some WorkspacePathsOfWorker => Some (_workspace_paths w)
       | None => None
       end;
     sm_workspace_pushed := workspace_pushed m |}.

Inductive message_cmd : Type :=
  | MetadataPull
  | Metadata.

(** Modelled from the spec: [Message.make] and [Worker.respond] (the
    modules [communication] and [base] of the package are not part of
    this file).  A response is a message with a command and a payload;
    responding hands it to the worker's transport, which is the list of
    messages sent so far. *)
Record Message : Type := mkMessage {
  msg_cmd : message_cmd;
  msg_data : SetupMetadata
}.

Definition make (cmd : message_cmd) (data : SetupMetadata) : Message :=
  mkMessage cmd data.

Record Served : Type := mkServed {
  served_worker : World;
  responses : list Message
}.

Definition respond (msg : Message) (s : Served) : Served :=
  mkServed (served_worker s) (responses s ++ [msg]).

(** [RemotePool._worker_setup_metadata(worker, response)], the handler
    registered for [Message.MetadataPull]. *)
Definition _worker_setup_metadata (s : Served) : Served :=
  respond (make Metadata (read_setup_metadata (worker (served_worker s)))) s.

(** The pool receiving [n] [MetadataPull] requests from the worker. *)
Fixpoint receive_pulls (n : nat) (s : Served) : Served :=
  match n with
  | O => s
  | S n' => receive_pulls n' (_worker_setup_metadata s)
  end.

(** What happens around a prepared worker, in any order: the pool
    handles a [MetadataPull], or the worker runs one of the methods that
    follow the preparation ([_proc_cmd] when the child process is
    started, [stopping] or [aborting] when it ends). *)
Inductive pool_event : Type :=
  | Pull
  | ProcCmd
  | Stopping
  | Aborting.

Definition pool_step (h : Host) (cfg : Cfg) (s : Served) (ev : pool_event)
  : Served :=
  match ev with
  | Pull => _worker_setup_metadata s
  | ProcCmd =>
      mkServed (_proc_cmd h cfg (served_worker s)).2 (responses s)
  | Stopping =>
      mkServed (stopping h cfg (served_worker s)).2 (responses s)
  | Aborting =>
      mkServed (aborting h cfg (served_worker s)).2 (responses s)
  end.

Definition pool_run (h : Host) (cfg : Cfg) (evs : list pool_event)
    (s : Served) : Served :=
  foldl (pool_step h cfg) s evs.

#[export] Instance pool_event_eq_dec : EqDecision pool_event.
Proof. solve_decision. Defined.

(** The number of [MetadataPull] requests among the events. *)
Definition pulls (evs : list pool_event) : nat :=
  length (filter (λ ev, ev = Pull) evs).

(** Modelled from the spec: [pathutils.to_posix_path] (module
    [testplan.common.utils.path], which is not part of this file), which
    converts a path in the format of the local machine to POSIX format:
    the path is split at the separator of the machine and joined again
    with [/]. *)
Definition to_posix (sep : ascii) (path : string) : string :=
  Py.join "/" (Py.split sep path).

(** ** A concrete plan

    One host [h1] with two workers, the workspace [/home/u/ws], the
    working directory [/home/u/ws/t] and the plan named [plan], on a POSIX
    machine where every command succeeds. *)

Module Scenario.

(** [os.path.relpath] on a path below [start], both normalised. *)
Definition relpath_below (path start : string) : string :=
  if String.eqb path start then "."
  else String.substring (String.length start + 1)
         (String.length path - String.length start - 1) path.

Definition directories : list string :=
  ["/a"; "/a/b"; "/a/c"; "/d"; "/home/u/ws/a"].
Definition files : list string :=
  ["/home/u/ws/a/x.txt"; "/etc/cfg.yml"].

Definition host : Host :=
  {| os_sep := "/";
     getuser := "u";
     environ := ∅;
     pwd := "/home/u/ws/t";
     platform_system := "Linux";
     python_version := "3.7.4";
     sys_executable := "/usr/bin/python";
     isfile := λ p, bool_decide (p ∈ files);
     isdir := λ p, bool_decide (p ∈ directories);
     relpath := relpath_below;
     path_join := λ a b, a +:+ "/" +:+ b;
     slugify := λ s, s;
     fix_home_prefix := λ s, s;
     is_subdir := λ child parent, String.prefix parent child;
     to_posix_path := λ p, p;
     TESTPLAN_DEPENDENCIES_PATH := "TESTPLAN_DEPENDENCIES_PATH";
     testplan_abspath := "/usr/lib/python3/site-packages";
     child_path := "/usr/lib/python3/site-packages/testplan/runners/pools/child.py";
     transport_address := "10.0.0.1:4000";
     parent_runpath := "/home/u/runpath";
     dirname := Py.rpartition_head "/";
     makedirs := λ _, true;
     effective_log_level := 20;
     returncode := λ _ _, 0%Z |}.

(** The same plan started from a machine whose separator is the
    backslash, with the workspace [C:\ws] and the working directory
    [C:\ws\t]. *)
Definition windows_host : Host :=
  {| os_sep := "\";
     getuser := "u";
     environ := {["PYTHON3_REMOTE_BINARY" := "/usr/bin/python3"]};
     pwd := "C:\ws\t";
     platform_system := "Windows";
     python_version := "3.7.4";
     sys_executable := "C:\Python37\python.exe";
     isfile := λ _, false;
     isdir := λ _, false;
     relpath := relpath_below;
     path_join := λ a b, a +:+ "\" +:+ b;
     slugify := λ s, s;
     fix_home_prefix := λ s, s;
     is_subdir := λ child parent, String.prefix parent child;
     to_posix_path := to_posix "\";
     TESTPLAN_DEPENDENCIES_PATH := "TESTPLAN_DEPENDENCIES_PATH";
     testplan_abspath := "C:\Python37\Lib\site-packages";
     child_path := "C:\Python37\Lib\site-packages\testplan\runners\pools\child.py";
     transport_address := "10.0.0.1:4000";
     parent_runpath := "C:\runpath";
     dirname := Py.rpartition_head "\";
     makedirs := λ _, true;
     effective_log_level := 20;
     returncode := λ _ _, 0%Z |}.

Definition ssh_cmd (host command : string) : list string :=
  ["ssh"; host; command].
Definition copy_cmd (source target : option string) (args : copy_args)
  : list string :=
  ["rsync"; Py.str source; Py.str target].
Definition link_cmd (path link : string) : list string :=
  ["/bin/ln"; "-sfn"; path; link].
Definition remote_filepath_exists (ssh : ssh_cmd_t) (host path : string)
  : list string :=
  ssh host ("test -e " +:+ path).

(** The plan, up to the options that the statements vary. *)
Definition make_cfg (push : option (list push_item))
    (push_relative_dir remote_workspace : option string)
    (copy_workspace_check :
       option (ssh_cmd_t → string → string → list string)) : Cfg :=
  {| cfg_index := "h1";
     cfg_workers := 2;
     cfg_pool_type := "thread";
     cfg_plan_name := "plan";
     cfg_ssh_cmd := ssh_cmd;
     cfg_copy_cmd := copy_cmd;
     cfg_link_cmd := link_cmd;
     cfg_workspace := "/home/u/ws";
     cfg_workspace_exclude := Some [];
     cfg_remote_workspace := remote_workspace;
     cfg_copy_workspace_check := copy_workspace_check;
     cfg_env := None;
     cfg_setup_script := None;
     cfg_push := push;
     cfg_push_exclude := Some [];
     cfg_push_relative_dir := push_relative_dir;
     cfg_pull := Some [];
     cfg_pull_exclude := Some [];
     cfg_remote_mkdir := ["/bin/mkdir"; "-p"];
     cfg_testplan_path := None |}.

Definition cfg : Cfg := make_cfg (Some []) None None None.

(** A pushed directory whose destination is its own path. *)
Definition dir (path : string) : PushPath := mkLocationPaths path path.

(** The new worker once prepared. *)
Definition prepared : World :=
  (_prepare_remote host cfg (World_init host)).2.

Definition windows_cfg : Cfg :=
  {| cfg_index := "h1";
     cfg_workers := 2;
     cfg_pool_type := "thread";
     cfg_plan_name := "plan";
     cfg_ssh_cmd := ssh_cmd;
     cfg_copy_cmd := copy_cmd;
     cfg_link_cmd := link_cmd;
     cfg_workspace := "C:\ws";
     cfg_workspace_exclude := Some [];
     cfg_remote_workspace := None;
     cfg_copy_workspace_check := None;
     cfg_env := None;
     cfg_setup_script := None;
     cfg_push := Some [];
     cfg_push_exclude := Some [];
     cfg_push_relative_dir := None;
     cfg_pull := Some [];
     cfg_pull_exclude := Some [];
     cfg_remote_mkdir := ["/bin/mkdir"; "-p"];
     cfg_testplan_path := None |}.

Definition windows_prepared : World :=
  (_prepare_remote windows_host windows_cfg (World_init windows_host)).2.

(** The plan that pushes one file relative to the workspace, and its
    worker once the remote directories are defined. *)
Definition relative_cfg : Cfg :=
  make_cfg (Some [PushStr "/home/u/ws/a/x.txt"]) (Some "/home/u/ws")
    None None.

Definition with_remote_dirs : World :=
  (_define_remote_dirs host relative_cfg (World_init host)).2.

End Scenario.

(** ** Vocabulary of the statements *)

Module DedupSpec.

(** What the marking loop leaves in each slot of a list: an element is
    replaced by [None] when the element after it starts with it. *)
Fixpoint marks (l : list PushPath) : list (option PushPath) :=
  match l with
  | [] => []
  | x :: l' =>
      match l' with
      | [] => [Some x]
      | y :: _ =>
          (if Py.startswith (local y) (local x) then None else Some x)
          :: marks l'
      end
  end.

(** No element's local path is a prefix of the local path of an element
    at another position. *)
Definition prefix_free (l : list PushPath) : Prop :=
  ∀ i j x y, i ≠ j → l !! i = Some x → l !! j = Some y →
             Py.startswith (local y) (local x) = false.

(** Ascending local paths. *)
Definition le_local (x y : PushPath) : Prop :=
  String.leb (local x) (local y) = true.

Definition ascending (l : list PushPath) : Prop :=
  StronglySorted le_local l.

(** Neither path is a prefix of the other. *)
Definition unrelated (x y : PushPath) : Prop :=
  String.prefix (local x) (local y) = false ∧
  String.prefix (local y) (local x) = false.

(** The deduplication as the specification words it: no path of the
    result is a prefix of another, and the survivors are in the order
    they had in the input. *)
Definition input_order_claim (dirs : list PushPath) : Prop :=
  ∃ out, Dedup.eliminate_duplications dirs = Ok out ∧
         prefix_free out ∧ out `sublist_of` dirs.

End DedupSpec.

(** The attributes that the push stage never assigns. *)
Definition layout (w : RemoteWorker) :=
  (_remote_testplan_path w, _remote_testplan_runpath w, _child_paths w,
   _workspace_paths w, _working_dirs w, _should_transfer_workspace w,
   workspace_pushed (setup_metadata w), remote_push_dir w).

(** The remote path layout of the specification. *)
Definition remote_testplan_path_of (h : Host) (cfg : Cfg) : string :=
  "/var/tmp/" +:+ getuser h +:+ "/testplan/remote_workspaces/" +:+
  slugify h (cfg_plan_name cfg).

(** The local workspace, normalised. *)
Definition local_workspace (h : Host) (cfg : Cfg) : string :=
  fix_home_prefix h (cfg_workspace cfg).

Definition remote_workspace_of (h : Host) (cfg : Cfg) : string :=
  remote_testplan_path_of h cfg +:+ "/" +:+
  Py.basename (os_sep h) (local_workspace h cfg).

(** The exit code of the [copy_workspace_check] command of a new worker,
    the first command it runs; [None] when no check is configured. *)
Definition copy_workspace_check_rc (h : Host) (cfg : Cfg) : option Z :=
  (λ check, returncode h []
              (check (cfg_ssh_cmd cfg) (cfg_index cfg) (local_workspace h cfg)))
  <$> cfg_copy_workspace_check cfg.

(** The command that transfers the local workspace, and the one that
    links the remote workspace to [path]. *)
Definition transfer_workspace_cmd (h : Host) (cfg : Cfg) : list string :=
  cfg_copy_cmd cfg (Some (local_workspace h cfg))
    (Some (getuser h +:+ "@" +:+ cfg_index cfg +:+ ":" +:+
           remote_testplan_path_of h cfg))
    (Exclude (cfg_workspace_exclude cfg)).

Definition link_workspace_cmd (h : Host) (cfg : Cfg) (path : string)
  : list string :=
  cfg_ssh_cmd cfg (cfg_index cfg)
    (Py.join " " (cfg_link_cmd cfg path (remote_workspace_of h cfg))).

(** Whether a new worker decides to transfer its workspace: unless the
    check command exits with code 0. *)
Definition should_transfer_of (h : Host) (cfg : Cfg) : bool :=
  match copy_workspace_check_rc h cfg with
  | Some rc => negb (rc =? 0)%Z
  | None => true
  end.

(** A method respects a relation between the state before and the state
    after when the relation holds whether the method returns or raises. *)
Definition respects (R : relation World) {A} (m : M A) : Prop :=
  ∀ σ, R σ (m σ).2.

(** The relation used for frame properties: an observation [f] of the
    worker object is unchanged, and the list of executed commands has
    only grown. *)
Definition keeps {B} (f : RemoteWorker → B) : relation World :=
  λ σ σ', f (worker σ') = f (worker σ) ∧ executed σ `prefix_of` executed σ'.

(** ** Vocabulary of the further properties *)

(** Variations of a machine and of a plan, for the statements about
    failures. *)
Definition with_returncode
    (rc : list (list string * Z) → list string → Z) (h : Host) : Host :=
  mkHost (os_sep h) (getuser h) (environ h) (pwd h) (platform_system h)
    (python_version h) (sys_executable h) (isfile h) (isdir h) (relpath h)
    (path_join h) (slugify h) (fix_home_prefix h) (is_subdir h)
    (to_posix_path h) (TESTPLAN_DEPENDENCIES_PATH h) (testplan_abspath h)
    (child_path h) (transport_address h) (parent_runpath h) (dirname h)
    (makedirs h) (effective_log_level h) rc.

Definition with_makedirs (mk : string → bool) (h : Host) : Host :=
  mkHost (os_sep h) (getuser h) (environ h) (pwd h) (platform_system h)
    (python_version h) (sys_executable h) (isfile h) (isdir h) (relpath h)
    (path_join h) (slugify h) (fix_home_prefix h) (is_subdir h)
    (to_posix_path h) (TESTPLAN_DEPENDENCIES_PATH h) (testplan_abspath h)
    (child_path h) (transport_address h) (parent_runpath h) (dirname h)
    mk (effective_log_level h) (returncode h).

Definition with_environ (vars : gmap string string) (h : Host) : Host :=
  mkHost (os_sep h) (getuser h) vars (pwd h) (platform_system h)
    (python_version h) (sys_executable h) (isfile h) (isdir h) (relpath h)
    (path_join h) (slugify h) (fix_home_prefix h) (is_subdir h)
    (to_posix_path h) (TESTPLAN_DEPENDENCIES_PATH h) (testplan_abspath h)
    (child_path h) (transport_address h) (parent_runpath h) (dirname h)
    (makedirs h) (effective_log_level h) (returncode h).

Definition with_pwd (cwd : string) (h : Host) : Host :=
  mkHost (os_sep h) (getuser h) (environ h) cwd (platform_system h)
    (python_version h) (sys_executable h) (isfile h) (isdir h) (relpath h)
    (path_join h) (slugify h) (fix_home_prefix h) (is_subdir h)
    (to_posix_path h) (TESTPLAN_DEPENDENCIES_PATH h) (testplan_abspath h)
    (child_path h) (transport_address h) (parent_runpath h) (dirname h)
    (makedirs h) (effective_log_level h) (returncode h).

Definition with_testplan_abspath (path : string) (h : Host) : Host :=
  mkHost (os_sep h) (getuser h) (environ h) (pwd h) (platform_system h)
    (python_version h) (sys_executable h) (isfile h) (isdir h) (relpath h)
    (path_join h) (slugify h) (fix_home_prefix h) (is_subdir h)
    (to_posix_path h) (TESTPLAN_DEPENDENCIES_PATH h) path
    (child_path h) (transport_address h) (parent_runpath h) (dirname h)
    (makedirs h) (effective_log_level h) (returncode h).

Definition with_relpath (rel : string → string → string) (h : Host) : Host :=
  mkHost (os_sep h) (getuser h) (environ h) (pwd h) (platform_system h)
    (python_version h) (sys_executable h) (isfile h) (isdir h) rel
    (path_join h) (slugify h) (fix_home_prefix h) (is_subdir h)
    (to_posix_path h) (TESTPLAN_DEPENDENCIES_PATH h) (testplan_abspath h)
    (child_path h) (transport_address h) (parent_runpath h) (dirname h)
    (makedirs h) (effective_log_level h) (returncode h).

(** [posixpath.relpath(path, start)] for two absolute, normalised paths:
    one [..] for each directory of [start] that is not among the leading
    directories the two paths share, then what is left of [path]; [.]
    when nothing is left. *)
Fixpoint drop_common (path start : list string)
  : list string * list string :=
  match path, start with
  | x :: path', y :: start' =>
      if String.eqb x y then drop_common path' start' else (path, start)
  | _, _ => (path, start)
  end.

Definition posix_relpath (path start : string) : string :=
  let fields p := filter (λ f, f ≠ EmptyString) (Py.split "/" p) in
  let '(rest, up) := drop_common (fields path) (fields start) in
  match (replicate (length up) ".." ++ rest)%list with
  | [] => "."
  | rel_list => Py.join "/" rel_list
  end.

(** The machine of the concrete plan, started from [/home/u/ws2], a
    directory beside the workspace [/home/u/ws]. *)
Definition beside_workspace : Host :=
  with_relpath posix_relpath (with_pwd "/home/u/ws2" Scenario.host).

Definition with_pull (pull : option (list string)) (cfg : Cfg) : Cfg :=
  mkCfg (cfg_index cfg) (cfg_workers cfg) (cfg_pool_type cfg)
    (cfg_plan_name cfg) (cfg_ssh_cmd cfg) (cfg_copy_cmd cfg)
    (cfg_link_cmd cfg) (cfg_workspace cfg) (cfg_workspace_exclude cfg)
    (cfg_remote_workspace cfg) (cfg_copy_workspace_check cfg) (cfg_env cfg)
    (cfg_setup_script cfg) (cfg_push cfg) (cfg_push_exclude cfg)
    (cfg_push_relative_dir cfg) pull (cfg_pull_exclude cfg)
    (cfg_remote_mkdir cfg) (cfg_testplan_path cfg).

(** A command that exited with code 0. *)
Definition done_ok (cmd : list string) : list string * Z := (cmd, 0%Z).

(** The commands that push one entry: the creation of the remote
    directory that holds its destination, then its transfer. *)
Definition push_entry_commands (cfg : Cfg) (user : string) (item : PushPath)
  : list (list string) :=
  [cfg_ssh_cmd cfg (cfg_index cfg)
     (Py.join " "
        (cfg_remote_mkdir cfg ++ [Py.rpartition_head "/" (remote item)]));
   cfg_copy_cmd cfg (Some (local item))
     (Some (user +:+ "@" +:+ cfg_index cfg +:+ ":" +:+ remote item))
     (Exclude (cfg_push_exclude cfg))].

(** What the classification loop makes of one (source, destination)
    pair: a file, a directory, or an error in the log. *)
Definition as_push_file (h : Host) (pair : string * string)
  : option PushPath :=
  let source := Py.rstrip (os_sep h) pair.1 in
  if isfile h source then Some (mkLocationPaths source pair.2) else None.

Definition as_push_dir (h : Host) (pair : string * string)
  : option PushPath :=
  let source := Py.rstrip (os_sep h) pair.1 in
  if isfile h source then None
  else if isdir h source then Some (mkLocationPaths source pair.2)
  else None.

Definition as_unpushable (h : Host) (pair : string * string)
  : option log_event :=
  let source := Py.rstrip (os_sep h) pair.1 in
  if isfile h source then None
  else if isdir h source then None
  else Some (ErrorCannotBePushed source).

(** The destination of a source pushed relative to [root], under the
    remote push directory. *)
Definition relative_push_dest (h : Host) (push_dir root source : string)
  : string :=
  Py.join "/" [push_dir; to_posix_path h (relpath h source root)].

(** The first source that [pathutils.is_subdir] does not find under
    [root]. *)
Definition first_outside (h : Host) (root : string) (sources : list string)
  : option string :=
  find (λ source, negb (is_subdir h source root)) sources.

(** Commands that have all exited with code 0. *)
Definition zero_exits (cmds : list (list string * Z)) : Prop :=
  Forall (λ e, e.2 = 0%Z) cmds.

(** What the outcome of a method says about the commands it has run:
    when it raised the failure of a command, that command is the last
    one run, it exited with another code than 0 and those before it
    exited with 0; otherwise they all exited with 0. *)
Definition trace_of {A} (r : result A) (cmds : list (list string * Z))
  : Prop :=
  match r with
  | Raise (RuntimeError (CommandFailed cmd rc)) =>
      rc ≠ 0%Z ∧ ∃ before, cmds = before ++ [(cmd, rc)] ∧ zero_exits before
  | _ => zero_exits cmds
  end.

(** A method that stops at the first command that fails. *)
Definition fails_fast {A} (m : M A) : Prop :=
  ∀ σ, ∃ cmds, executed (m σ).2 = executed σ ++ cmds ∧ trace_of (m σ).1 cmds.

(** The local directory that receives a pulled entry, and the command
    that pulls it. *)
Definition pull_target (h : Host) (entry : string) : string :=
  Py.join (String (os_sep h) EmptyString) (Py.split "/" (dirname h entry)).

Definition pull_command (h : Host) (cfg : Cfg) (user entry : string)
  : list string :=
  cfg_copy_cmd cfg
    (Some (user +:+ "@" +:+ cfg_index cfg +:+ ":" +:+ entry))
    (Some (pull_target h entry)) (Exclude (cfg_pull_exclude cfg)).

(** The commands run, and the errors logged, by the pull of the entries:
    an entry whose local directory could be created is pulled, the
    others are reported. *)
Definition pull_commands (h : Host) (cfg : Cfg) (user : string)
    (entries : list string) : list (list string) :=
  flat_map (λ entry,
    if makedirs h (pull_target h entry)
    then [pull_command h cfg user entry] else []) entries.

Definition pull_errors (h : Host) (entries : list string) : list log_event :=
  flat_map (λ entry,
    if makedirs h (pull_target h entry)
    then [] else [ErrorCouldNotCreateDirectory (pull_target h entry)])
    entries.

(** The entries of [cfg.pull] as the loop of [_pull_files] sees them. *)
Definition pull_entries (cfg : Cfg) : list string :=
  Py.rstrip "/" <$> default [] (cfg_pull cfg).

(** The commands of [_prepare_remote] for a new worker, before the push:
    the check of the workspace when one is configured, with the exit
    code it has as the first command; then the creation of the remote
    directory, the copy of the child script, the copy of the
    dependencies module when the environment names one, and the
    transfer or the link of the workspace. *)
Definition check_workspace_commands (h : Host) (cfg : Cfg)
  : list (list string * Z) :=
  match cfg_copy_workspace_check cfg with
  | Some check =>
      let cmd := check (cfg_ssh_cmd cfg) (cfg_index cfg)
                   (local_workspace h cfg) in
      [(cmd, returncode h [] cmd)]
  | None => []
  end.

Definition create_remote_dirs_cmd (h : Host) (cfg : Cfg) : list string :=
  remote_shell cfg (cfg_remote_mkdir cfg ++ [remote_testplan_path_of h cfg]).

Definition copy_child_cmd (h : Host) (cfg : Cfg) : list string :=
  cfg_copy_cmd cfg (Some (child_path h))
    (Some (getuser h +:+ "@" +:+ cfg_index cfg +:+ ":" +:+
           remote_testplan_path_of h cfg +:+ "/child.py"))
    NoCopyArgs.

Definition copy_dependencies_cmds (h : Host) (cfg : Cfg)
  : list (list string) :=
  match environ h !! "TESTPLAN_DEPENDENCIES_PATH" with
  | Some path =>
      [cfg_copy_cmd cfg (Some (path +:+ "/dependencies.py"))
         (Some (getuser h +:+ "@" +:+ cfg_index cfg +:+ ":" +:+
                remote_testplan_path_of h cfg +:+ "/dependencies.py"))
         NoCopyArgs]
  | None => []
  end.

Definition workspace_cmd (h : Host) (cfg : Cfg) : list string :=
  match cfg_remote_workspace cfg with
  | Some (String _ _ as remote_workspace) =>
      link_workspace_cmd h cfg (fix_home_prefix h remote_workspace)
  | _ =>
      if should_transfer_of h cfg then transfer_workspace_cmd h cfg
      else link_workspace_cmd h cfg (local_workspace h cfg)
  end.

Definition staging_commands (h : Host) (cfg : Cfg) : list (list string) :=
  [create_remote_dirs_cmd h cfg; copy_child_cmd h cfg] ++
  copy_dependencies_cmds h cfg ++ [workspace_cmd h cfg].

(** The environment variable that names the interpreter of the child
    process when the pool runs on Windows. *)
Definition remote_binary_variable (h : Host) : string :=
  if Py.startswith (python_version h) "3"
  then "PYTHON3_REMOTE_BINARY" else "PYTHON2_REMOTE_BINARY".

(** The interpreter that the command of the child process names: read
    from the environment on Windows, the local interpreter elsewhere. *)
Definition python_binary_of (h : Host) : option string :=
  if String.eqb (platform_system h) "Windows"
  then environ h !! remote_binary_variable h
  else Some (sys_executable h).

(** The tokens that end the command of the child process of a worker
    prepared from [cfg]: [--testplan] with the configured path, or with
    the path of the package rewritten into the remote workspace when the
    path of the package starts with the path of the local workspace, and
    nothing otherwise; [--testplan-deps] with the value of the
    dependencies variable when the worker decided not to transfer its
    workspace and the variable is set to a non-empty value, and nothing
    otherwise. *)
Definition testplan_flag (h : Host) (cfg : Cfg) : list string :=
  match cfg_testplan_path cfg with
  | Some (String _ _ as path) => ["--testplan"; path]
  | _ =>
      if Py.startswith (testplan_abspath h) (local_workspace h cfg) then
        ["--testplan";
         remote_workspace_of h cfg +:+ "/" +:+
         Py.join "/"
           (Py.split (os_sep h)
              (relpath h (testplan_abspath h) (local_workspace h cfg)))]
      else []
  end.

Definition testplan_deps_flag (h : Host) (cfg : Cfg) : list string :=
  if should_transfer_of h cfg then []
  else
    match environ h !! TESTPLAN_DEPENDENCIES_PATH h with
    | Some (String _ _ as path) => ["--testplan-deps"; path]
    | _ => []
    end.

(** The command that fetches the results of a worker. *)
Definition fetch_results_cmd (h : Host) (cfg : Cfg) (w : RemoteWorker)
  : list string :=
  cfg_copy_cmd cfg
    (Some (_user w +:+ "@" +:+ cfg_index cfg +:+ ":" +:+
           Py.str (_remote_testplan_runpath w)))
    (Some (parent_runpath h)) NoCopyArgs.

(** * Properties *)

(** ** The order of strings *)

Section StringOrder.

Lemma ascii_compare_refl (a : ascii) : Ascii.compare a a = Eq.
Proof. unfold Ascii.compare. apply N.compare_refl. Qed.

Lemma string_compare_refl (s : string) : String.compare s s = Eq.
Proof.
  induction s as [|a s IH]; simpl; [done|].
  by rewrite ascii_compare_refl.
Qed.

Lemma string_leb_refl (s : string) : String.leb s s = true.
Proof. unfold String.leb. by rewrite string_compare_refl. Qed.

Lemma ascii_compare_lt_trans (a b c : ascii) :
  Ascii.compare a b = Lt → Ascii.compare b c = Lt → Ascii.compare a c = Lt.
Proof.
  unfold Ascii.compare. rewrite !N.compare_lt_iff. apply N.lt_trans.
Qed.

Lemma string_leb_cons (a b : ascii) (s t : string) :
  String.leb (String a s) (String b t) = true ↔
  Ascii.compare a b = Lt ∨ (a = b ∧ String.leb s t = true).
Proof.
  unfold String.leb; simpl.
  destruct (Ascii.compare a b) eqn:Hab.
  - apply Ascii.compare_eq_iff in Hab as ->.
    split; [by right|]. by intros [?|[_ ?]].
  - split; [by left|done].
  - split; [done|]. intros [?|[-> _]]; [done|].
    by rewrite ascii_compare_refl in Hab.
Qed.

Lemma string_leb_trans (s1 s2 s3 : string) :
  String.leb s1 s2 = true → String.leb s2 s3 = true →
  String.leb s1 s3 = true.
Proof.
  revert s2 s3.
  induction s1 as [|a s1 IH]; intros [|b s2] [|c s3]; try done.
  rewrite !string_leb_cons.
  intros [Hab|[-> H12]] [Hbc|[-> H23]]; eauto using ascii_compare_lt_trans.
Qed.

Lemma prefix_nil (s : string) : String.prefix EmptyString s = true.
Proof. by destruct s. Qed.

Lemma prefix_cons (a b : ascii) (s t : string) :
  String.prefix (String a s) (String b t) = true ↔
  a = b ∧ String.prefix s t = true.
Proof. simpl. destruct (ascii_dec a b); intuition congruence. Qed.

Lemma prefix_refl (s : string) : String.prefix s s = true.
Proof.
  induction s as [|a s IH]; [done|]. by apply prefix_cons.
Qed.

Lemma prefix_leb (p s : string) :
  String.prefix p s = true → String.leb p s = true.
Proof.
  revert s. induction p as [|a p IH]; intros [|b s]; try done.
  rewrite prefix_cons, string_leb_cons. intros [-> Hps]. right. eauto.
Qed.

(** In the lexicographic order, whatever lies between a string and one
    of its extensions is an extension of it too. *)
Lemma prefix_between (x z y : string) :
  String.leb x z = true → String.leb z y = true →
  String.prefix x y = true → String.prefix x z = true.
Proof.
  revert z y.
  induction x as [|a x IH]; intros z y; [intros; apply prefix_nil|].
  destruct y as [|b y]; [done|].
  destruct z as [|c z]; [done|].
  rewrite !string_leb_cons, !prefix_cons.
  intros Hxz Hzy [-> Hxy].
  destruct Hxz as [Hlt|[-> Hxz]].
  - exfalso. destruct Hzy as [Hlt'|[-> _]].
    + rewrite Ascii.compare_antisym in Hlt'. by rewrite Hlt in Hlt'.
    + by rewrite ascii_compare_refl in Hlt.
  - split; [done|]. destruct Hzy as [Hlt|[_ Hzy]].
    + by rewrite ascii_compare_refl in Hlt.
    + eauto.
Qed.

Lemma prefix_app (a b : string) : String.prefix a (a +:+ b) = true.
Proof. induction a as [|c a IH]; [apply prefix_nil|]. by apply prefix_cons. Qed.

Lemma prefix_app_mono (a b c : string) :
  String.prefix b c = true → String.prefix (a +:+ b) (a +:+ c) = true.
Proof. intros Hbc. induction a as [|x a IH]; [done|]. by apply prefix_cons. Qed.

End StringOrder.

(** ** Reasoning about worker methods *)

Section Monad.

Lemma bind_run {A B} (m : M A) (k : A → M B) (σ : World) :
  (m ≫= k) σ =
  match m σ with
  | (Ok a, σ') => k a σ'
  | (Raise e, σ') => (Raise e, σ')
  end.
Proof. reflexivity. Qed.

Lemma bind_Ok_inv {A B} (m : M A) (k : A → M B) (σ σ' : World) (b : B) :
  (m ≫= k) σ = (Ok b, σ') →
  ∃ a σ1, m σ = (Ok a, σ1) ∧ k a σ1 = (Ok b, σ').
Proof.
  rewrite bind_run. destruct (m σ) as [[a|e] σ1]; [eauto|done].
Qed.

Context (R : relation World) `{!PreOrder R}.

Lemma respects_ret {A} (a : A) : respects R (mret a).
Proof. intros σ. reflexivity. Qed.

Lemma respects_raise {A} (e : exn) : respects R (@raise A e).
Proof. intros σ. reflexivity. Qed.

Lemma respects_get : respects R get.
Proof. intros σ. reflexivity. Qed.

Lemma respects_lift {A} (r : result A) : respects R (lift r).
Proof. intros σ. reflexivity. Qed.

Lemma respects_some_or {A} (e : exn) (x : option A) :
  respects R (some_or e x).
Proof. destruct x; [apply respects_ret|apply respects_raise]. Qed.

Lemma respects_bind {A B} (m : M A) (k : A → M B) :
  respects R m → (∀ a, respects R (k a)) → respects R (m ≫= k).
Proof.
  intros Hm Hk σ. rewrite bind_run.
  specialize (Hm σ). destruct (m σ) as [[a|e] σ1]; simpl in *; [|done].
  trans σ1; [done|apply Hk].
Qed.

Lemma respects_for_each {A} (xs : list A) (body : A → M unit) :
  (∀ x, respects R (body x)) → respects R (for_each xs body).
Proof.
  intros Hbody. induction xs as [|x xs IH]; simpl.
  - apply respects_ret.
  - by apply respects_bind.
Qed.

Lemma respects_try_except {A} (m : M A) (handler : exn → M A) :
  respects R m → (∀ e, respects R (handler e)) →
  respects R (try_except m handler).
Proof.
  intros Hm Hh σ. unfold try_except.
  specialize (Hm σ). destruct (m σ) as [[a|e] σ1]; simpl in *; [done|].
  trans σ1; [done|apply Hh].
Qed.

Lemma respects_map_M {A B} (f : A → M B) (xs : list A) :
  (∀ x, respects R (f x)) → respects R (map_M f xs).
Proof.
  intros Hf. induction xs as [|x xs IH]; simpl.
  - apply respects_ret.
  - apply respects_bind; [done|]. intros y.
    apply respects_bind; [done|]. intros ys. apply respects_ret.
Qed.

End Monad.

#[export] Instance keeps_preorder {B} (f : RemoteWorker → B) :
  PreOrder (keeps f).
Proof.
  split.
  - intros σ. by split.
  - intros σ1 σ2 σ3 [H12 P12] [H23 P23]. split; [congruence|by trans (executed σ2)].
Qed.

Section Frame.

Context {B : Type} (f : RemoteWorker → B).
Context (h : Host) (cfg : Cfg).

Lemma respects_modify (g : RemoteWorker → RemoteWorker) :
  (∀ w, f (g w) = f w) → respects (keeps f) (modify g).
Proof. intros Hg σ. split; simpl; [apply Hg|done]. Qed.

Lemma respects_emit (ev : log_event) : respects (keeps f) (emit ev).
Proof. intros σ. by split. Qed.

Lemma respects_execute_cmd (cmd : list string) (check : bool) :
  respects (keeps f) (_execute_cmd h cmd check).
Proof.
  intros σ. unfold _execute_cmd.
  destruct (check && _); (split; simpl; [done|by apply prefix_app_r]).
Qed.

End Frame.

(** Decomposition of a method into the steps above; the frames of the
    methods proved so far are collected in the hint database [frame]. *)
Create HintDb frame discriminated.

Ltac frame_step :=
  first
  [ solve [auto 1 with frame nocore]
  | lazymatch goal with
    | |- respects _ (mbind _ _) =>
        apply respects_bind; [apply _| |intros ?; cbv beta]
    | |- respects _ (mret _) => apply respects_ret; apply _
    | |- respects _ (raise _) => apply respects_raise; apply _
    | |- respects _ get => apply respects_get; apply _
    | |- respects _ (lift _) => apply respects_lift; apply _
    | |- respects _ (some_or _ _) => apply respects_some_or; apply _
    | |- respects _ (modify _) =>
        apply respects_modify; intros ?; reflexivity
    | |- respects _ (emit _) => apply respects_emit
    | |- respects _ (_execute_cmd _ _ _) => apply respects_execute_cmd
    | |- respects _ (for_each _ _) =>
        apply respects_for_each; [apply _|intros ?; cbv beta]
    | |- respects _ (map_M _ _) =>
        apply respects_map_M; [apply _|intros ?; cbv beta]
    | |- respects _ (try_except _ _) =>
        apply respects_try_except; [apply _| |intros ?; cbv beta]
    | |- respects _ (if ?b then _ else _) => destruct b
    | |- respects _ (match ?x with _ => _ end) => destruct x
    end ].

Ltac frame := repeat frame_step.

Section MethodFrames.

Context {B : Type} (f : RemoteWorker → B).
Context (h : Host) (cfg : Cfg).

Lemma respects_mkdir_remote (dir : option string) :
  respects (keeps f) (_mkdir_remote h cfg dir).
Proof. unfold _mkdir_remote. frame. Qed.

Lemma respects_transfer_data source target rs rt args :
  respects (keeps f) (_transfer_data h cfg source target rs rt args).
Proof. unfold _transfer_data. frame. Qed.

Hint Resolve respects_mkdir_remote respects_transfer_data : frame.

Lemma respects_create_remote_dirs :
  respects (keeps f) (_create_remote_dirs h cfg).
Proof. unfold _create_remote_dirs. frame. Qed.

Lemma respects_copy_dependencies_module :
  respects (keeps f) (_copy_dependencies_module h cfg).
Proof. unfold _copy_dependencies_module. frame. Qed.

Lemma respects_remote_working_dir :
  respects (keeps f) (_remote_working_dir h).
Proof. unfold _remote_working_dir. frame. Qed.

Lemma respects_fetch_results :
  respects (keeps f) (_fetch_results h cfg).
Proof. unfold _fetch_results. frame. Qed.

Lemma respects_pull_files : respects (keeps f) (_pull_files h cfg).
Proof. unfold _pull_files. frame. Qed.

Lemma respects_stopping : respects (keeps f) (stopping h cfg).
Proof.
  unfold stopping. pose proof respects_fetch_results.
  pose proof respects_pull_files. frame.
Qed.

Lemma respects_aborting : respects (keeps f) (aborting h cfg).
Proof. unfold aborting. pose proof respects_fetch_results. frame. Qed.

Lemma respects_proc_cmd_args :
  respects (keeps f) (_proc_cmd_args h cfg).
Proof.
  unfold _proc_cmd_args, _add_testplan_import_path, environ_item.
  frame.
Qed.

Lemma respects_proc_cmd : respects (keeps f) (_proc_cmd h cfg).
Proof.
  unfold _proc_cmd, join_items. pose proof respects_proc_cmd_args. frame.
Qed.

Lemma respects_to_relative_push_dest path :
  respects (keeps f) (_to_relative_push_dest h cfg path).
Proof. unfold _to_relative_push_dest. frame. Qed.

Lemma respects_classify locations files dirs :
  respects (keeps f) (classify h locations files dirs).
Proof.
  revert files dirs.
  induction locations as [|location rest IH]; intros files dirs; simpl.
  - frame.
  - frame_step; [frame|].
    destruct a as [source dest]. frame; apply IH.
Qed.

Lemma respects_push_files_to_dst files dirs :
  respects (keeps f) (_push_files_to_dst h cfg files dirs).
Proof. unfold _push_files_to_dst. frame. Qed.

End MethodFrames.

#[export] Hint Resolve respects_mkdir_remote respects_transfer_data
  respects_create_remote_dirs respects_copy_dependencies_module
  respects_remote_working_dir respects_fetch_results respects_pull_files
  respects_stopping respects_aborting respects_proc_cmd_args respects_proc_cmd respects_to_relative_push_dest
  respects_classify respects_push_files_to_dst : frame.

Section PushFrames.

Context (h : Host) (cfg : Cfg).

Lemma respects_build_push_dests (sources : list string) :
  respects (keeps layout) (_build_push_dests h cfg sources).
Proof. unfold _build_push_dests. frame. Qed.

Hint Resolve respects_build_push_dests : frame.

Lemma respects_build_push_lists :
  respects (keeps layout) (_build_push_lists h cfg).
Proof. unfold _build_push_lists. frame. Qed.

Hint Resolve respects_build_push_lists : frame.

Lemma respects_push_files : respects (keeps layout) (_push_files h cfg).
Proof. unfold _push_files. frame. Qed.

End PushFrames.

#[export] Hint Resolve respects_build_push_dests respects_build_push_lists
  respects_push_files : frame.

(** What a frame says about one run. *)
Lemma respects_run {A B} (f : RemoteWorker → B) (m : M A) σ r σ' :
  respects (keeps f) m → m σ = (r, σ') → f (worker σ') = f (worker σ).
Proof. intros Hm Hrun. destruct (Hm σ) as [Hf _]. by rewrite Hrun in Hf. Qed.

Lemma respects_weaken {A B C} (f : RemoteWorker → B) (g : B → C) (m : M A) :
  respects (keeps f) m → respects (keeps (λ w, g (f w))) m.
Proof. intros Hm σ. destruct (Hm σ) as [Hf Hpre]. split; [by f_equal|done]. Qed.

Lemma execute_cmd_Ok_inv (h : Host) cmd check σ rc σ' :
  _execute_cmd h cmd check σ = (Ok rc, σ') →
  rc = returncode h (executed σ) cmd ∧
  σ' = mkWorld (worker σ) (executed σ ++ [(cmd, rc)]) (logged σ) ∧
  (check = true → rc = 0%Z).
Proof.
  unfold _execute_cmd. destruct check; simpl.
  - destruct (Z.eqb_spec (returncode h (executed σ) cmd) 0) as [E|E];
      simpl; intros; simplify_eq. by rewrite E.
  - intros; simplify_eq. done.
Qed.

(** Evaluation of the monad operations in the goal. *)
Ltac run :=
  cbv [mbind M_bind bind mret M_ret ret get some_or raise lift modify emit
       negb].

(** Inversion of a run that returned: the binds are split, the primitive
    steps are replaced by what they say about the states, and the calls
    of methods are left as hypotheses. *)
Ltac invert_run H :=
  cbv beta in H;
  lazymatch type of H with
  | mbind _ _ _ = (Ok _, _) =>
      let H1 := fresh "Hrun" in
      apply bind_Ok_inv in H as (? & ? & H1 & H);
      invert_run H1; invert_run H
  | get _ = (Ok _, _) => unfold get in H; simplify_eq
  | modify _ _ = (Ok _, _) => unfold modify in H; simplify_eq
  | emit _ _ = (Ok _, _) => unfold emit in H; simplify_eq
  | mret _ _ = (Ok _, _) => unfold mret, M_ret, ret in H; simplify_eq
  | ret _ _ = (Ok _, _) => unfold ret in H; simplify_eq
  | raise _ _ = (Ok _, _) => unfold raise in H; simplify_eq
  | lift _ _ = (Ok _, _) => unfold lift in H; simplify_eq
  | some_or _ ?x _ = (Ok _, _) =>
      destruct x eqn:?; simpl in H; invert_run H
  | _ => idtac
  end.

Lemma respects_run_executed {A B} (f : RemoteWorker → B) (m : M A) σ r σ' :
  respects (keeps f) m → m σ = (r, σ') →
  executed σ `prefix_of` executed σ'.
Proof. intros Hm Hrun. destruct (Hm σ) as [_ Hpre]. by rewrite Hrun in Hpre. Qed.

(** ** Path helpers *)

Lemma split_nonempty (sep : ascii) (s : string) : Py.split sep s ≠ [].
Proof.
  destruct s as [|c s]; simpl; [done|].
  destruct (Ascii.eqb c sep); [done|]. by destruct (Py.split sep s).
Qed.

Lemma split_no_sep (sep : ascii) (s : string) :
  Py.has_char sep s = false →
  Py.split sep s = [s].
Proof.
  unfold Py.has_char.
  induction s as [|c s IH]; simpl; [done|].
  rewrite (Ascii.eqb_sym sep c).
  destruct (Ascii.eqb c sep); simpl; [done|].
  intros Hs. by rewrite IH.
Qed.

Lemma split_with_sep (sep : ascii) (s : string) :
  Py.has_char sep s = true →
  ∃ f g fs, Py.split sep s = f :: g :: fs.
Proof.
  unfold Py.has_char.
  induction s as [|c s IH]; simpl; [done|].
  rewrite (Ascii.eqb_sym sep c).
  destruct (Ascii.eqb c sep); simpl.
  - intros _. pose proof (split_nonempty sep s).
    destruct (Py.split sep s) as [|g fs]; [done|]. eauto.
  - intros Hs. destruct (IH Hs) as (f & g & fs & ->). eauto.
Qed.

(** The last field of [split] is the base name. *)
Lemma last_field_split_basename (sep : ascii) (s : string) :
  Py.last_field (Py.split sep s) = Py.basename sep s.
Proof.
  unfold Py.last_field.
  induction s as [|c s IH]; simpl; [done|].
  destruct (Py.has_char sep s) eqn:Hs.
  - rewrite <- IH. destruct (split_with_sep _ _ Hs) as (f & g & fs & ->).
    by destruct (Ascii.eqb c sep).
  - rewrite (split_no_sep _ _ Hs). by destruct (Ascii.eqb c sep).
Qed.

(** ** Elimination of push duplications *)

Section DedupFacts.

Import Dedup DedupSpec.

#[local] Instance le_local_trans : Transitive le_local.
Proof. intros x y z. apply string_leb_trans. Qed.

Lemma le_local_total (x y : PushPath) : le_local x y ∨ le_local y x.
Proof. apply String.leb_total. Qed.

Lemma insert_sorted_perm (x : PushPath) (l : list PushPath) :
  insert_sorted x l ≡ₚ x :: l.
Proof.
  induction l as [|y l IH]; simpl; [done|].
  destruct (key_le x y); [done|].
  rewrite IH. apply Permutation_swap.
Qed.

Lemma sort_by_local_perm (l : list PushPath) : sort_by_local l ≡ₚ l.
Proof.
  induction l as [|x l IH]; simpl; [done|].
  by rewrite insert_sorted_perm, IH.
Qed.

Lemma insert_sorted_ascending (x : PushPath) (l : list PushPath) :
  ascending l → ascending (insert_sorted x l).
Proof.
  unfold ascending.
  induction 1 as [|y l Hl IH Hy]; simpl.
  - repeat constructor.
  - destruct (key_le x y) eqn:Hxy.
    + constructor; [by constructor|].
      constructor; [done|].
      eapply Forall_impl; [exact Hy|].
      intros z Hz. by trans y.
    + constructor; [done|].
      rewrite insert_sorted_perm. constructor; [|done].
      destruct (le_local_total x y) as [Hle|Hle]; [|done].
      unfold key_le in Hxy. unfold le_local in Hle. congruence.
Qed.

Lemma sort_by_local_ascending (l : list PushPath) :
  ascending (sort_by_local l).
Proof.
  induction l as [|x l IH]; simpl.
  - constructor.
  - by apply insert_sorted_ascending.
Qed.

Lemma sort_by_local_length (l : list PushPath) :
  length (sort_by_local l) = length l.
Proof. by rewrite sort_by_local_perm. Qed.

(** The sort is stable: it keeps the order of the elements that have
    the same local path. *)
Lemma insert_sorted_stable (k : string) (x : PushPath) (l : list PushPath) :
  filter (λ y, local y = k) (insert_sorted x l) =
  filter (λ y, local y = k) (x :: l).
Proof.
  induction l as [|y l IH]; simpl; [done|].
  destruct (key_le x y) eqn:Hxy; [done|].
  assert (local x ≠ local y) as Hne.
  { intros E. unfold key_le in Hxy.
    by rewrite E, string_leb_refl in Hxy. }
  rewrite !filter_cons in *.
  repeat case_decide; simplify_eq; by rewrite ?IH.
Qed.

Lemma sort_by_local_stable (k : string) (l : list PushPath) :
  filter (λ y, local y = k) (sort_by_local l) =
  filter (λ y, local y = k) l.
Proof.
  induction l as [|x l IH]; simpl; [done|].
  by rewrite insert_sorted_stable, !filter_cons, IH.
Qed.

(** The marking loop never raises on a list without [None] beyond the
    slots it has visited, and fills the slots as [marks] says. *)
Lemma mark_loop_marks (l : list PushPath) (visited : list (option PushPath)) :
  mark_loop (seq (length visited) (length l - 1))
    (visited ++ (Some <$> l)) = Ok (visited ++ marks l).
Proof.
  revert visited.
  induction l as [|x [|y l] IH]; intros visited; [done..|].
  specialize (IH (visited ++
    [if Py.startswith (local y) (local x) then None else Some x])).
  rewrite length_app, Nat.add_1_r in IH.
  cbn [length Nat.sub seq mark_loop] in *. rewrite Nat.sub_0_r in *.
  unfold mark_step.
  rewrite !fmap_cons.
  replace ((visited ++ Some x :: Some y :: (Some <$> l)) !!
           (length visited + 1)) with (Some (Some y)).
  2:{ symmetry. rewrite (cons_middle (Some x)), app_assoc.
      apply list_lookup_middle. rewrite length_app. simpl. lia. }
  rewrite list_lookup_middle by done.
  rewrite <- (Nat.add_0_r (length visited)) at 1.
  rewrite insert_app_r. simpl.
  cbn [marks].
  rewrite <- !app_assoc in IH. simpl in IH.
  destruct (Py.startswith (local y) (local x)); simpl; exact IH.
Qed.

Lemma mark_loop_from_start (l : list PushPath) :
  mark_loop (seq 0 (length l - 1)) (Some <$> l) = Ok (marks l).
Proof. exact (mark_loop_marks l []). Qed.

Lemma not_none_marks_cons (x y : PushPath) (l : list PushPath) :
  not_none (marks (x :: y :: l)) =
  if Py.startswith (local y) (local x) then not_none (marks (y :: l))
  else x :: not_none (marks (y :: l)).
Proof.
  unfold not_none. cbn [marks]. by destruct (Py.startswith _ _).
Qed.

Lemma not_none_marks_sublist (l : list PushPath) :
  not_none (marks l) `sublist_of` l.
Proof.
  induction l as [|x [|y l] IH]; [done..|].
  rewrite not_none_marks_cons. destruct (Py.startswith _ _).
  - by apply sublist_cons.
  - by apply sublist_skip.
Qed.

Lemma eliminate_duplications_eq (dirs : list PushPath) :
  eliminate_duplications dirs =
  Ok (match dirs with
      | _ :: _ :: _ => not_none (marks (sort_by_local dirs))
      | _ => dirs
      end).
Proof.
  destruct dirs as [|x [|y dirs]]; [done..|].
  unfold eliminate_duplications.
  by rewrite mark_loop_from_start.
Qed.

Lemma sublist_Forall {A} (P : A → Prop) (l k : list A) :
  l `sublist_of` k → Forall P k → Forall P l.
Proof.
  rewrite !Forall_forall. intros Hlk Hk x Hx.
  apply Hk. by eapply elem_of_sublist.
Qed.

Lemma ascending_head_unrelated (x y : PushPath) (l : list PushPath) :
  ascending (x :: y :: l) →
  Py.startswith (local y) (local x) = false →
  Forall (unrelated x) (y :: l).
Proof.
  intros Hasc Hxy.
  apply StronglySorted_inv in Hasc as [Htail Hx].
  apply StronglySorted_inv in Htail as [_ Hy].
  assert (∀ z, le_local x z → le_local y z →
               String.prefix (local x) (local z) = false) as Hfwd.
  { intros z Hxz Hyz.
    destruct (String.prefix (local x) (local z)) eqn:Hpre; [|done].
    apply Forall_inv in Hx.
    unfold Py.startswith in Hxy.
    by rewrite (prefix_between (local x) (local y) (local z)) in Hxy. }
  assert (∀ z, le_local x z → le_local y z → unrelated x z) as Hboth.
  { intros z Hxz Hyz. split; [by apply Hfwd|].
    destruct (String.prefix (local z) (local x)) eqn:Hpre; [|done].
    apply prefix_leb in Hpre.
    pose proof (Hfwd z Hxz Hyz) as Hno.
    rewrite <- (String.leb_antisym _ _ Hxz Hpre) in Hno.
    by rewrite prefix_refl in Hno. }
  constructor.
  - apply Hboth; [by apply Forall_inv in Hx|apply string_leb_refl].
  - apply Forall_inv_tail in Hx.
    rewrite Forall_forall in *. intros z Hz. apply Hboth; auto.
Qed.

Lemma not_none_marks_unrelated (l : list PushPath) :
  ascending l → StronglySorted unrelated (not_none (marks l)).
Proof.
  induction l as [|x [|y l] IH]; intros Hasc.
  - constructor.
  - repeat constructor.
  - pose proof Hasc as Htail. apply StronglySorted_inv in Htail as [Htail _].
    specialize (IH Htail).
    rewrite not_none_marks_cons.
    destruct (Py.startswith (local y) (local x)) eqn:Hxy; [done|].
    constructor; [done|].
    eapply sublist_Forall; [apply not_none_marks_sublist|].
    by apply ascending_head_unrelated.
Qed.

Lemma StronglySorted_lookup_lt {A} (R : relation A) (l : list A) i j x y :
  StronglySorted R l → i < j → l !! i = Some x → l !! j = Some y → R x y.
Proof.
  intros Hl. revert i j.
  induction Hl as [|a l Hl IH Ha]; intros i j Hij Hi Hj; [done|].
  destruct j as [|j]; [lia|].
  destruct i as [|i]; simpl in *.
  - simplify_eq. rewrite Forall_forall in Ha.
    apply Ha. by eapply list_elem_of_lookup_2.
  - eapply IH; [|done..]. lia.
Qed.

Lemma unrelated_prefix_free (l : list PushPath) :
  StronglySorted unrelated l → prefix_free l.
Proof.
  intros Hl i j x y Hij Hi Hj. unfold Py.startswith.
  destruct (decide (i < j)) as [Hlt|Hge].
  - by destruct (StronglySorted_lookup_lt _ _ _ _ _ _ Hl Hlt Hi Hj).
  - assert (j < i) as Hlt by lia.
    by destruct (StronglySorted_lookup_lt _ _ _ _ _ _ Hl Hlt Hj Hi).
Qed.

Lemma ascending_sublist (l k : list PushPath) :
  l `sublist_of` k → ascending k → ascending l.
Proof.
  induction 1 as [|x l k Hlk IH|x l k Hlk IH]; intros Hk; [done|..].
  - apply StronglySorted_inv in Hk as [Hk Hx].
    constructor; [by apply IH|]. by eapply sublist_Forall.
  - apply StronglySorted_inv in Hk as [Hk _]. by apply IH.
Qed.

End DedupFacts.

(** C2.  The specification expects the deduplication of the directories
    [/a], [/a/b], [/a/c], [/d] to return [/a] and [/d].  The code returns
    [/a/b], [/a/c] and [/d]: after the sort, the loop replaces by [None]
    the element that the next one starts with, which is the parent
    directory [/a], and keeps the sub-directories.  This holds whatever
    the remote destinations are, and for [_build_push_lists] run on a
    machine where the four paths are directories. *)
Theorem dedup_drops_parent_keeps_subdirectories (ra rb rc rd : string) :
  Dedup.eliminate_duplications
    [mkLocationPaths "/a" ra; mkLocationPaths "/a/b" rb;
     mkLocationPaths "/a/c" rc; mkLocationPaths "/d" rd] =
  Ok [mkLocationPaths "/a/b" rb; mkLocationPaths "/a/c" rc;
      mkLocationPaths "/d" rd] ∧
  (_build_push_lists Scenario.host
     (Scenario.make_cfg
        (Some [PushStr "/a"; PushStr "/a/b"; PushStr "/a/c"; PushStr "/d"])
        None None None)
     (World_init Scenario.host)).1 =
  Ok ([], Scenario.dir <$> ["/a/b"; "/a/c"; "/d"]).
Proof. split; reflexivity. Qed.

(** The order claimed by the specification fails on the directories
    [/b], [/a]: the code returns [/a], [/b]. *)
Lemma dedup_input_order_counterexample :
  ¬ DedupSpec.input_order_claim (Scenario.dir <$> ["/b"; "/a"]).
Proof.
  intros (out & Hout & _ & Hsub).
  vm_compute in Hout. simplify_eq.
  apply sublist_cons_l in Hsub as (k1 & k2 & Hk & Hsub).
  cbv in Hk.
  destruct k1 as [|? [|? [|? k1]]]; simplify_eq.
  by apply sublist_nil_r in Hsub.
Qed.

(** C3 (amended).  For every list of directories, the deduplication
    returns, without raising, a list in which no element's local path is
    a prefix of the local path of an element at another position; the
    survivors are in ascending order of local path, the order they have
    in the input once it is sorted by local path. *)
Theorem dedup_prefix_free_ascending (dirs : list PushPath) :
  ∃ out, Dedup.eliminate_duplications dirs = Ok out ∧
         DedupSpec.prefix_free out ∧
         DedupSpec.ascending out ∧
         out `sublist_of` Dedup.sort_by_local dirs.
Proof.
  rewrite eliminate_duplications_eq.
  destruct dirs as [|x [|y dirs]].
  - exists []. split_and!; [done| |constructor|done].
    intros i j x y _ Hi. by rewrite lookup_nil in Hi.
  - exists [x]. split_and!; [done| |repeat constructor|done].
    intros [|i] [|j] a b Hij Hi Hj; simplify_eq; done.
  - eexists. split; [done|].
    pose proof (sort_by_local_ascending (x :: y :: dirs)) as Hasc.
    pose proof (not_none_marks_sublist (Dedup.sort_by_local (x :: y :: dirs))).
    split_and!; [|by eapply ascending_sublist|done].
    by apply unrelated_prefix_free, not_none_marks_unrelated.
Qed.

(** ** The push configuration *)

(** C4.  The specification requires every list mixing strings and tuples
    to be refused.  The code refuses a list only when some element has a
    length other than two, and a string of two characters passes that
    test: the list of the path [/a] and the pair ([/d], [/e]) is
    accepted, the string being unpacked into the source [/] and the
    destination [a]. *)
Theorem mixed_push_list_with_short_string_accepted :
  let push := [PushStr "/a"; PushTuple ["/d"; "/e"]] in
  existsb is_string push = true ∧
  forallb is_string push = false ∧
  _build_push_lists Scenario.host
    (Scenario.make_cfg (Some push) None None None)
    (World_init Scenario.host) =
  (Ok ([], [mkLocationPaths "/d" "/e"]),
   mkWorld (RemoteWorker_init Scenario.host) [] [ErrorCannotBePushed ""]).
Proof. split_and!; reflexivity. Qed.

(** The shape test of the code, in general: a list that is not made of
    strings only is refused exactly when an element has a length other
    than two. *)
Lemma build_push_lists_refuses (h : Host) (cfg : Cfg) (σ : World) push :
  cfg_push cfg = Some push →
  forallb is_string push = false →
  forallb (λ pair, Nat.eqb (item_len pair) 2) push = false →
  _build_push_lists h cfg σ = (Raise (TypeError BadPushConfig), σ).
Proof.
  intros Hpush Hstr Hlen. unfold _build_push_lists.
  rewrite Hpush. simpl. rewrite !bind_run. simpl.
  by rewrite Hstr, Hlen.
Qed.

(** A string of one character is not a pair, whatever the number of
    bytes of the character: the list is refused. *)
Example mixed_push_list_with_one_character_refused :
  Py.len "é" = 1 ∧
  (_build_push_lists Scenario.host
     (Scenario.make_cfg (Some [PushStr "é"; PushTuple ["/d"; "/e"]])
        None None None)
     (World_init Scenario.host)).1 = Raise (TypeError BadPushConfig).
Proof. vm_compute. done. Qed.

(** The pushes of the concrete plan: a file relative to the workspace, a
    file pushed to its own absolute path, and a file outside the relative
    directory, refused before anything is transferred to it. *)
Example relative_push_destination :
  let run := _prepare_remote Scenario.host Scenario.relative_cfg
               (World_init Scenario.host) in
  run.1 = Ok tt ∧
  push_files (setup_metadata (worker run.2)) =
    Some ["/var/tmp/u/testplan/remote_workspaces/plan/push_files/a/x.txt"] ∧
  push_dir (setup_metadata (worker run.2)) =
    Some "/var/tmp/u/testplan/remote_workspaces/plan/push_files".
Proof. vm_compute. done. Qed.

Example absolute_push_destination :
  let run := _prepare_remote Scenario.host
               (Scenario.make_cfg (Some [PushStr "/etc/cfg.yml"]) None
                  None None)
               (World_init Scenario.host) in
  run.1 = Ok tt ∧
  push_files (setup_metadata (worker run.2)) = Some ["/etc/cfg.yml"] ∧
  push_dir (setup_metadata (worker run.2)) = None.
Proof. vm_compute. done. Qed.

Example push_outside_relative_dir :
  let run := _push_files Scenario.host
               (Scenario.make_cfg (Some [PushStr "/tmp/x"])
                  (Some "/home/u/ws") None None)
               Scenario.with_remote_dirs in
  run.1 = Raise (RuntimeError (PushNotUnderRoot "/tmp/x" "/home/u/ws")) ∧
  executed run.2 =
    [(["ssh"; "h1";
       "/bin/mkdir -p /var/tmp/u/testplan/remote_workspaces/plan/push_files"],
      0%Z)].
Proof. vm_compute. done. Qed.

(** The lists that the code accepts: every list of pairs, and every list
    of strings (here without a relative directory, where the
    destinations are computed without running a command). *)
Lemma classify_returns (h : Host) locations files dirs σ :
  Forall (λ location, ∃ pair, location = Ok pair) locations →
  ∃ lists σ', classify h locations files dirs σ = (Ok lists, σ').
Proof.
  intros Hok. revert files dirs σ.
  induction Hok as [|location rest [[source dest] ->] _ IH];
    intros files dirs σ; simpl.
  - by eexists _, _.
  - rewrite bind_run. simpl.
    destruct (isfile h _); [apply IH|].
    destruct (isdir h _); [apply IH|].
    rewrite bind_run. simpl. apply IH.
Qed.

Lemma build_push_lists_returns_on (h : Host)
    (locations : list (result (string * string))) (σ1 : World) :
  Forall (λ location, ∃ pair, location = Ok pair) locations →
  ∃ lists σ',
    (classify h locations [] [] ≫= λ '(push_files, push_dirs),
       push_dirs ← lift (Dedup.eliminate_duplications push_dirs);
       mret (push_files, push_dirs)) σ1 = (Ok lists, σ').
Proof.
  intros Hok.
  destruct (classify_returns h locations [] [] σ1 Hok)
    as ([files dirs] & σ' & Hclassify).
  rewrite bind_run, Hclassify, bind_run.
  unfold lift. rewrite eliminate_duplications_eq. by eexists _, _.
Qed.

Lemma build_push_lists_accepts_pairs (h : Host) (cfg : Cfg) σ push :
  cfg_push cfg = Some push →
  forallb is_string push = false →
  Forall (λ item, ∃ source dest, item = PushTuple [source; dest]) push →
  ∃ lists σ', _build_push_lists h cfg σ = (Ok lists, σ').
Proof.
  intros Hpush Hstr Hpairs. unfold _build_push_lists.
  rewrite Hpush. simpl. rewrite bind_run. simpl. rewrite bind_run, Hstr.
  replace (forallb (λ pair, Nat.eqb (item_len pair) 2) push) with true.
  2:{ symmetry. apply forallb_forall. intros item Hitem.
      rewrite Forall_forall in Hpairs.
      by destruct (Hpairs item) as (? & ? & ->);
        [apply list_elem_of_In|]. }
  simpl. rewrite bind_run.
  assert (Forall (λ location, ∃ pair, location = Ok pair)
            (unpack_pair <$> push)) as Hok.
  { rewrite Forall_fmap. eapply Forall_impl; [exact Hpairs|].
    intros item (source & dest & ->). by eexists. }
  destruct (Py.truthy_str (cfg_push_relative_dir cfg)); simpl;
    eapply build_push_lists_returns_on; eauto.
Qed.

Lemma build_push_lists_accepts_strings (h : Host) (cfg : Cfg) σ push :
  cfg_push cfg = Some push →
  forallb is_string push = true →
  Py.truthy_str (cfg_push_relative_dir cfg) = false →
  ∃ lists σ', _build_push_lists h cfg σ = (Ok lists, σ').
Proof.
  intros Hpush Hstr Hrel. unfold _build_push_lists, _build_push_dests.
  rewrite Hpush, Hrel. simpl. rewrite bind_run. simpl.
  rewrite bind_run, Hstr, bind_run. simpl.
  eapply build_push_lists_returns_on; eauto.
  rewrite Forall_fmap. apply Forall_forall. intros pair _. by eexists.
Qed.

(** C5.  The specification has the worker attribute [remote_push_dir]
    hold [<remote_testplan_path>/push_files] after the destinations are
    built.  The code assigns that path to another attribute,
    [_remote_push_dir], and to [setup_metadata.push_dir]; the attribute
    [remote_push_dir] created by [__init__] keeps the value it had,
    [None] for a new worker. *)
Theorem build_push_dests_leaves_remote_push_dir
    (h : Host) (cfg : Cfg) (sources dsts : list string) (σ σ' : World)
    (rtp : string) :
  Py.truthy_str (cfg_push_relative_dir cfg) = true →
  _remote_testplan_path (worker σ) = Some rtp →
  _build_push_dests h cfg sources σ = (Ok dsts, σ') →
  remote_push_dir (worker σ') = remote_push_dir (worker σ) ∧
  _remote_push_dir (worker σ') = Some (rtp +:+ "/push_files") ∧
  push_dir (setup_metadata (worker σ')) = Some (rtp +:+ "/push_files").
Proof.
  intros Hrel Hrtp Hrun. unfold _build_push_dests in Hrun.
  rewrite Hrel in Hrun. invert_run Hrun.
  lazymatch goal with
  | Hmk : _mkdir_remote _ _ _ _ = _, Hmap : map_M _ _ _ = _ |- _ =>
      apply (respects_run (λ w, w) _ _ _ _
               (respects_mkdir_remote _ h cfg _)) in Hmk;
      apply (respects_run (λ w, w) _ _ _ _
               (respects_map_M _ _ _
                  (respects_to_relative_push_dest _ h cfg))) in Hmap;
      simpl in Hmk, Hmap; rewrite Hmap, Hmk
  end.
  simpl. split_and!; [congruence|reflexivity..].
Qed.

Lemma build_push_dests_leaves_remote_push_dir_witness :
  let σ' := (_build_push_dests Scenario.host Scenario.relative_cfg
               ["/home/u/ws/a/x.txt"] Scenario.with_remote_dirs).2 in
  remote_push_dir (worker σ') = None ∧
  _remote_push_dir (worker σ') =
    Some "/var/tmp/u/testplan/remote_workspaces/plan/push_files" ∧
  push_dir (setup_metadata (worker σ')) =
    Some "/var/tmp/u/testplan/remote_workspaces/plan/push_files".
Proof.
  apply (build_push_dests_leaves_remote_push_dir
           Scenario.host Scenario.relative_cfg ["/home/u/ws/a/x.txt"]
           ["/var/tmp/u/testplan/remote_workspaces/plan/push_files/a/x.txt"]
           Scenario.with_remote_dirs _
           "/var/tmp/u/testplan/remote_workspaces/plan");
    reflexivity.
Defined.

(** ** Staging of the remote host *)

Section Staging.

Context (h : Host) (cfg : Cfg).

Lemma transfer_data_Ok_inv source target rs rt args σ u σ' :
  _transfer_data h cfg source target rs rt args σ = (Ok u, σ') →
  σ' = mkWorld (worker σ)
         (executed σ ++
          [(cfg_copy_cmd cfg
              (if rs then Some (_remote_copy_path cfg (worker σ) source)
               else source)
              (if rt then Some (_remote_copy_path cfg (worker σ) target)
               else target) args, 0%Z)])
         (logged σ).
Proof.
  unfold _transfer_data. intros Hrun. invert_run Hrun.
  lazymatch goal with
  | H : _execute_cmd _ _ _ _ = _ |- _ =>
      apply execute_cmd_Ok_inv in H as (-> & -> & Hrc)
  end.
  by rewrite Hrc.
Qed.

Lemma copy_child_script_Ok_inv σ u σ' :
  _copy_child_script h cfg σ = (Ok u, σ') →
  worker σ' =
    set_child_paths
      (set_remote (Some (Py.str (_remote_testplan_path (worker σ)) +:+
                         "/child.py"))
         (_child_paths (worker σ)))
      (worker σ) ∧
  executed σ `prefix_of` executed σ'.
Proof.
  unfold _copy_child_script. intros Hrun. invert_run Hrun.
  apply transfer_data_Ok_inv in Hrun as ->. simpl.
  split; [done|]. by apply prefix_app_r.
Qed.

(** [_copy_workspace] runs one command: the transfer of the workspace
    when no remote workspace is configured and the workspace should be
    transferred, a link otherwise; the flag is set in the first case
    only. *)
Lemma copy_workspace_Ok_inv σ u σ' ws_local :
  local (_workspace_paths (worker σ)) = Some ws_local →
  _copy_workspace h cfg σ = (Ok u, σ') →
  let w := worker σ in
  let ws_remote :=
    Py.str (_remote_testplan_path w) +:+ "/" +:+
    Py.last_field (Py.split (os_sep h) ws_local) in
  let w1 := set_workspace_paths
              (set_remote (Some ws_remote) (_workspace_paths w)) w in
  if Py.truthy_str (cfg_remote_workspace cfg) then
    worker σ' = w1 ∧
    ∃ path, executed σ' =
            executed σ ++
            [(remote_shell cfg (cfg_link_cmd cfg path ws_remote), 0%Z)]
  else if _should_transfer_workspace w then
    worker σ' =
      set_setup_metadata (set_workspace_pushed true (setup_metadata w1))
        w1 ∧
    executed σ' =
      executed σ ++
      [(cfg_copy_cmd cfg (Some ws_local)
          (Some (_remote_copy_path cfg w (_remote_testplan_path w)))
          (Exclude (cfg_workspace_exclude cfg)), 0%Z)]
  else
    worker σ' = w1 ∧
    executed σ' =
      executed σ ++
      [(remote_shell cfg (cfg_link_cmd cfg ws_local ws_remote), 0%Z)].
Proof.
  intros Hlocal Hrun. unfold _copy_workspace in Hrun.
  invert_run Hrun. simplify_eq.
  destruct (cfg_remote_workspace cfg) as [[|c rw]|]; simpl in *.
  2:{ invert_run Hrun.
      lazymatch goal with
      | H : _execute_cmd _ _ _ _ = _ |- _ =>
          apply execute_cmd_Ok_inv in H as (-> & -> & Hrc)
      end.
      rewrite Hrc by done. simpl. eauto. }
  all: destruct (_should_transfer_workspace _); invert_run Hrun.
  all: try lazymatch goal with
       | H : _transfer_data _ _ _ _ _ _ _ _ = _ |- _ =>
           apply transfer_data_Ok_inv in H as ->
       | H : _execute_cmd _ _ _ _ = _ |- _ =>
           apply execute_cmd_Ok_inv in H as (-> & -> & Hrc);
           rewrite Hrc by done
       end.
  all: simpl; eauto.
Qed.

Lemma prefix_snoc_elem_of {A} (l k : list A) (x : A) :
  (l ++ [x]) `prefix_of` k → x ∈ k.
Proof. intros [k' ->]. set_solver. Qed.

Lemma remote_working_dir_Ok_inv σ wd σ' :
  _remote_working_dir h σ = (Ok wd, σ') →
  ∃ cwd ws ws_remote,
    local (_working_dirs (worker σ)) = Some cwd ∧
    local (_workspace_paths (worker σ)) = Some ws ∧
    remote (_workspace_paths (worker σ)) = Some ws_remote ∧
    is_subdir h cwd ws = true ∧
    wd = to_posix_path h (path_join h ws_remote (relpath h cwd ws)) ∧
    σ' = σ.
Proof.
  unfold _remote_working_dir. intros Hrun. invert_run Hrun.
  destruct (is_subdir h _ _) eqn:Hsub; simpl in Hrun; invert_run Hrun.
  eauto 10.
Qed.

(** The worker and the commands after a [_prepare_remote] that
    returned, for a new worker. *)
Lemma prepare_remote_Ok_inv σ' :
  _prepare_remote h cfg (World_init h) = (Ok tt, σ') →
  let w' := worker σ' in
  let rtp := remote_testplan_path_of h cfg in
  let wsl := local_workspace h cfg in
  let wsr := remote_workspace_of h cfg in
  let transfer :=
    negb (Py.truthy_str (cfg_remote_workspace cfg)) &&
    should_transfer_of h cfg in
  _remote_testplan_path w' = Some rtp ∧
  _remote_testplan_runpath w' =
    Some (rtp +:+ "/runpath/" +:+ cfg_index cfg) ∧
  _child_paths w' =
    mkLocationPaths (Some (child_path h)) (Some (rtp +:+ "/child.py")) ∧
  _workspace_paths w' = mkLocationPaths (Some wsl) (Some wsr) ∧
  _working_dirs w' =
    mkLocationPaths (Some (pwd h))
      (Some (to_posix_path h
               (path_join h wsr (relpath h (pwd h) wsl)))) ∧
  is_subdir h (pwd h) wsl = true ∧
  _should_transfer_workspace w' = should_transfer_of h cfg ∧
  workspace_pushed (setup_metadata w') = transfer ∧
  remote_push_dir w' = None ∧
  (if transfer then (transfer_workspace_cmd h cfg, 0%Z) ∈ executed σ'
   else ∃ path, (link_workspace_cmd h cfg path, 0%Z) ∈ executed σ') ∧
  setup_script (setup_metadata w') = cfg_setup_script cfg ∧
  env (setup_metadata w') = cfg_env cfg ∧
  workspace_paths (setup_metadata w') = Some WorkspacePathsOfWorker.
Proof.
  intros Hrun. unfold _prepare_remote in Hrun. invert_run Hrun.
  simpl in *.
  unfold should_transfer_of, copy_workspace_check_rc, remote_workspace_of,
    transfer_workspace_cmd, link_workspace_cmd, remote_workspace_of.
  rewrite <- last_field_split_basename.
  unfold local_workspace in *.
  lazymatch goal with
  | H : match cfg_copy_workspace_check cfg with _ => _ end _ = _ |- _ =>
      destruct (cfg_copy_workspace_check cfg) as [check|];
      invert_run H; simpl in *
  end.
  all: repeat lazymatch goal with
  | H : _execute_cmd _ _ false _ = _ |- _ =>
      apply execute_cmd_Ok_inv in H as (-> & -> & _)
  | H : _define_remote_dirs _ _ _ = _ |- _ =>
      unfold _define_remote_dirs in H; invert_run H
  | H : _create_remote_dirs _ _ ?σ = (_, ?σ1) |- _ =>
      apply (respects_run (λ w, w) _ _ _ _
               (respects_create_remote_dirs _ h cfg)) in H;
      destruct σ1; simpl in H; subst
  | H : _copy_dependencies_module _ _ _ = (_, ?σ1) |- _ =>
      apply (respects_run (λ w, w) _ _ _ _
               (respects_copy_dependencies_module _ h cfg)) in H;
      destruct σ1; simpl in H; subst
  | H : _copy_child_script _ _ _ = (_, ?σ1) |- _ =>
      apply copy_child_script_Ok_inv in H as [H _];
      destruct σ1; simpl in H; subst
  | H : _copy_workspace _ _ _ = (_, ?σ1) |- _ =>
      apply (copy_workspace_Ok_inv _ _ _ (fix_home_prefix h (cfg_workspace cfg))) in H;
      [|reflexivity]; destruct σ1; simpl in H
  | H : _remote_working_dir _ _ = _ |- _ =>
      apply remote_working_dir_Ok_inv in H
        as (cwd & ws & ws_remote & Hcwd & Hws & Hwsr & Hsub & -> & ->)
  | H : _push_files _ _ ?σ = (_, ?σ1) |- _ =>
      pose proof (respects_run_executed layout _ _ _ _
                    (respects_push_files h cfg) H) as Hexecuted;
      apply (respects_run layout _ _ _ _ (respects_push_files h cfg)) in H;
      unfold layout in H; simpl in H, Hexecuted
  end.
  all: lazymatch goal with
       | H : if Py.truthy_str _ then _ else _ |- _ =>
           destruct (Py.truthy_str (cfg_remote_workspace cfg));
           [destruct H as [-> [path ->]]|
            lazymatch type of H with
            | if ?b then _ else _ => destruct b; destruct H as [-> ->]
            | _ => destruct H as [-> ->]
            end]
       end.
  all: simpl in *; simplify_eq.
  all: lazymatch goal with
       | H : _ `prefix_of` executed _ |- _ =>
           apply prefix_snoc_elem_of in H
       end.
  all: split_and!; try assumption; try reflexivity.
  all: try (eexists; eassumption).
Qed.

End Staging.


(** ** Workspace staging *)



(** The two link paths on the concrete plan: a configured remote
    workspace, and a check command that finds the workspace on the remote
    host. *)
Example workspace_linked_to_remote_workspace :
  let run := _prepare_remote Scenario.host
               (Scenario.make_cfg (Some []) None (Some "/opt/ws") None)
               (World_init Scenario.host) in
  run.1 = Ok tt ∧
  workspace_pushed (setup_metadata (worker run.2)) = false ∧
  last (executed run.2) =
    Some (["ssh"; "h1";
           "/bin/ln -sfn /opt/ws /var/tmp/u/testplan/remote_workspaces/plan/ws"],
          0%Z).
Proof. vm_compute. done. Qed.

Example workspace_linked_when_check_succeeds :
  let run := _prepare_remote Scenario.host
               (Scenario.make_cfg (Some []) None None
                  (Some Scenario.remote_filepath_exists))
               (World_init Scenario.host) in
  run.1 = Ok tt ∧
  workspace_pushed (setup_metadata (worker run.2)) = false ∧
  head (executed run.2) = Some (["ssh"; "h1"; "test -e /home/u/ws"], 0%Z) ∧
  last (executed run.2) =
    Some (["ssh"; "h1";
           "/bin/ln -sfn /home/u/ws /var/tmp/u/testplan/remote_workspaces/plan/ws"],
          0%Z).
Proof. vm_compute. done. Qed.

(** C7.  After the preparation of a new worker the remote layout is:
    [remote_testplan_path] is
    [/var/tmp/<user>/testplan/remote_workspaces/<slug(plan name)>], the
    remote child script is [child.py] under it, and the remote workspace
    is the base name of the local workspace under it. *)
Theorem remote_path_layout (h : Host) (cfg : Cfg) (σ' : World) :
  _prepare_remote h cfg (World_init h) = (Ok tt, σ') →
  let w := worker σ' in
  ∃ rtp ws_local,
    rtp = "/var/tmp/" +:+ getuser h +:+ "/testplan/remote_workspaces/" +:+
          slugify h (cfg_plan_name cfg) ∧
    _remote_testplan_path w = Some rtp ∧
    remote (_child_paths w) = Some (rtp +:+ "/child.py") ∧
    local (_workspace_paths w) = Some ws_local ∧
    remote (_workspace_paths w) =
      Some (rtp +:+ "/" +:+ Py.basename (os_sep h) ws_local).
Proof.
  intros Hrun.
  destruct (prepare_remote_Ok_inv h cfg σ' Hrun)
    as (Hrtp & _ & Hchild & Hws & _).
  eexists _, _. split; [reflexivity|]. simpl.
  rewrite Hrtp, Hchild, Hws. done.
Qed.

Lemma remote_path_layout_witness :
  _prepare_remote Scenario.host Scenario.cfg (World_init Scenario.host) =
    (Ok tt, Scenario.prepared) ∧
  _remote_testplan_path (worker Scenario.prepared) =
    Some "/var/tmp/u/testplan/remote_workspaces/plan" ∧
  remote (_child_paths (worker Scenario.prepared)) =
    Some "/var/tmp/u/testplan/remote_workspaces/plan/child.py" ∧
  remote (_workspace_paths (worker Scenario.prepared)) =
    Some "/var/tmp/u/testplan/remote_workspaces/plan/ws".
Proof.
  assert (_prepare_remote Scenario.host Scenario.cfg
            (World_init Scenario.host) = (Ok tt, Scenario.prepared))
    as Hprep by (vm_compute; reflexivity).
  split; [exact Hprep|].
  destruct (remote_path_layout Scenario.host Scenario.cfg
              Scenario.prepared Hprep)
    as (rtp & ws_local & -> & Hrtp & Hchild & Hlocal & Hremote).
  split_and!; [exact Hrtp|exact Hchild|].
  rewrite Hremote. f_equal.
  assert (ws_local = "/home/u/ws") as -> by (vm_compute in Hlocal; congruence).
  reflexivity.
Defined.

(** ** The remote working directory *)

Section PosixConversion.

Context (sep : ascii).

Lemma to_posix_replace_char (path : string) :
  to_posix sep path = Py.replace_char sep "/" path.
Proof.
  unfold to_posix, Py.join.
  induction path as [|c path IH]; simpl; [done|].
  rewrite <- IH. pose proof (split_nonempty sep path) as Hne.
  destruct (Ascii.eqb c sep); destruct (Py.split sep path) as [|f fs];
    try done.
  by destruct fs.
Qed.

Lemma replace_char_app (new : ascii) (a b : string) :
  Py.replace_char sep new (a +:+ b) =
  Py.replace_char sep new a +:+ Py.replace_char sep new b.
Proof. induction a as [|c a IH]; simpl; [done|]. by rewrite IH. Qed.

Lemma replace_char_absent (new : ascii) (s : string) :
  Py.has_char sep s = false → Py.replace_char sep new s = s.
Proof.
  unfold Py.has_char.
  induction s as [|c s IH]; simpl; [done|].
  rewrite (Ascii.eqb_sym sep c).
  destruct (Ascii.eqb c sep); simpl; [done|]. intros Hs. by rewrite IH.
Qed.

Lemma replace_char_join (new : ascii) (fields : list string) :
  Forall (λ f, Py.has_char sep f = false) fields →
  Py.replace_char sep new (Py.join (String sep EmptyString) fields) =
  Py.join (String new EmptyString) fields.
Proof.
  unfold Py.join.
  induction 1 as [|f fields Hf Hfields IH]; simpl; [done|].
  destruct fields as [|g fields]; [by apply replace_char_absent|].
  rewrite replace_char_app, (replace_char_absent _ f Hf).
  f_equal. simpl. rewrite Ascii.eqb_refl. f_equal. exact IH.
Qed.

End PosixConversion.

(** On a machine whose path functions behave on these paths as [os.path]
    does, whatever its separator: when the working directory lies the
    directories [fields] below the workspace, the remote working
    directory is the remote workspace followed by the same directories
    separated by [/]. *)
Lemma remote_working_dir_posix_separators
    (h : Host) (σ : World) (cwd ws ws_remote : string)
    (fields : list string) :
  local (_working_dirs (worker σ)) = Some cwd →
  local (_workspace_paths (worker σ)) = Some ws →
  remote (_workspace_paths (worker σ)) = Some ws_remote →
  is_subdir h cwd ws = true →
  relpath h cwd ws = Py.join (String (os_sep h) EmptyString) fields →
  path_join h ws_remote (relpath h cwd ws) =
    ws_remote +:+ String (os_sep h) (relpath h cwd ws) →
  (∀ path, to_posix_path h path = to_posix (os_sep h) path) →
  Py.replace_char (os_sep h) "/" ws_remote = ws_remote →
  Forall (λ f, Py.has_char (os_sep h) f = false) fields →
  _remote_working_dir h σ =
  (Ok (ws_remote +:+ "/" +:+ Py.join "/" fields), σ).
Proof.
  intros Hcwd Hws Hremote Hsub Hrel Hjoin Hposix Hws_remote Hfields.
  unfold _remote_working_dir.
  run. rewrite Hcwd. run. rewrite Hws. run. rewrite Hsub. run.
  rewrite Hremote. run.
  rewrite Hjoin, Hposix, to_posix_replace_char, Hrel.
  rewrite replace_char_app, Hws_remote. simpl. rewrite Ascii.eqb_refl.
  by rewrite replace_char_join.
Qed.

(** The plan started from a POSIX machine and from a machine whose
    separator is the backslash gets the same remote working directory. *)
Example remote_working_dir_on_two_machines :
  remote (_working_dirs (worker Scenario.prepared)) =
    Some "/var/tmp/u/testplan/remote_workspaces/plan/ws/t" ∧
  remote (_working_dirs (worker Scenario.windows_prepared)) =
    Some "/var/tmp/u/testplan/remote_workspaces/plan/ws/t".
Proof. split; vm_compute; reflexivity. Qed.




(** The plan started from the directory beside the workspace is
    prepared without an error, with that remote working directory. *)
Example prepare_remote_beside_workspace :
  let run := _prepare_remote beside_workspace Scenario.cfg
               (World_init beside_workspace) in
  run.1 = Ok tt ∧
  remote (_working_dirs (worker run.2)) =
    Some "/var/tmp/u/testplan/remote_workspaces/plan/ws/../ws2".
Proof. vm_compute. done. Qed.

(** ** The command of the child process *)

Lemma join_items_Some (sep : string) (items : list string) (σ : World) :
  join_items sep (Some <$> items) σ = (Ok (Py.join sep items), σ).
Proof.
  unfold join_items. rewrite bind_run.
  replace (mapM id (Some <$> items)) with (Some items); [done|].
  symmetry. apply mapM_Some. induction items; constructor; auto.
Qed.

Lemma commonprefix_of_prefix (a b : string) :
  String.prefix b a = true → Py.commonprefix a b = b.
Proof.
  revert a. induction b as [|c b IH]; intros [|d a]; try done.
  rewrite prefix_cons. intros [-> Hba]. simpl.
  rewrite Ascii.eqb_refl. f_equal. auto.
Qed.

(** What [_add_testplan_import_path] appends, for a worker whose local
    workspace is set. *)
Lemma add_testplan_import_path_run (h : Host) (cfg : Cfg) (flag : string)
    (σ : World) (ws_local : string) :
  local (_workspace_paths (worker σ)) = Some ws_local →
  _add_testplan_import_path h cfg flag σ =
    (Ok (if Py.truthy_str (cfg_testplan_path cfg)
         then [Some flag; cfg_testplan_path cfg]
         else if Py.startswith (testplan_abspath h) ws_local
         then [Some flag;
               Some (Py.str (remote (_workspace_paths (worker σ))) +:+ "/" +:+
                     Py.join "/"
                       (Py.split (os_sep h)
                          (relpath h (testplan_abspath h) ws_local)))]
         else []),
     σ).
Proof.
  intros Hlocal. unfold _add_testplan_import_path.
  destruct (Py.truthy_str (cfg_testplan_path cfg)); [done|].
  rewrite bind_run. simpl. rewrite bind_run, Hlocal. simpl.
  destruct (Py.startswith (testplan_abspath h) ws_local) eqn:Hinside;
    simpl; [|done].
  by rewrite commonprefix_of_prefix.
Qed.

(** What [_add_testplan_deps_import_path] appends. *)
Lemma add_testplan_deps_import_path_eq (h : Host) (flag : string) :
  _add_testplan_deps_import_path h flag =
  Some <$> match environ h !! TESTPLAN_DEPENDENCIES_PATH h with
           | Some (String _ _ as path) => [flag; path]
           | _ => []
           end.
Proof.
  unfold _add_testplan_deps_import_path.
  by destruct (environ h !! TESTPLAN_DEPENDENCIES_PATH h) as [[|c path]|].
Qed.

(** C8.  For a prepared worker, the command of the child process is the
    remote shell invocation of the interpreter with [-uB] and the child
    script, then the flags [--index], [--address], [--type remote_worker],
    [--log-level], [--wd], [--runpath], [--remote-pool-type] and
    [--remote-pool-size] with their values, in that order, and then
    exactly the tokens of [testplan_flag] and of [testplan_deps_flag]:
    [--testplan] with the configured path, or with the path of the
    package inside the remote workspace, or nothing; [--testplan-deps]
    with the value of the dependencies variable when the worker decided
    not to transfer its workspace and the variable is set, and nothing
    otherwise.  So [--testplan-deps] is present only when the workspace
    was not transferred and the variable is set. *)
Theorem proc_cmd_flags (h : Host) (cfg : Cfg) (σ σ' : World)
    (argv : list string) :
  _prepare_remote h cfg (World_init h) = (Ok tt, σ) →
  _proc_cmd h cfg σ = (Ok argv, σ') →
  ∃ python wd,
    argv =
      cfg_ssh_cmd cfg (cfg_index cfg)
        (Py.join " "
           ([python; "-uB"; remote_testplan_path_of h cfg +:+ "/child.py";
             "--index"; cfg_index cfg;
             "--address"; transport_address h;
             "--type"; "remote_worker";
             "--log-level"; Py.str_int (effective_log_level h);
             "--wd"; wd;
             "--runpath";
             remote_testplan_path_of h cfg +:+ "/runpath/" +:+ cfg_index cfg;
             "--remote-pool-type"; cfg_pool_type cfg;
             "--remote-pool-size"; Py.str_int (cfg_workers cfg)] ++
            testplan_flag h cfg ++ testplan_deps_flag h cfg)) ∧
    python_binary_of h = Some python ∧
    remote (_working_dirs (worker σ)) = Some wd ∧
    wd = to_posix_path h
           (path_join h (remote_workspace_of h cfg)
              (relpath h (pwd h) (local_workspace h cfg))) ∧
    (testplan_deps_flag h cfg ≠ [] →
     workspace_pushed (setup_metadata (worker σ)) = false ∧
     is_Some (environ h !! TESTPLAN_DEPENDENCIES_PATH h)) ∧
    σ' = σ.
Proof.
  intros Hprep Hrun.
  destruct (prepare_remote_Ok_inv h cfg σ Hprep)
    as (Hrtp & Hrunpath & Hchild & Hws & Hwd & _ & Hshould & Hpushed & _).
  cbv zeta in *.
  assert ((if Py.truthy_str (cfg_testplan_path cfg)
           then [Some "--testplan"; cfg_testplan_path cfg]
           else if Py.startswith (testplan_abspath h) (local_workspace h cfg)
           then [Some "--testplan";
                 Some (Py.str (remote (_workspace_paths (worker σ))) +:+
                       "/" +:+
                       Py.join "/"
                         (Py.split (os_sep h)
                            (relpath h (testplan_abspath h)
                               (local_workspace h cfg))))]
           else []) = Some <$> testplan_flag h cfg) as Htestplan.
  { unfold testplan_flag. rewrite Hws. simpl.
    destruct (cfg_testplan_path cfg) as [[|c path]|]; simpl; try done.
    all: by destruct (Py.startswith _ _). }
  unfold _proc_cmd, _proc_cmd_args in Hrun.
  apply bind_Ok_inv in Hrun as (cmd & σ1 & Hargs & Hrun).
  apply bind_Ok_inv in Hargs as (python & σ2 & Hpython & Hargs).
  assert (σ2 = σ ∧ python_binary_of h = Some python) as [-> Hbinary].
  { unfold python_binary_of, remote_binary_variable.
    unfold environ_item in Hpython.
    destruct (String.eqb _ _); [destruct (Py.startswith _ _)|];
      invert_run Hpython; done. }
  apply bind_Ok_inv in Hargs as (w & σ3 & Hget & Hargs).
  invert_run Hget.
  apply bind_Ok_inv in Hargs as (items & σ4 & Hitems & Hargs).
  rewrite (add_testplan_import_path_run h cfg _ _ (local_workspace h cfg))
    in Hitems by (by rewrite Hws).
  injection Hitems as <- <-.
  rewrite Htestplan in Hargs. clear Htestplan.
  rewrite add_testplan_deps_import_path_eq in Hargs.
  rewrite Hchild, Hwd, Hrunpath, Hshould in Hargs. simpl in Hargs.
  exists python, (to_posix_path h
                    (path_join h (remote_workspace_of h cfg)
                       (relpath h (pwd h) (local_workspace h cfg)))).
  rewrite Hwd. simpl.
  pose (tokens :=
    [python; "-uB"; remote_testplan_path_of h cfg +:+ "/child.py";
     "--index"; cfg_index cfg;
     "--address"; transport_address h;
     "--type"; "remote_worker";
     "--log-level"; Py.str_int (effective_log_level h);
     "--wd";
     to_posix_path h
       (path_join h (remote_workspace_of h cfg)
          (relpath h (pwd h) (local_workspace h cfg)));
     "--runpath";
     remote_testplan_path_of h cfg +:+ "/runpath/" +:+ cfg_index cfg;
     "--remote-pool-type"; cfg_pool_type cfg;
     "--remote-pool-size"; Py.str_int (cfg_workers cfg)]).
  rewrite bind_run in Hrun.
  unfold testplan_deps_flag.
  destruct (should_transfer_of h cfg) eqn:Hshould'; simpl in Hargs;
    invert_run Hargs.
  - (* the workspace should be transferred: no dependencies flag *)
    rewrite app_nil_r.
    lazymatch type of Hrun with
    | context [join_items _ _ ?σ0] =>
        change (join_items " " _ σ0) with
          (join_items " " (Some <$> (tokens ++ testplan_flag h cfg)) σ0)
          in Hrun
    end.
    rewrite join_items_Some in Hrun. invert_run Hrun.
    split_and!; done.
  - rewrite <- fmap_app in Hrun.
    lazymatch type of Hrun with
    | context [join_items _ _ ?σ0] =>
        change (join_items " " _ σ0) with
          (join_items " "
             (Some <$>
              (tokens ++ testplan_flag h cfg ++
               match environ h !! TESTPLAN_DEPENDENCIES_PATH h with
               | Some (String _ _ as path) => ["--testplan-deps"; path]
               | _ => []
               end)) σ0) in Hrun
    end.
    rewrite join_items_Some in Hrun. invert_run Hrun.
    split_and!; try done.
    intros Hdeps. split.
    + by rewrite Hpushed, andb_false_r.
    + by destruct (environ h !! TESTPLAN_DEPENDENCIES_PATH h) as [[|c path]|].
Qed.

(** The machine of the concrete plan with the package inside the
    workspace and the dependencies variable set, checking the workspace
    before it transfers it: the check succeeds, the workspace is linked,
    and both flags end the command. *)
Lemma proc_cmd_flags_witness :
  let h := with_environ {["TESTPLAN_DEPENDENCIES_PATH" := "/opt/deps"]}
             (with_testplan_abspath "/home/u/ws/lib" Scenario.host) in
  let cfg := Scenario.make_cfg (Some []) None None
               (Some Scenario.remote_filepath_exists) in
  let σ := (_prepare_remote h cfg (World_init h)).2 in
  ∃ python wd,
    Scenario.ssh_cmd "h1"
      ("/usr/bin/python -uB " +:+
       "/var/tmp/u/testplan/remote_workspaces/plan/child.py " +:+
       "--index h1 --address 10.0.0.1:4000 --type remote_worker " +:+
       "--log-level 20 " +:+
       "--wd /var/tmp/u/testplan/remote_workspaces/plan/ws/t " +:+
       "--runpath /var/tmp/u/testplan/remote_workspaces/plan/runpath/h1 " +:+
       "--remote-pool-type thread --remote-pool-size 2 " +:+
       "--testplan /var/tmp/u/testplan/remote_workspaces/plan/ws/lib " +:+
       "--testplan-deps /opt/deps") =
      cfg_ssh_cmd cfg (cfg_index cfg)
        (Py.join " "
           ([python; "-uB"; remote_testplan_path_of h cfg +:+ "/child.py";
             "--index"; cfg_index cfg;
             "--address"; transport_address h;
             "--type"; "remote_worker";
             "--log-level"; Py.str_int (effective_log_level h);
             "--wd"; wd;
             "--runpath";
             remote_testplan_path_of h cfg +:+ "/runpath/" +:+ cfg_index cfg;
             "--remote-pool-type"; cfg_pool_type cfg;
             "--remote-pool-size"; Py.str_int (cfg_workers cfg)] ++
            testplan_flag h cfg ++ testplan_deps_flag h cfg)) ∧
    python_binary_of h = Some python ∧
    remote (_working_dirs (worker σ)) = Some wd ∧
    wd = to_posix_path h
           (path_join h (remote_workspace_of h cfg)
              (relpath h (pwd h) (local_workspace h cfg))) ∧
    (testplan_deps_flag h cfg ≠ [] →
     workspace_pushed (setup_metadata (worker σ)) = false ∧
     is_Some (environ h !! TESTPLAN_DEPENDENCIES_PATH h)) ∧
    σ = σ.
Proof.
  apply (proc_cmd_flags
           (with_environ {["TESTPLAN_DEPENDENCIES_PATH" := "/opt/deps"]}
              (with_testplan_abspath "/home/u/ws/lib" Scenario.host))
           (Scenario.make_cfg (Some []) None None
              (Some Scenario.remote_filepath_exists))).
  - vm_compute. reflexivity.
  - vm_compute. reflexivity.
Defined.

(** The dependencies flag follows the decision of the worker, not what
    was done with the workspace: with a remote workspace configured the
    workspace is linked, not transferred, and yet the flag is left out
    when no check made the worker decide against a transfer. *)
Example deps_flag_follows_the_decision :
  let h := with_environ {["TESTPLAN_DEPENDENCIES_PATH" := "/opt/deps"]}
             Scenario.host in
  let cfg := Scenario.make_cfg (Some []) None (Some "/srv/ws") None in
  let σ := (_prepare_remote h cfg (World_init h)).2 in
  workspace_pushed (setup_metadata (worker σ)) = false ∧
  testplan_deps_flag h cfg = [] ∧
  (_proc_cmd h cfg σ).1 =
    Ok (Scenario.ssh_cmd "h1"
          ("/usr/bin/python -uB " +:+
           "/var/tmp/u/testplan/remote_workspaces/plan/child.py " +:+
           "--index h1 --address 10.0.0.1:4000 --type remote_worker " +:+
           "--log-level 20 " +:+
           "--wd /var/tmp/u/testplan/remote_workspaces/plan/ws/t " +:+
           "--runpath /var/tmp/u/testplan/remote_workspaces/plan/runpath/h1 " +:+
           "--remote-pool-type thread --remote-pool-size 2")).
Proof. vm_compute. done. Qed.

(** ** The setup metadata served by the pool *)

Lemma pool_step_payload (h : Host) (cfg : Cfg) (s : Served) (ev : pool_event) :
  read_setup_metadata (worker (served_worker (pool_step h cfg s ev))) =
  read_setup_metadata (worker (served_worker s)).
Proof.
  destruct ev; simpl; [done|..].
  - by destruct (respects_proc_cmd read_setup_metadata h cfg (served_worker s)).
  - by destruct (respects_stopping read_setup_metadata h cfg (served_worker s)).
  - by destruct (respects_aborting read_setup_metadata h cfg (served_worker s)).
Qed.

Lemma pool_run_responses (h : Host) (cfg : Cfg) (evs : list pool_event)
    (s : Served) :
  let payload := read_setup_metadata (worker (served_worker s)) in
  responses (pool_run h cfg evs s) =
  responses s ++ replicate (pulls evs) (make Metadata payload).
Proof.
  revert s. induction evs as [|ev evs IH]; intros s; simpl.
  - by rewrite app_nil_r.
  - unfold pool_run in *. simpl. rewrite IH, pool_step_payload.
    unfold pulls. rewrite filter_cons.
    destruct ev; simpl; [|done..].
    by rewrite <- app_assoc.
Qed.

(** C9.  Once the preparation of a worker has returned, the pool answers
    every [MetadataPull] with a [Metadata] message that carries the same
    payload, however many requests it receives and whatever the worker
    runs in between; the payload is the one fixed by the preparation. *)
Theorem metadata_pull_idempotent (h : Host) (cfg : Cfg) (σ : World)
    (evs : list pool_event) :
  _prepare_remote h cfg (World_init h) = (Ok tt, σ) →
  let payload := read_setup_metadata (worker σ) in
  responses (pool_run h cfg evs (mkServed σ [])) =
    replicate (pulls evs) (make Metadata payload) ∧
  sm_setup_script payload = cfg_setup_script cfg ∧
  sm_env payload = cfg_env cfg ∧
  sm_workspace_paths payload =
    Some (mkLocationPaths (Some (local_workspace h cfg))
            (Some (remote_workspace_of h cfg))).
Proof.
  intros Hprep.
  destruct (prepare_remote_Ok_inv h cfg σ Hprep)
    as (_ & _ & _ & Hws & _ & _ & _ & _ & _ & _ & Hscript & Henv & Href).
  cbv zeta in *. split; [by rewrite pool_run_responses|].
  unfold read_setup_metadata; simpl. by rewrite Hscript, Henv, Href, Hws.
Qed.

Lemma metadata_pull_idempotent_witness :
  let payload := read_setup_metadata (worker Scenario.prepared) in
  responses (pool_run Scenario.host Scenario.cfg
               [Pull; ProcCmd; Pull; Stopping; Pull]
               (mkServed Scenario.prepared [])) =
    [make Metadata payload; make Metadata payload; make Metadata payload] ∧
  sm_workspace_paths payload =
    Some (mkLocationPaths (Some "/home/u/ws")
            (Some "/var/tmp/u/testplan/remote_workspaces/plan/ws")).
Proof.
  assert (_prepare_remote Scenario.host Scenario.cfg
            (World_init Scenario.host) = (Ok tt, Scenario.prepared))
    as Hprep by (vm_compute; reflexivity).
  destruct (metadata_pull_idempotent Scenario.host Scenario.cfg
              Scenario.prepared [Pull; ProcCmd; Pull; Stopping; Pull]
              Hprep) as (Hresponses & _ & _ & Hpaths).
  split; [exact Hresponses|].
  rewrite Hpaths. vm_compute. reflexivity.
Defined.

(** ** The empty push list *)

Lemma respects_push_files_nothing {B} (f : RemoteWorker → B)
    (h : Host) (cfg : Cfg) :
  Py.truthy_list (cfg_push cfg) = false →
  respects (keeps f) (_push_files h cfg).
Proof. intros Hpush. unfold _push_files. rewrite Hpush. simpl. frame. Qed.

(** C10.  With no files to push, [_push_files] runs no command and
    leaves the worker as it is; it only logs a warning when exclusion
    patterns or a relative directory are configured.  After the
    preparation of a new worker, whether it returned or raised,
    [push_files], [push_dirs] and [push_dir] of the setup metadata are
    still [None]. *)
Theorem push_files_without_push (h : Host) (cfg : Cfg) (σ : World) :
  Py.truthy_list (cfg_push cfg) = false →
  _push_files h cfg σ =
    (Ok tt,
     mkWorld (worker σ) (executed σ)
       (logged σ ++
        if Py.truthy_list (cfg_push_exclude cfg)
           || Py.truthy_str (cfg_push_relative_dir cfg)
        then [WarnNoFilesToPush] else [])) ∧
  let m := setup_metadata
             (worker (_prepare_remote h cfg (World_init h)).2) in
  push_files m = None ∧ push_dirs m = None ∧ push_dir m = None.
Proof.
  intros Hpush. split.
  - unfold _push_files. rewrite Hpush. simpl.
    destruct (_ || _); [done|].
    destruct σ. unfold mret, M_ret, ret. simpl. by rewrite app_nil_r.
  - pose proof (respects_push_files_nothing
                  (λ w, (push_files (setup_metadata w),
                         push_dirs (setup_metadata w),
                         push_dir (setup_metadata w))) h cfg Hpush) as Hnone.
    assert (respects
              (keeps (λ w, (push_files (setup_metadata w),
                            push_dirs (setup_metadata w),
                            push_dir (setup_metadata w))))
              (_prepare_remote h cfg)) as Hprep.
    { unfold _prepare_remote, _define_remote_dirs, _copy_child_script,
        _copy_workspace.
      frame. }
    destruct (Hprep (World_init h)) as [Heq _]. simpl in Heq.
    by simplify_eq.
Qed.

Lemma push_files_without_push_witness :
  _push_files Scenario.host Scenario.cfg (World_init Scenario.host) =
    (Ok tt, World_init Scenario.host) ∧
  push_files (setup_metadata (worker Scenario.prepared)) = None ∧
  push_dirs (setup_metadata (worker Scenario.prepared)) = None.
Proof.
  assert (Py.truthy_list (cfg_push Scenario.cfg) = false) as Hpush
    by reflexivity.
  destruct (push_files_without_push Scenario.host Scenario.cfg
              (World_init Scenario.host) Hpush)
    as (Hrun & Hfiles & Hdirs & _).
  split_and!; [exact Hrun|exact Hfiles|exact Hdirs].
Defined.

(** * Further properties of the module *)

(** ** What the elimination of push duplications keeps and drops *)

Section DedupMore.

Import Dedup DedupSpec.

Lemma prefix_trans (x y z : string) :
  String.prefix x y = true → String.prefix y z = true →
  String.prefix x z = true.
Proof.
  revert y z. induction x as [|a x IH]; intros y z; [intros; apply prefix_nil|].
  destruct y as [|b y]; [done|]. destruct z as [|c z]; [by destruct y|].
  rewrite !prefix_cons. intros [-> Hxy] [-> Hyz]. eauto.
Qed.

Lemma unrelated_sym (x y : PushPath) : unrelated x y → unrelated y x.
Proof. by intros [? ?]. Qed.

Lemma unrelated_perm (l k : list PushPath) :
  l ≡ₚ k → StronglySorted unrelated l → StronglySorted unrelated k.
Proof.
  induction 1 as [|x l k Hlk IH|x y l|l k m _ IH1 _ IH2]; intros Hl.
  - done.
  - apply StronglySorted_inv in Hl as [Hl Hx].
    constructor; [by apply IH|]. by rewrite <- Hlk.
  - apply StronglySorted_inv in Hl as [Hl Hy].
    apply StronglySorted_inv in Hl as [Hl Hx].
    apply Forall_cons in Hy as [Hyx Hy].
    constructor; [by constructor|].
    constructor; [by apply unrelated_sym|done].
  - auto.
Qed.

Lemma prefix_free_unrelated (l : list PushPath) :
  prefix_free l → StronglySorted unrelated l.
Proof.
  induction l as [|x l IH]; intros Hfree; [constructor|].
  constructor.
  - apply IH. intros i j a b Hij Hi Hj.
    apply (Hfree (S i) (S j)); [lia|done..].
  - apply Forall_forall. intros y Hy.
    apply list_elem_of_lookup in Hy as [j Hj].
    split.
    + apply (Hfree 0 (S j) x y); [lia|done..].
    + apply (Hfree (S j) 0 y x); [lia|done..].
Qed.

(** Where no element is a prefix of its successor the marking loop keeps
    every element. *)
Lemma not_none_marks_unrelated_id (l : list PushPath) :
  StronglySorted unrelated l → not_none (marks l) = l.
Proof.
  induction l as [|x [|y l] IH]; intros Hl; [done..|].
  apply StronglySorted_inv in Hl as [Hl Hx].
  rewrite not_none_marks_cons, (IH Hl).
  apply Forall_inv in Hx as [Hxy _].
  unfold Py.startswith. by rewrite Hxy.
Qed.

Lemma insert_sorted_head (x : PushPath) (l : list PushPath) :
  Forall (le_local x) l → insert_sorted x l = x :: l.
Proof.
  destruct l as [|y l]; [done|]. intros Hx. apply Forall_inv in Hx.
  simpl. unfold key_le. unfold le_local in Hx. by rewrite Hx.
Qed.

Lemma sort_by_local_ascending_id (l : list PushPath) :
  ascending l → sort_by_local l = l.
Proof.
  induction 1 as [|x l Hl IH Hx]; simpl; [done|].
  rewrite IH. by apply insert_sorted_head.
Qed.

Lemma marks_drop_strict_prefix (k : string) (l : list PushPath) :
  ascending l →
  (∃ y, y ∈ l ∧ String.prefix k (local y) = true ∧ k ≠ local y) →
  ∀ z, z ∈ not_none (marks l) → local z ≠ k.
Proof.
  induction l as [|a [|b l] IH]; intros Hasc (y & Hy & Hpre & Hne) z Hz Hzk.
  - by apply elem_of_nil in Hy.
  - apply list_elem_of_singleton in Hy as ->.
    apply list_elem_of_singleton in Hz as ->. done.
  - pose proof Hasc as Htail.
    apply StronglySorted_inv in Htail as [Htail Ha].
    rewrite Forall_forall in Ha.
    assert (z ∈ not_none (marks (b :: l)) → False) as Hrest.
    { intros Hz'.
      assert (z ∈ b :: l) as Hzl
        by (eapply elem_of_sublist; [done|apply not_none_marks_sublist]).
      apply elem_of_cons in Hy as [->|Hy].
      - (* the extension is the head, which sorts before [z] *)
        apply Hne. rewrite <- Hzk.
        apply String.leb_antisym; [|by apply Ha].
        apply prefix_leb. by rewrite Hzk.
      - eapply IH; eauto. }
    rewrite not_none_marks_cons in Hz.
    destruct (Py.startswith (local b) (local a)) eqn:Hab; [done|].
    apply elem_of_cons in Hz as [->|Hz]; [|done].
    (* the head is kept although an extension of it follows *)
    apply elem_of_cons in Hy as [->|Hy]; [done|].
    unfold Py.startswith in Hab.
    rewrite (prefix_between (local a) (local b) (local y)) in Hab; [done|..].
    + apply Ha. left.
    + apply elem_of_cons in Hy as [->|Hy]; [apply string_leb_refl|].
      apply StronglySorted_inv in Htail as [_ Hb].
      rewrite Forall_forall in Hb. by apply Hb.
    + by rewrite Hzk.
Qed.

(** Every element is a prefix of an element that the loop keeps. *)
Lemma marks_keep_extension (l : list PushPath) (x : PushPath) :
  x ∈ l →
  ∃ z, z ∈ not_none (marks l) ∧ String.prefix (local x) (local z) = true.
Proof.
  revert x. induction l as [|a [|b l] IH]; intros x Hx.
  - by apply elem_of_nil in Hx.
  - apply list_elem_of_singleton in Hx as ->.
    exists a. split; [by left|apply prefix_refl].
  - rewrite not_none_marks_cons.
    assert (∀ y, y ∈ b :: l →
              ∃ z, z ∈ (if Py.startswith (local b) (local a)
                        then not_none (marks (b :: l))
                        else a :: not_none (marks (b :: l))) ∧
                   String.prefix (local y) (local z) = true) as Hrest.
    { intros y Hy. destruct (IH y Hy) as (z & Hz & Hpre).
      exists z. split; [|done]. destruct (Py.startswith _ _); [done|by right]. }
    apply elem_of_cons in Hx as [->|Hx]; [|by apply Hrest].
    destruct (Py.startswith (local b) (local a)) eqn:Hab.
    + destruct (IH b) as (z & Hz & Hpre); [by left|].
      exists z. split; [done|]. by eapply prefix_trans.
    + exists a. split; [by left|apply prefix_refl].
Qed.

Lemma eliminate_duplications_facts (dirs out : list PushPath) :
  eliminate_duplications dirs = Ok out →
  ascending out ∧ StronglySorted unrelated out.
Proof.
  rewrite eliminate_duplications_eq. intros Hout.
  destruct dirs as [|a [|b dirs]]; injection Hout as <-.
  - split; constructor.
  - split; repeat constructor.
  - pose proof (sort_by_local_ascending (a :: b :: dirs)) as Hasc.
    split.
    + exact (ascending_sublist _ _ (not_none_marks_sublist _) Hasc).
    + exact (not_none_marks_unrelated _ Hasc).
Qed.

End DedupMore.

(** X1.  A directory whose local path is a proper prefix of the local
    path of another directory of the list is never in the result of the
    deduplication: no surviving entry has its local path. *)
Theorem dedup_drops_every_proper_prefix
    (dirs out : list PushPath) (x y : PushPath) :
  Dedup.eliminate_duplications dirs = Ok out →
  x ∈ dirs → y ∈ dirs →
  Py.startswith (local y) (local x) = true →
  local x ≠ local y →
  ∀ z, z ∈ out → local z ≠ local x.
Proof.
  rewrite eliminate_duplications_eq. intros Hout Hx Hy Hpre Hne.
  destruct dirs as [|a [|b dirs]].
  - by apply elem_of_nil in Hx.
  - apply list_elem_of_singleton in Hx as ->.
    apply list_elem_of_singleton in Hy as ->. done.
  - injection Hout as <-.
    apply (marks_drop_strict_prefix (local x)
             (Dedup.sort_by_local (a :: b :: dirs))).
    + exact (sort_by_local_ascending (a :: b :: dirs)).
    + exists y. split_and!; [|done..].
      by rewrite (sort_by_local_perm (a :: b :: dirs)).
Qed.

Lemma dedup_drops_every_proper_prefix_witness :
  Forall (λ z, local z ≠ "/a") (Scenario.dir <$> ["/a/b"; "/d"]).
Proof.
  apply Forall_forall.
  apply (dedup_drops_every_proper_prefix
           (Scenario.dir <$> ["/d"; "/a/b"; "/a"])
           (Scenario.dir <$> ["/a/b"; "/d"])
           (Scenario.dir "/a") (Scenario.dir "/a/b"));
    [reflexivity|set_solver|set_solver|reflexivity|discriminate].
Defined.

(** X2.  Every directory of the list is a prefix of a directory that
    the deduplication keeps: what is dropped has a surviving extension. *)
Theorem dedup_keeps_an_extension
    (dirs out : list PushPath) (x : PushPath) :
  Dedup.eliminate_duplications dirs = Ok out →
  x ∈ dirs →
  ∃ z, z ∈ out ∧ Py.startswith (local z) (local x) = true.
Proof.
  rewrite eliminate_duplications_eq. intros Hout Hx.
  destruct dirs as [|a [|b dirs]]; injection Hout as <-.
  - by apply elem_of_nil in Hx.
  - exists x. split; [done|apply prefix_refl].
  - apply (marks_keep_extension (Dedup.sort_by_local (a :: b :: dirs))).
    by rewrite (sort_by_local_perm (a :: b :: dirs)).
Qed.

Lemma dedup_keeps_an_extension_witness :
  ∃ z, z ∈ Scenario.dir <$> ["/a/b"; "/d"] ∧
       Py.startswith (local z) "/a" = true.
Proof.
  apply (dedup_keeps_an_extension
           (Scenario.dir <$> ["/d"; "/a/b"; "/a"])
           (Scenario.dir <$> ["/a/b"; "/d"]) (Scenario.dir "/a"));
    [reflexivity|set_solver].
Defined.

(** X3.  The deduplication is idempotent: applied to its own result it
    returns that result. *)
Theorem dedup_idempotent (dirs out : list PushPath) :
  Dedup.eliminate_duplications dirs = Ok out →
  Dedup.eliminate_duplications out = Ok out.
Proof.
  intros Hout.
  destruct (eliminate_duplications_facts dirs out Hout) as [Hasc Hun].
  rewrite eliminate_duplications_eq. f_equal.
  destruct out as [|a [|b out]]; [done..|].
  rewrite sort_by_local_ascending_id by done.
  by apply not_none_marks_unrelated_id.
Qed.

Lemma dedup_idempotent_witness :
  Dedup.eliminate_duplications (Scenario.dir <$> ["/a/b"; "/d"]) =
  Ok (Scenario.dir <$> ["/a/b"; "/d"]).
Proof.
  apply (dedup_idempotent (Scenario.dir <$> ["/d"; "/a/b"; "/a"])).
  reflexivity.
Defined.

(** X4.  When no directory of the list is a prefix of another one, the
    deduplication drops nothing: it returns the list sorted by local
    path, a permutation of the input. *)
Theorem dedup_keeps_prefix_free_list (dirs : list PushPath) :
  DedupSpec.prefix_free dirs →
  Dedup.eliminate_duplications dirs = Ok (Dedup.sort_by_local dirs) ∧
  Dedup.sort_by_local dirs ≡ₚ dirs.
Proof.
  intros Hfree. split; [|apply sort_by_local_perm].
  rewrite eliminate_duplications_eq. f_equal.
  destruct dirs as [|a [|b dirs]]; [done..|].
  apply not_none_marks_unrelated_id.
  eapply unrelated_perm; [symmetry; apply sort_by_local_perm|].
  by apply prefix_free_unrelated.
Qed.

Lemma dedup_keeps_prefix_free_list_witness :
  Dedup.eliminate_duplications (Scenario.dir <$> ["/d"; "/a/c"; "/a/b"]) =
  Ok (Scenario.dir <$> ["/a/b"; "/a/c"; "/d"]).
Proof.
  refine (proj1 (dedup_keeps_prefix_free_list
                   (Scenario.dir <$> ["/d"; "/a/c"; "/a/b"]) _)).
  intros [|[|[|i]]] [|[|[|j]]] x y Hij Hi Hj;
    try (by destruct Hij); cbv in Hi, Hj; simplify_eq; reflexivity.
Defined.

(** ** The push stage *)

Lemma mkdir_remote_Ok_inv (h : Host) (cfg : Cfg) dir σ u σ' :
  _mkdir_remote h cfg dir σ = (Ok u, σ') →
  σ' = mkWorld (worker σ)
         (executed σ ++
          [done_ok (remote_shell cfg (cfg_remote_mkdir cfg ++ [Py.str dir]))])
         (logged σ).
Proof.
  unfold _mkdir_remote. intros Hrun. invert_run Hrun.
  lazymatch goal with
  | H : _execute_cmd _ _ _ _ = _ |- _ =>
      apply execute_cmd_Ok_inv in H as (-> & -> & Hrc)
  end.
  by rewrite Hrc.
Qed.

Lemma for_each_push_Ok_inv (h : Host) (cfg : Cfg) (items : list PushPath)
    σ u σ' :
  for_each items (λ item,
    let remote_dir := Py.rpartition_head "/" (remote item) in
    _mkdir_remote h cfg (Some remote_dir);;
    _transfer_data h cfg (Some (local item)) (Some (remote item)) false true
      (Exclude (cfg_push_exclude cfg))) σ = (Ok u, σ') →
  σ' = mkWorld (worker σ)
         (executed σ ++
          (done_ok <$>
           flat_map (push_entry_commands cfg (_user (worker σ))) items))
         (logged σ).
Proof.
  revert σ. induction items as [|item items IH]; intros σ Hrun; simpl in Hrun.
  - invert_run Hrun. simpl. rewrite app_nil_r. by destruct σ'.
  - apply bind_Ok_inv in Hrun as ([] & σ1 & Hitem & Hrun).
    apply bind_Ok_inv in Hitem as ([] & σ2 & Hmkdir & Hcopy).
    apply mkdir_remote_Ok_inv in Hmkdir as ->.
    apply transfer_data_Ok_inv in Hcopy as ->.
    apply IH in Hrun as ->. simpl.
    rewrite <- !app_assoc. reflexivity.
Qed.

Lemma classify_eq (h : Host) (pairs : list (string * string))
    (files dirs : list PushPath) (σ : World) :
  classify h (Ok <$> pairs) files dirs σ =
  (Ok (files ++ omap (as_push_file h) pairs,
       dirs ++ omap (as_push_dir h) pairs),
   mkWorld (worker σ) (executed σ)
     (logged σ ++ omap (as_unpushable h) pairs)).
Proof.
  revert files dirs σ.
  induction pairs as [|[source dest] pairs IH]; intros files dirs σ; simpl.
  - rewrite !app_nil_r. by destruct σ.
  - rewrite bind_run. simpl.
    unfold as_push_file, as_push_dir, as_unpushable. simpl.
    destruct (isfile h _); [|destruct (isdir h _)].
    + rewrite IH. by rewrite <- app_assoc.
    + rewrite IH. by rewrite <- app_assoc.
    + rewrite bind_run. simpl. rewrite IH. simpl. by rewrite <- app_assoc.
Qed.

Lemma respects_user_build_push_dests (h : Host) (cfg : Cfg) sources :
  respects (keeps _user) (_build_push_dests h cfg sources).
Proof. unfold _build_push_dests. frame. Qed.

Lemma respects_user_build_push_lists (h : Host) (cfg : Cfg) :
  respects (keeps _user) (_build_push_lists h cfg).
Proof.
  unfold _build_push_lists.
  pose proof (respects_user_build_push_dests h cfg). frame.
Qed.

(** X5.  [_push_files_to_dst] that returns has run, for each file and
    then each directory in the order of the lists, the creation of the
    remote directory holding the destination (the destination up to its
    last [/]) followed by the transfer of the entry; every one of these
    commands exited with 0, and neither the worker nor the log
    changed. *)
Theorem push_files_to_dst_commands (h : Host) (cfg : Cfg)
    (files dirs : list PushPath) (σ σ' : World) :
  _push_files_to_dst h cfg files dirs σ = (Ok tt, σ') →
  worker σ' = worker σ ∧
  logged σ' = logged σ ∧
  executed σ' =
    executed σ ++
    (done_ok <$>
     flat_map (push_entry_commands cfg (_user (worker σ))) (files ++ dirs)).
Proof.
  intros Hrun. unfold _push_files_to_dst in Hrun.
  apply for_each_push_Ok_inv in Hrun as ->. done.
Qed.

Lemma push_files_to_dst_commands_witness :
  let σ := World_init Scenario.host in
  let files := [mkLocationPaths "/etc/cfg.yml" "/srv/etc/cfg.yml"] in
  let dirs := [Scenario.dir "/d"] in
  let σ' := (_push_files_to_dst Scenario.host Scenario.cfg files dirs σ).2 in
  worker σ' = worker σ ∧
  logged σ' = logged σ ∧
  executed σ' =
    executed σ ++
    (done_ok <$>
     flat_map (push_entry_commands Scenario.cfg (_user (worker σ)))
       (files ++ dirs)).
Proof.
  apply (push_files_to_dst_commands Scenario.host Scenario.cfg).
  vm_compute. reflexivity.
Defined.

(** X6.  The loop of [_build_push_lists] that separates the push
    locations partitions them in order: the pairs whose source, stripped
    of trailing separators, is a file go to the files, those whose
    source is a directory to the directories, and each of the others is
    reported by one error in the log and dropped; the loop runs no
    command, never raises on pairs, and every pair lands in exactly one
    of the three. *)
Theorem classify_partitions (h : Host) (pairs : list (string * string))
    (σ : World) :
  classify h (Ok <$> pairs) [] [] σ =
    (Ok (omap (as_push_file h) pairs, omap (as_push_dir h) pairs),
     mkWorld (worker σ) (executed σ)
       (logged σ ++ omap (as_unpushable h) pairs)) ∧
  length (omap (as_push_file h) pairs) +
  length (omap (as_push_dir h) pairs) +
  length (omap (as_unpushable h) pairs) = length pairs.
Proof.
  split; [apply classify_eq|].
  induction pairs as [|pair pairs IH]; [done|]. simpl.
  unfold as_push_file at 1, as_push_dir at 1, as_unpushable at 1.
  unfold omap in IH.
  destruct (isfile h _); [|destruct (isdir h _)]; simpl; lia.
Qed.

(** X7.  When there is something to push and [_push_files] returns, the
    paths registered in the setup metadata are the remote destinations
    of the lists built by [_build_push_lists], and the commands run
    after the lists were built are exactly the pushes of these entries,
    files first, each with exit code 0: what is registered for deletion
    is what was transferred. *)
Theorem push_files_registers_what_it_transfers (h : Host) (cfg : Cfg)
    (σ σ' : World) :
  Py.truthy_list (cfg_push cfg) = true →
  _push_files h cfg σ = (Ok tt, σ') →
  ∃ files dirs σ1,
    _build_push_lists h cfg σ = (Ok (files, dirs), σ1) ∧
    push_files (setup_metadata (worker σ')) = Some (remote <$> files) ∧
    push_dirs (setup_metadata (worker σ')) = Some (remote <$> dirs) ∧
    logged σ' = logged σ1 ∧
    executed σ' =
      executed σ1 ++
      (done_ok <$>
       flat_map (push_entry_commands cfg (_user (worker σ)))
         (files ++ dirs)).
Proof.
  intros Hpush Hrun. unfold _push_files in Hrun. rewrite Hpush in Hrun.
  simpl in Hrun.
  apply bind_Ok_inv in Hrun as ([files dirs] & σ1 & Hlists & Hrun).
  invert_run Hrun. unfold _push_files_to_dst in Hrun.
  apply for_each_push_Ok_inv in Hrun as ->. simpl.
  exists files, dirs, σ1. split_and!; try done.
  by rewrite <- (respects_run _user _ _ _ _
                   (respects_user_build_push_lists h cfg) Hlists).
Qed.

Lemma push_files_registers_what_it_transfers_witness :
  let cfg := Scenario.make_cfg
               (Some [PushStr "/a/b"; PushStr "/etc/cfg.yml"; PushStr "/a"])
               None None None in
  let σ := World_init Scenario.host in
  let σ' := (_push_files Scenario.host cfg σ).2 in
  ∃ files dirs σ1,
    _build_push_lists Scenario.host cfg σ = (Ok (files, dirs), σ1) ∧
    push_files (setup_metadata (worker σ')) = Some (remote <$> files) ∧
    push_dirs (setup_metadata (worker σ')) = Some (remote <$> dirs) ∧
    logged σ' = logged σ1 ∧
    executed σ' =
      executed σ1 ++
      (done_ok <$>
       flat_map (push_entry_commands cfg (_user (worker σ)))
         (files ++ dirs)).
Proof.
  apply (push_files_registers_what_it_transfers Scenario.host).
  - reflexivity.
  - vm_compute. reflexivity.
Defined.

(** ** Destinations relative to a root *)

Lemma map_M_to_relative_push_dest (h : Host) (cfg : Cfg) root pd sources σ :
  cfg_push_relative_dir cfg = Some root →
  _remote_push_dir (worker σ) = Some pd →
  map_M (_to_relative_push_dest h cfg) sources σ =
    (match first_outside h root sources with
     | Some bad => Raise (RuntimeError (PushNotUnderRoot bad root))
     | None => Ok (relative_push_dest h pd root <$> sources)
     end, σ).
Proof.
  intros Hroot Hpd. unfold first_outside.
  induction sources as [|source sources IH]; simpl; [done|].
  rewrite bind_run. unfold _to_relative_push_dest at 1. rewrite Hroot.
  destruct (is_subdir h source root); simpl; [|done].
  rewrite bind_run. simpl. rewrite Hpd. simpl.
  rewrite bind_run, IH. by destruct (find _ sources).
Qed.

Lemma first_outside_None (h : Host) root sources :
  first_outside h root sources = None →
  Forall (λ source, is_subdir h source root = true) sources.
Proof.
  unfold first_outside. induction sources as [|source sources IH]; simpl.
  - constructor.
  - destruct (is_subdir h source root) eqn:Hsub; simpl; [|done].
    intros Hnone. constructor; auto.
Qed.

(** The run of [_build_push_dests] with a relative root, in terms of the
    exit code of the command that creates the remote push directory. *)
Lemma build_push_dests_relative_run (h : Host) (cfg : Cfg) root rtp sources σ :
  cfg_push_relative_dir cfg = Some root → root ≠ EmptyString →
  _remote_testplan_path (worker σ) = Some rtp →
  let pd := rtp +:+ "/push_files" in
  let cmd := remote_shell cfg (cfg_remote_mkdir cfg ++ [pd]) in
  let rc := returncode h (executed σ) cmd in
  let w1 := set__remote_push_dir (Some pd) (worker σ) in
  _build_push_dests h cfg sources σ =
    if (rc =? 0)%Z then
      (match first_outside h root sources with
       | Some bad => Raise (RuntimeError (PushNotUnderRoot bad root))
       | None => Ok (relative_push_dest h pd root <$> sources)
       end,
       mkWorld (set_setup_metadata (set_push_dir (Some pd) (setup_metadata w1))
                  w1)
         (executed σ ++ [(cmd, rc)]) (logged σ))
    else
      (Raise (RuntimeError (CommandFailed cmd rc)),
       mkWorld w1 (executed σ ++ [(cmd, rc)]) (logged σ)).
Proof.
  intros Hroot Hne Hrtp. unfold _build_push_dests. rewrite Hroot.
  destruct root as [|c root]; [done|]. simpl.
  unfold _mkdir_remote, _execute_cmd. run. simpl. rewrite Hrtp. run. simpl.
  change (rtp +:+ "/" +:+ "push_files") with (rtp +:+ "/push_files").
  destruct (_ =? 0)%Z; simpl; [|done].
  erewrite map_M_to_relative_push_dest; [|exact Hroot|reflexivity].
  reflexivity.
Qed.

(** X8.  With a relative root configured, [_build_push_dests] that
    returns has run one command, the creation of
    [<remote_testplan_path>/push_files] (exit code 0); every source is
    under the root, the destination of each source is the push directory
    joined by [/] to the POSIX form of the source's path relative to the
    root, in the order of the sources, and so every destination lies
    under the push directory. *)
Theorem relative_push_dests_under_push_dir (h : Host) (cfg : Cfg)
    (root rtp : string) (sources dsts : list string) (σ σ' : World) :
  cfg_push_relative_dir cfg = Some root → root ≠ EmptyString →
  _remote_testplan_path (worker σ) = Some rtp →
  _build_push_dests h cfg sources σ = (Ok dsts, σ') →
  let pd := rtp +:+ "/push_files" in
  Forall (λ source, is_subdir h source root = true) sources ∧
  dsts = relative_push_dest h pd root <$> sources ∧
  Forall (λ dst, Py.startswith dst (pd +:+ "/") = true) dsts ∧
  executed σ' =
    executed σ ++
    [done_ok (remote_shell cfg (cfg_remote_mkdir cfg ++ [pd]))].
Proof.
  intros Hroot Hne Hrtp Hrun.
  rewrite (build_push_dests_relative_run h cfg root rtp) in Hrun by done.
  cbv zeta in Hrun.
  destruct (Z.eqb_spec
              (returncode h (executed σ)
                 (remote_shell cfg
                    (cfg_remote_mkdir cfg ++ [rtp +:+ "/push_files"]))) 0)
    as [Hrc|]; [|done].
  destruct (first_outside h root sources) eqn:Hfirst; [done|].
  simplify_eq. simpl. rewrite Hrc.
  split_and!; [by apply first_outside_None|done| |done].
  apply Forall_fmap, Forall_forall. intros source _. simpl.
  unfold relative_push_dest, Py.startswith, Py.join. simpl.
  apply prefix_app_mono, prefix_app.
Qed.

Lemma relative_push_dests_under_push_dir_witness :
  let sources := ["/home/u/ws/a/x.txt"; "/home/u/ws/a"] in
  let run := _build_push_dests Scenario.host Scenario.relative_cfg sources
               Scenario.with_remote_dirs in
  let pd := "/var/tmp/u/testplan/remote_workspaces/plan/push_files" in
  Forall (λ source, is_subdir Scenario.host source "/home/u/ws" = true)
    sources ∧
  [pd +:+ "/a/x.txt"; pd +:+ "/a"] =
    relative_push_dest Scenario.host pd "/home/u/ws" <$> sources ∧
  Forall (λ dst, Py.startswith dst (pd +:+ "/") = true)
    [pd +:+ "/a/x.txt"; pd +:+ "/a"] ∧
  executed run.2 =
    executed Scenario.with_remote_dirs ++
    [done_ok (remote_shell Scenario.relative_cfg
                (cfg_remote_mkdir Scenario.relative_cfg ++ [pd]))].
Proof.
  apply (relative_push_dests_under_push_dir Scenario.host
           Scenario.relative_cfg "/home/u/ws"
           "/var/tmp/u/testplan/remote_workspaces/plan");
    [reflexivity|discriminate|reflexivity|vm_compute; reflexivity].
Defined.

(** X9.  A list of strings with a source that [pathutils.is_subdir]
    does not find under the relative root is refused by [_push_files]
    with a [RuntimeError] naming the first such source, whatever the
    other sources are: by then the remote push directory has been
    created and recorded in the metadata, but nothing has been
    transferred and no push path has been registered. *)
Theorem push_outside_root_refused (h : Host) (cfg : Cfg)
    (push : list push_item) (root rtp bad : string) (σ : World) :
  cfg_push cfg = Some push → forallb is_string push = true →
  cfg_push_relative_dir cfg = Some root → root ≠ EmptyString →
  _remote_testplan_path (worker σ) = Some rtp →
  let pd := rtp +:+ "/push_files" in
  let mkdir := remote_shell cfg (cfg_remote_mkdir cfg ++ [pd]) in
  returncode h (executed σ) mkdir = 0%Z →
  first_outside h root (source_of <$> push) = Some bad →
  let run := _push_files h cfg σ in
  run.1 = Raise (RuntimeError (PushNotUnderRoot bad root)) ∧
  executed run.2 = executed σ ++ [done_ok mkdir] ∧
  logged run.2 = logged σ ∧
  push_dir (setup_metadata (worker run.2)) = Some pd ∧
  push_files (setup_metadata (worker run.2)) =
    push_files (setup_metadata (worker σ)) ∧
  push_dirs (setup_metadata (worker run.2)) =
    push_dirs (setup_metadata (worker σ)).
Proof.
  intros Hpush Hstr Hroot Hne Hrtp pd mkdir Hrc Hbad.
  assert (Py.truthy_list (cfg_push cfg) = true) as Htruthy.
  { rewrite Hpush. destruct push; [done|reflexivity]. }
  unfold _push_files. rewrite Htruthy. simpl.
  rewrite bind_run. unfold _build_push_lists.
  rewrite Hpush. simpl. rewrite bind_run. simpl.
  rewrite bind_run, Hstr, bind_run.
  rewrite (build_push_dests_relative_run h cfg root rtp) by done.
  cbv zeta. fold pd. fold mkdir. rewrite Hrc, Hbad. simpl. done.
Qed.

Lemma push_outside_root_refused_witness :
  let cfg := Scenario.make_cfg
               (Some [PushStr "/home/u/ws/a/x.txt"; PushStr "/etc/cfg.yml"])
               (Some "/home/u/ws") None None in
  let pd := "/var/tmp/u/testplan/remote_workspaces/plan/push_files" in
  let mkdir := remote_shell cfg (cfg_remote_mkdir cfg ++ [pd]) in
  let σ := Scenario.with_remote_dirs in
  let run := _push_files Scenario.host cfg σ in
  run.1 = Raise (RuntimeError (PushNotUnderRoot "/etc/cfg.yml" "/home/u/ws")) ∧
  executed run.2 = executed σ ++ [done_ok mkdir] ∧
  logged run.2 = logged σ ∧
  push_dir (setup_metadata (worker run.2)) = Some pd ∧
  push_files (setup_metadata (worker run.2)) =
    push_files (setup_metadata (worker σ)) ∧
  push_dirs (setup_metadata (worker run.2)) =
    push_dirs (setup_metadata (worker σ)).
Proof.
  apply (push_outside_root_refused Scenario.host _
           [PushStr "/home/u/ws/a/x.txt"; PushStr "/etc/cfg.yml"]
           "/home/u/ws" "/var/tmp/u/testplan/remote_workspaces/plan");
    [reflexivity|reflexivity|reflexivity|discriminate|reflexivity
    |reflexivity|reflexivity].
Defined.

(** ** Results and pulled files *)

Lemma for_each_pull_Ok_inv (h : Host) (cfg : Cfg) (entries : list string)
    σ u σ' :
  for_each entries (λ entry,
    let dirname :=
      Py.join (String (os_sep h) EmptyString)
        (Py.split "/" (dirname h entry)) in
    if makedirs h dirname then
      _transfer_data h cfg (Some entry) (Some dirname) true false
        (Exclude (cfg_pull_exclude cfg))
    else
      emit (ErrorCouldNotCreateDirectory dirname)) σ = (Ok u, σ') →
  σ' = mkWorld (worker σ)
         (executed σ ++
          (done_ok <$> pull_commands h cfg (_user (worker σ)) entries))
         (logged σ ++ pull_errors h entries).
Proof.
  revert σ. induction entries as [|entry entries IH]; intros σ Hrun;
    simpl in Hrun.
  - invert_run Hrun. simpl. rewrite !app_nil_r. by destruct σ'.
  - apply bind_Ok_inv in Hrun as ([] & σ1 & Hentry & Hrun).
    apply IH in Hrun as ->. simpl. unfold pull_target at 1 3.
    destruct (makedirs h _).
    + apply transfer_data_Ok_inv in Hentry as ->. simpl.
      by rewrite <- app_assoc.
    + invert_run Hentry. simpl. by rewrite <- app_assoc.
Qed.

Lemma fetch_results_run (h : Host) (cfg : Cfg) (σ : World) :
  let cmd := fetch_results_cmd h cfg (worker σ) in
  let rc := returncode h (executed σ) cmd in
  _fetch_results h cfg σ =
    (if (rc =? 0)%Z then Ok tt else Raise (RuntimeError (CommandFailed cmd rc)),
     mkWorld (worker σ) (executed σ ++ [(cmd, rc)]) (logged σ)).
Proof.
  unfold _fetch_results, _transfer_data, _execute_cmd. run. simpl.
  unfold fetch_results_cmd, _remote_copy_path.
  by destruct (_ =? 0)%Z.
Qed.

(** X10.  [_pull_files] that returns has pulled, in the order of
    [cfg.pull], each entry (stripped of trailing [/]) whose local target
    directory could be created, with exit code 0, and has logged one
    error for each of the others without stopping; the worker is
    unchanged. *)
Theorem pull_files_commands (h : Host) (cfg : Cfg) (pull : list string)
    (σ σ' : World) :
  cfg_pull cfg = Some pull →
  _pull_files h cfg σ = (Ok tt, σ') →
  let entries := Py.rstrip "/" <$> pull in
  worker σ' = worker σ ∧
  executed σ' =
    executed σ ++
    (done_ok <$> pull_commands h cfg (_user (worker σ)) entries) ∧
  logged σ' = logged σ ++ pull_errors h entries.
Proof.
  intros Hpull Hrun. unfold _pull_files in Hrun. rewrite Hpull in Hrun.
  simpl in Hrun. apply bind_Ok_inv in Hrun as (pull' & σ1 & Hret & Hrun).
  invert_run Hret.
  apply for_each_pull_Ok_inv in Hrun as ->. done.
Qed.

Lemma pull_files_commands_witness :
  let h := with_makedirs (λ d, negb (String.eqb d "/ro")) Scenario.host in
  let pull := ["/var/log/app/"; "/ro/x"; "/srv/out.txt"] in
  let cfg := with_pull (Some pull) Scenario.cfg in
  let σ := Scenario.prepared in
  let σ' := (_pull_files h cfg σ).2 in
  let entries := Py.rstrip "/" <$> pull in
  worker σ' = worker σ ∧
  executed σ' =
    executed σ ++
    (done_ok <$> pull_commands h cfg (_user (worker σ)) entries) ∧
  logged σ' = logged σ ++ pull_errors h entries.
Proof.
  apply (pull_files_commands
           (with_makedirs (λ d, negb (String.eqb d "/ro")) Scenario.host)
           (with_pull (Some ["/var/log/app/"; "/ro/x"; "/srv/out.txt"])
              Scenario.cfg)).
  - reflexivity.
  - vm_compute. reflexivity.
Defined.

(** X11.  [aborting] never raises: it runs the one command that fetches
    the results, and logs an error exactly when that command exits with
    a code other than 0; the worker is unchanged. *)
Theorem aborting_never_raises (h : Host) (cfg : Cfg) (σ : World) :
  let cmd := fetch_results_cmd h cfg (worker σ) in
  let rc := returncode h (executed σ) cmd in
  aborting h cfg σ =
    (Ok tt,
     mkWorld (worker σ) (executed σ ++ [(cmd, rc)])
       (logged σ ++
        if (rc =? 0)%Z then [] else [ErrorCouldNotFetchResults])).
Proof.
  unfold aborting, try_except. rewrite fetch_results_run. cbv zeta.
  destruct (_ =? 0)%Z; simpl; [by rewrite app_nil_r|done].
Qed.

(** X12.  When the command that fetches the results fails, [stopping]
    raises the [RuntimeError] of that command and pulls nothing: the
    fetch is the only command run, and nothing is logged. *)
Theorem stopping_fetch_failure_skips_pull (h : Host) (cfg : Cfg) (σ : World) :
  let cmd := fetch_results_cmd h cfg (worker σ) in
  let rc := returncode h (executed σ) cmd in
  rc ≠ 0%Z →
  stopping h cfg σ =
    (Raise (RuntimeError (CommandFailed cmd rc)),
     mkWorld (worker σ) (executed σ ++ [(cmd, rc)]) (logged σ)).
Proof.
  intros cmd rc Hrc. unfold stopping. rewrite bind_run, fetch_results_run.
  fold cmd. fold rc. by destruct (Z.eqb_spec rc 0).
Qed.

Lemma stopping_fetch_failure_skips_pull_witness :
  let h := with_returncode (λ _ _, 1%Z) Scenario.host in
  let cfg := with_pull (Some ["/var/log/app"]) Scenario.cfg in
  let σ := Scenario.prepared in
  let cmd := fetch_results_cmd h cfg (worker σ) in
  stopping h cfg σ =
    (Raise (RuntimeError (CommandFailed cmd 1%Z)),
     mkWorld (worker σ) (executed σ ++ [(cmd, 1%Z)]) (logged σ)).
Proof.
  apply (stopping_fetch_failure_skips_pull
           (with_returncode (λ _ _, 1%Z) Scenario.host)
           (with_pull (Some ["/var/log/app"]) Scenario.cfg)
           Scenario.prepared).
  discriminate.
Defined.

(** X13.  [stopping] that returns has fetched the results first and then
    pulled the entries of [cfg.pull], every command with exit code 0;
    the worker is unchanged, and the log has one more error for each
    entry whose local directory could not be created. *)
Theorem stopping_fetches_then_pulls (h : Host) (cfg : Cfg) (σ σ' : World) :
  stopping h cfg σ = (Ok tt, σ') →
  worker σ' = worker σ ∧
  executed σ' =
    executed σ ++
    (done_ok <$>
     fetch_results_cmd h cfg (worker σ) ::
     pull_commands h cfg (_user (worker σ)) (pull_entries cfg)) ∧
  logged σ' = logged σ ++ pull_errors h (pull_entries cfg).
Proof.
  intros Hrun. unfold stopping in Hrun.
  apply bind_Ok_inv in Hrun as ([] & σ1 & Hfetch & Hrun).
  rewrite fetch_results_run in Hfetch. cbv zeta in Hfetch.
  destruct (Z.eqb_spec
              (returncode h (executed σ) (fetch_results_cmd h cfg (worker σ)))
              0) as [Hrc|]; [|done].
  rewrite Hrc in Hfetch. simplify_eq. unfold pull_entries.
  destruct (cfg_pull cfg) as [[|entry pull]|] eqn:Hpull; simpl in Hrun.
  - invert_run Hrun. simpl. by rewrite app_nil_r.
  - unfold _pull_files in Hrun. rewrite Hpull in Hrun. simpl in Hrun.
    apply bind_Ok_inv in Hrun as (pull' & σ1 & Hret & Hrun).
    invert_run Hret.
    apply for_each_pull_Ok_inv in Hrun as ->. simpl.
    rewrite <- !app_assoc. done.
  - invert_run Hrun. simpl. by rewrite app_nil_r.
Qed.

Lemma stopping_fetches_then_pulls_witness :
  let h := Scenario.host in
  let cfg := with_pull (Some ["/var/log/app/"; "/srv/out.txt"]) Scenario.cfg in
  let σ := Scenario.prepared in
  let σ' := (stopping h cfg σ).2 in
  worker σ' = worker σ ∧
  executed σ' =
    executed σ ++
    (done_ok <$>
     fetch_results_cmd h cfg (worker σ) ::
     pull_commands h cfg (_user (worker σ)) (pull_entries cfg)) ∧
  logged σ' = logged σ ++ pull_errors h (pull_entries cfg).
Proof.
  apply (stopping_fetches_then_pulls Scenario.host
           (with_pull (Some ["/var/log/app/"; "/srv/out.txt"]) Scenario.cfg)).
  vm_compute. reflexivity.
Defined.

(** ** The command of the child process: what it needs *)

Lemma proc_cmd_args_Ok_inv (h : Host) (cfg : Cfg) σ items σ' :
  _proc_cmd_args h cfg σ = (Ok items, σ') →
  remote (_child_paths (worker σ)) ∈ items ∧
  remote (_working_dirs (worker σ)) ∈ items ∧
  _remote_testplan_runpath (worker σ) ∈ items.
Proof.
  unfold _proc_cmd_args. intros Hrun.
  apply bind_Ok_inv in Hrun as (python & σ1 & Hpython & Hrun).
  assert (σ1 = σ) as ->.
  { unfold environ_item in Hpython.
    destruct (String.eqb _ _); [destruct (Py.startswith _ _)|];
      invert_run Hpython; done. }
  invert_run Hrun.
  destruct (negb _); invert_run Hrun.
  all: rewrite <- ?app_assoc; simpl.
  all: split_and!; set_solver.
Qed.

(** X14.  On Windows the interpreter of the child process is read from
    the environment, [PYTHON3_REMOTE_BINARY] under Python 3 and
    [PYTHON2_REMOTE_BINARY] otherwise: when that variable is not set,
    [_proc_cmd] raises the [KeyError] of the variable, whatever the
    worker, and changes nothing. *)
Theorem proc_cmd_windows_needs_remote_binary (h : Host) (cfg : Cfg)
    (σ : World) :
  platform_system h = "Windows" →
  environ h !! remote_binary_variable h = None →
  _proc_cmd h cfg σ = (Raise (KeyError (remote_binary_variable h)), σ).
Proof.
  unfold remote_binary_variable. intros Hsystem Henv.
  unfold _proc_cmd, _proc_cmd_args, environ_item.
  rewrite !bind_run, Hsystem. simpl.
  destruct (Py.startswith _ _); by rewrite Henv.
Qed.

Lemma proc_cmd_windows_needs_remote_binary_witness :
  let h := with_environ ∅ Scenario.windows_host in
  _proc_cmd h Scenario.windows_cfg Scenario.windows_prepared =
    (Raise (KeyError "PYTHON3_REMOTE_BINARY"), Scenario.windows_prepared).
Proof.
  apply (proc_cmd_windows_needs_remote_binary
           (with_environ ∅ Scenario.windows_host));
    reflexivity.
Defined.

(** X15.  The command of the child process cannot be built before the
    remote host is prepared: as long as the remote path of the child
    script, the remote working directory or the remote run path is
    [None], [_proc_cmd] does not return. *)
Theorem proc_cmd_needs_prepared_worker (h : Host) (cfg : Cfg) (σ : World) :
  remote (_child_paths (worker σ)) = None ∨
  remote (_working_dirs (worker σ)) = None ∨
  _remote_testplan_runpath (worker σ) = None →
  ∃ e, (_proc_cmd h cfg σ).1 = Raise e.
Proof.
  intros Hnone.
  destruct (_proc_cmd h cfg σ) as [[argv|e] σ'] eqn:Hrun; [|by eexists].
  exfalso. unfold _proc_cmd in Hrun.
  apply bind_Ok_inv in Hrun as (items & σ1 & Hargs & Hrun).
  apply bind_Ok_inv in Hrun as (joined & σ2 & Hjoin & _).
  unfold join_items in Hjoin.
  apply bind_Ok_inv in Hjoin as (strings & σ3 & Hsome & _).
  destruct (mapM id items) as [strings'|] eqn:HmapM; [|done].
  assert (Forall is_Some items) as Hitems.
  { apply (mapM_is_Some_1 id). by eexists. }
  rewrite Forall_forall in Hitems.
  apply proc_cmd_args_Ok_inv in Hargs as (Hchild & Hwd & Hrunpath).
  destruct Hnone as [Hnone|[Hnone|Hnone]]; rewrite Hnone in *.
  - by destruct (Hitems None Hchild).
  - by destruct (Hitems None Hwd).
  - by destruct (Hitems None Hrunpath).
Qed.

Lemma proc_cmd_needs_prepared_worker_witness :
  ∃ e, (_proc_cmd Scenario.host Scenario.cfg (World_init Scenario.host)).1 =
       Raise e.
Proof.
  apply (proc_cmd_needs_prepared_worker Scenario.host Scenario.cfg
           (World_init Scenario.host)).
  left. reflexivity.
Defined.

(** X16.  The items that [_add_testplan_import_path] appends: the flag
    and [cfg.testplan_path] when that option is set; otherwise nothing
    when the path of the package does not start with the path of the
    local workspace, and otherwise the flag and the remote workspace
    joined by [/] to the fields of the package's path relative to the
    local workspace (the common prefix that the code computes is the
    path of the workspace itself).  The test is [str.startswith] on the
    two paths, so that a package beside the workspace, in a directory
    whose name starts with the name of the workspace, gets the flag
    too. *)
Theorem add_testplan_import_path_cases (h : Host) (cfg : Cfg) (flag : string)
    (σ : World) (ws_local : string) :
  local (_workspace_paths (worker σ)) = Some ws_local →
  _add_testplan_import_path h cfg flag σ =
    (Ok (if Py.truthy_str (cfg_testplan_path cfg)
         then [Some flag; cfg_testplan_path cfg]
         else if Py.startswith (testplan_abspath h) ws_local
         then [Some flag;
               Some (Py.str (remote (_workspace_paths (worker σ))) +:+ "/" +:+
                     Py.join "/"
                       (Py.split (os_sep h)
                          (relpath h (testplan_abspath h) ws_local)))]
         else []),
     σ).
Proof. apply add_testplan_import_path_run. Qed.

Lemma add_testplan_import_path_cases_witness :
  let h := with_testplan_abspath "/home/u/ws/lib/testplan" Scenario.host in
  _add_testplan_import_path h Scenario.cfg "--testplan" Scenario.prepared =
    (Ok [Some "--testplan";
         Some "/var/tmp/u/testplan/remote_workspaces/plan/ws/lib/testplan"],
     Scenario.prepared).
Proof.
  apply (add_testplan_import_path_cases
           (with_testplan_abspath "/home/u/ws/lib/testplan" Scenario.host)
           Scenario.cfg "--testplan" Scenario.prepared "/home/u/ws").
  reflexivity.
Defined.

(** The package in [/home/u/ws2/lib], beside the workspace [/home/u/ws]:
    its path starts with the path of the workspace, and the flag is
    appended with a path that leaves the remote workspace. *)
Example testplan_beside_workspace_gets_flag :
  let h := with_relpath posix_relpath
             (with_testplan_abspath "/home/u/ws2/lib" Scenario.host) in
  _add_testplan_import_path h Scenario.cfg "--testplan" Scenario.prepared =
    (Ok [Some "--testplan";
         Some "/var/tmp/u/testplan/remote_workspaces/plan/ws/../ws2/lib"],
     Scenario.prepared).
Proof. vm_compute. reflexivity. Qed.

(** ** The commands of the preparation *)

Section FailFast.

Context (h : Host) (cfg : Cfg).

(** A step that runs no command and does not raise the failure of
    one. *)
Lemma fails_fast_pure {A} (m : M A) :
  (∀ σ, executed (m σ).2 = executed σ ∧
        ∀ cmd rc, (m σ).1 ≠ Raise (RuntimeError (CommandFailed cmd rc))) →
  fails_fast m.
Proof.
  intros Hm σ. destruct (Hm σ) as [Hexecuted Hraise].
  exists []. rewrite app_nil_r. split; [done|].
  destruct (m σ).1 as [a|[[cmd rc| |]| | | | |]]; simpl;
    try by constructor.
  by destruct (Hraise cmd rc).
Qed.

Lemma fails_fast_ret {A} (a : A) : fails_fast (mret a).
Proof. by apply fails_fast_pure. Qed.

Lemma fails_fast_bind {A B} (m : M A) (k : A → M B) :
  fails_fast m → (∀ a, fails_fast (k a)) → fails_fast (m ≫= k).
Proof.
  intros Hm Hk σ. rewrite bind_run.
  destruct (Hm σ) as (cmds1 & Heq1 & Htrace1).
  destruct (m σ) as [[a|e] σ1]; simpl in *; [|by exists cmds1].
  destruct (Hk a σ1) as (cmds2 & Heq2 & Htrace2).
  exists (cmds1 ++ cmds2). rewrite Heq2, Heq1, app_assoc. split; [done|].
  destruct (k a σ1).1 as [b|[[cmd rc| |]| | | | |]]; simpl in *;
    try by apply Forall_app.
  destruct Htrace2 as (Hrc & before & -> & Hbefore). split; [done|].
  exists (cmds1 ++ before). rewrite app_assoc. split; [done|].
  by apply Forall_app.
Qed.

Lemma fails_fast_for_each {A} (xs : list A) (body : A → M unit) :
  (∀ x, fails_fast (body x)) → fails_fast (for_each xs body).
Proof.
  intros Hbody. induction xs as [|x xs IH]; simpl.
  - apply fails_fast_ret.
  - by apply fails_fast_bind.
Qed.

Lemma fails_fast_map_M {A B} (f : A → M B) (xs : list A) :
  (∀ x, fails_fast (f x)) → fails_fast (map_M f xs).
Proof.
  intros Hf. induction xs as [|x xs IH]; simpl.
  - apply fails_fast_ret.
  - apply fails_fast_bind; [done|]. intros y.
    apply fails_fast_bind; [done|]. intros ys. apply fails_fast_ret.
Qed.

Lemma fails_fast_execute_cmd (cmd : list string) :
  fails_fast (_execute_cmd h cmd true).
Proof.
  intros σ. unfold _execute_cmd. simpl.
  exists [(cmd, returncode h (executed σ) cmd)].
  destruct (Z.eqb_spec (returncode h (executed σ) cmd) 0) as [Hrc|Hrc]; simpl.
  - split; [done|]. by constructor.
  - split; [done|]. split; [done|]. exists []. split; [done|constructor].
Qed.

End FailFast.

Ltac pure_step :=
  apply fails_fast_pure; intros ?; run; simpl; repeat case_match; simpl;
  by split.

Section FailFastMethods.

Context (h : Host) (cfg : Cfg).

Lemma fails_fast_mkdir_remote (dir : option string) :
  fails_fast (_mkdir_remote h cfg dir).
Proof.
  unfold _mkdir_remote.
  apply fails_fast_bind; [apply fails_fast_execute_cmd|intros; pure_step].
Qed.

Lemma fails_fast_transfer_data source target rs rt args :
  fails_fast (_transfer_data h cfg source target rs rt args).
Proof.
  unfold _transfer_data.
  apply fails_fast_bind; [pure_step|]. intros w.
  apply fails_fast_bind; [apply fails_fast_execute_cmd|intros; pure_step].
Qed.

Lemma fails_fast_bind_post {A B} (P : A → Prop) (m : M A) (k : A → M B) :
  (∀ σ a σ', m σ = (Ok a, σ') → P a) →
  fails_fast m → (∀ a, P a → fails_fast (k a)) → fails_fast (m ≫= k).
Proof.
  intros Hpost Hm Hk σ. rewrite bind_run.
  destruct (Hm σ) as (cmds1 & Heq1 & Htrace1).
  destruct (m σ) as [[a|e] σ1] eqn:Hrun; simpl in *; [|by exists cmds1].
  destruct (Hk a (Hpost _ _ _ Hrun) σ1) as (cmds2 & Heq2 & Htrace2).
  exists (cmds1 ++ cmds2). rewrite Heq2, Heq1, app_assoc. split; [done|].
  destruct (k a σ1).1 as [b|[[cmd rc| |]| | | | |]]; simpl in *;
    try by apply Forall_app.
  destruct Htrace2 as (Hrc & before & -> & Hbefore). split; [done|].
  exists (cmds1 ++ before). rewrite app_assoc. split; [done|].
  by apply Forall_app.
Qed.

(** The locations that the loop of [_build_push_lists] is given: pairs,
    or items that cannot be unpacked. *)
Lemma classify_pure locations files dirs σ :
  Forall (λ location, location = Raise ValueError ∨
                      ∃ pair, location = Ok pair) locations →
  executed (classify h locations files dirs σ).2 = executed σ ∧
  ∀ cmd rc, (classify h locations files dirs σ).1 ≠
            Raise (RuntimeError (CommandFailed cmd rc)).
Proof.
  intros Hlocations. revert files dirs σ.
  induction Hlocations as [|location rest Hlocation _ IH];
    intros files dirs σ; simpl; [done|].
  rewrite bind_run.
  destruct Hlocation as [->|[[source dest] ->]]; simpl; [done|].
  destruct (isfile h _); [apply IH|].
  destruct (isdir h _); [apply IH|].
  rewrite bind_run. simpl.
  lazymatch goal with
  | |- context [classify h rest files dirs ?σ1] =>
      apply (IH files dirs σ1)
  end.
Qed.

Lemma unpack_pair_cases (item : push_item) :
  unpack_pair item = Raise ValueError ∨ ∃ pair, unpack_pair item = Ok pair.
Proof.
  destruct item as [s|[|source [|dest [|x t]]]]; simpl; eauto.
  destruct (Py.chars s) as [|a [|b [|c l]]]; eauto.
Qed.

Lemma fails_fast_build_push_dests sources :
  fails_fast (_build_push_dests h cfg sources).
Proof.
  unfold _build_push_dests.
  destruct (Py.truthy_str _); [|pure_step].
  apply fails_fast_bind; [pure_step|]. intros w.
  apply fails_fast_bind; [pure_step|]. intros rtp.
  apply fails_fast_bind; [pure_step|]. intros [].
  apply fails_fast_bind; [pure_step|]. intros w'.
  apply fails_fast_bind; [apply fails_fast_mkdir_remote|]. intros [].
  apply fails_fast_bind; [pure_step|]. intros [].
  apply fails_fast_map_M. intros source.
  unfold _to_relative_push_dest.
  destruct (cfg_push_relative_dir cfg) as [root|]; [|pure_step].
  destruct (negb _); [pure_step|].
  apply fails_fast_bind; [pure_step|]. intros w''.
  apply fails_fast_bind; [pure_step|]. intros push_dir. pure_step.
Qed.

Lemma fails_fast_build_push_lists : fails_fast (_build_push_lists h cfg).
Proof.
  unfold _build_push_lists.
  apply fails_fast_bind; [pure_step|]. intros push.
  apply (fails_fast_bind_post
           (Forall (λ location, location = Raise ValueError ∨
                                ∃ pair, location = Ok pair))).
  { intros σ locations σ' Hrun. destruct (forallb is_string push).
    - invert_run Hrun. apply Forall_fmap, Forall_forall. intros pair _.
      right. by eexists.
    - destruct (negb _); invert_run Hrun.
      apply Forall_fmap, Forall_forall. intros item _.
      apply unpack_pair_cases. }
  { destruct (forallb is_string push).
    - apply fails_fast_bind; [apply fails_fast_build_push_dests|].
      intros; pure_step.
    - destruct (negb _); [pure_step|].
      apply fails_fast_bind; [|intros; pure_step].
      destruct (Py.truthy_str _); pure_step. }
  intros locations Hlocations.
  apply fails_fast_bind.
  { apply fails_fast_pure. intros σ. by apply classify_pure. }
  intros [files dirs].
  apply fails_fast_bind; [|intros; pure_step].
  apply fails_fast_pure. intros σ. unfold lift.
  rewrite eliminate_duplications_eq. by split.
Qed.

Lemma fails_fast_push_files_to_dst files dirs :
  fails_fast (_push_files_to_dst h cfg files dirs).
Proof.
  unfold _push_files_to_dst. apply fails_fast_for_each. intros item.
  apply fails_fast_bind; [apply fails_fast_mkdir_remote|].
  intros []. apply fails_fast_transfer_data.
Qed.

Lemma fails_fast_push_files : fails_fast (_push_files h cfg).
Proof.
  unfold _push_files. destruct (negb _); [pure_step|].
  apply fails_fast_bind; [apply fails_fast_build_push_lists|].
  intros [files dirs].
  apply fails_fast_bind; [pure_step|]. intros [].
  apply fails_fast_bind; [pure_step|]. intros [].
  apply fails_fast_push_files_to_dst.
Qed.

Lemma fails_fast_fetch_results : fails_fast (_fetch_results h cfg).
Proof.
  unfold _fetch_results.
  apply fails_fast_bind; [pure_step|]. intros w.
  apply fails_fast_transfer_data.
Qed.

Lemma fails_fast_pull_files : fails_fast (_pull_files h cfg).
Proof.
  unfold _pull_files.
  apply fails_fast_bind; [pure_step|]. intros pull.
  apply fails_fast_for_each. intros entry. cbv zeta.
  destruct (makedirs h _); [apply fails_fast_transfer_data|pure_step].
Qed.

Lemma fails_fast_stopping : fails_fast (stopping h cfg).
Proof.
  unfold stopping.
  apply fails_fast_bind; [apply fails_fast_fetch_results|]. intros [].
  destruct (Py.truthy_list _); [apply fails_fast_pull_files|pure_step].
Qed.

End FailFastMethods.

Ltac fails_fast_step :=
  lazymatch goal with
  | |- fails_fast (mbind _ _) =>
      apply fails_fast_bind; [|intros ?; cbv beta]
  | |- fails_fast (_execute_cmd _ _ true) => apply fails_fast_execute_cmd
  | |- fails_fast (_transfer_data _ _ _ _ _ _ _) =>
      apply fails_fast_transfer_data
  | |- fails_fast (_mkdir_remote _ _ _) => apply fails_fast_mkdir_remote
  | |- fails_fast (_push_files _ _) => apply fails_fast_push_files
  | |- fails_fast (if ?b then _ else _) => destruct b
  | |- fails_fast (match ?x with _ => _ end) => destruct x
  | |- fails_fast _ => pure_step
  end.

Section Preparation.

Context (h : Host) (cfg : Cfg).

(** The part of [_prepare_remote] that follows the check of the
    workspace. *)
Lemma fails_fast_staging {A} (rest : M A) :
  fails_fast rest →
  fails_fast
    (_define_remote_dirs h cfg;;
     _create_remote_dirs h cfg;;
     _copy_child_script h cfg;;
     _copy_dependencies_module h cfg;;
     _copy_workspace h cfg;;
     rest).
Proof.
  intros Hrest.
  unfold _define_remote_dirs, _create_remote_dirs, _copy_child_script,
    _copy_dependencies_module, _copy_workspace.
  repeat first [exact Hrest | fails_fast_step].
Qed.

(** The check of the workspace is the one command whose exit code is
    not checked. *)
Lemma fails_fast_after_check {A} (rest : M A) (σ : World) :
  fails_fast rest →
  executed σ = [] →
  local (_workspace_paths (worker σ)) = Some (local_workspace h cfg) →
  let run :=
    (match cfg_copy_workspace_check cfg with
     | Some copy_workspace_check =>
         w ← get;
         let cmd := copy_workspace_check (cfg_ssh_cmd cfg) (cfg_index cfg)
                      (Py.str (local (_workspace_paths w))) in
         rc ← _execute_cmd h cmd false;
         modify (set_should_transfer_workspace (negb (rc =? 0)%Z))
     | None => mret tt
     end;;
     rest) σ in
  ∃ cmds,
    executed run.2 = check_workspace_commands h cfg ++ cmds ∧
    trace_of run.1 cmds.
Proof.
  intros Hrest Hexecuted Hlocal. cbv zeta. unfold check_workspace_commands.
  destruct (cfg_copy_workspace_check cfg) as [check|].
  - unfold _execute_cmd. run. simpl. rewrite Hlocal, Hexecuted. simpl.
    lazymatch goal with
    | |- context [rest ?σ1] => destruct (Hrest σ1) as (cmds & Heq & Htrace)
    end.
    exists cmds. by rewrite Heq.
  - run. destruct (Hrest σ) as (cmds & Heq & Htrace).
    exists cmds. by rewrite Heq, Hexecuted.
Qed.

Lemma fails_fast_Ok {A} (m : M A) σ a σ' :
  fails_fast m → m σ = (Ok a, σ') →
  ∃ cmds, executed σ' = executed σ ++ cmds ∧ zero_exits cmds.
Proof.
  intros Hm Hrun. destruct (Hm σ) as (cmds & Heq & Htrace).
  rewrite Hrun in Heq, Htrace. by exists cmds.
Qed.

Lemma push_files_nothing_run (σ : World) :
  Py.truthy_list (cfg_push cfg) = false →
  executed (_push_files h cfg σ).2 = executed σ.
Proof.
  intros Hpush. unfold _push_files. rewrite Hpush. simpl.
  by destruct (_ || _).
Qed.

Lemma create_remote_dirs_Ok_inv σ u σ' :
  _create_remote_dirs h cfg σ = (Ok u, σ') →
  σ' = mkWorld (worker σ)
         (executed σ ++
          [done_ok (remote_shell cfg
                      (cfg_remote_mkdir cfg ++
                       [Py.str (_remote_testplan_path (worker σ))]))])
         (logged σ).
Proof.
  unfold _create_remote_dirs. intros Hrun. invert_run Hrun.
  lazymatch goal with
  | H : _execute_cmd _ _ _ _ = _ |- _ =>
      apply execute_cmd_Ok_inv in H as (-> & -> & Hrc)
  end.
  by rewrite Hrc.
Qed.

Lemma copy_child_script_Ok_exact σ u σ' :
  _copy_child_script h cfg σ = (Ok u, σ') →
  let remote_path :=
    Py.str (_remote_testplan_path (worker σ)) +:+ "/child.py" in
  σ' = mkWorld
         (set_child_paths
            (set_remote (Some remote_path) (_child_paths (worker σ)))
            (worker σ))
         (executed σ ++
          [done_ok (cfg_copy_cmd cfg (local (_child_paths (worker σ)))
                      (Some (_remote_copy_path cfg (worker σ)
                               (Some remote_path)))
                      NoCopyArgs)])
         (logged σ).
Proof.
  unfold _copy_child_script. intros Hrun. invert_run Hrun.
  apply transfer_data_Ok_inv in Hrun as ->. done.
Qed.

Lemma copy_dependencies_module_Ok_inv σ u σ' :
  _copy_dependencies_module h cfg σ = (Ok u, σ') →
  σ' = mkWorld (worker σ)
         (executed σ ++
          (done_ok <$>
           match environ h !! "TESTPLAN_DEPENDENCIES_PATH" with
           | Some path =>
               [cfg_copy_cmd cfg (Some (path +:+ "/dependencies.py"))
                  (Some (_remote_copy_path cfg (worker σ)
                           (Some (Py.str (_remote_testplan_path (worker σ))
                                  +:+ "/dependencies.py"))))
                  NoCopyArgs]
           | None => []
           end))
         (logged σ).
Proof.
  unfold _copy_dependencies_module. intros Hrun.
  destruct (environ h !! "TESTPLAN_DEPENDENCIES_PATH") as [path|].
  - invert_run Hrun. apply transfer_data_Ok_inv in Hrun as ->. done.
  - invert_run Hrun. simpl. rewrite app_nil_r. by destruct σ'.
Qed.

Lemma copy_workspace_Ok_executed σ u σ' ws_local :
  local (_workspace_paths (worker σ)) = Some ws_local →
  _copy_workspace h cfg σ = (Ok u, σ') →
  let w := worker σ in
  let ws_remote :=
    Py.str (_remote_testplan_path w) +:+ "/" +:+
    Py.last_field (Py.split (os_sep h) ws_local) in
  executed σ' =
    executed σ ++
    [done_ok
       match cfg_remote_workspace cfg with
       | Some (String _ _ as remote_workspace) =>
           remote_shell cfg
             (cfg_link_cmd cfg (fix_home_prefix h remote_workspace)
                ws_remote)
       | _ =>
           if _should_transfer_workspace w then
             cfg_copy_cmd cfg (Some ws_local)
               (Some (_remote_copy_path cfg w (_remote_testplan_path w)))
               (Exclude (cfg_workspace_exclude cfg))
           else remote_shell cfg (cfg_link_cmd cfg ws_local ws_remote)
       end].
Proof.
  intros Hlocal Hrun. unfold _copy_workspace in Hrun.
  invert_run Hrun. simplify_eq.
  destruct (cfg_remote_workspace cfg) as [[|c rw]|]; simpl in *.
  2:{ invert_run Hrun.
      lazymatch goal with
      | H : _execute_cmd _ _ _ _ = _ |- _ =>
          apply execute_cmd_Ok_inv in H as (-> & -> & Hrc)
      end.
      rewrite Hrc by done. done. }
  all: destruct (_should_transfer_workspace _); invert_run Hrun.
  all: try lazymatch goal with
       | H : _transfer_data _ _ _ _ _ _ _ _ = _ |- _ =>
           apply transfer_data_Ok_inv in H as ->
       | H : _execute_cmd _ _ _ _ = _ |- _ =>
           apply execute_cmd_Ok_inv in H as (-> & -> & Hrc);
           rewrite Hrc by done
       end.
  all: done.
Qed.

End Preparation.

(** X17.  The commands of a [_prepare_remote] that returns, for a new
    worker, in the order they were run: the check of the workspace when
    one is configured (whatever its exit code), the creation of the
    remote directory, the copy of the child script, the copy of the
    dependencies module when the environment names one, the transfer or
    the link of the workspace, and then the commands of the push; every
    command but the check exited with 0, and nothing is run for the push
    when there is nothing to push. *)
Theorem prepare_remote_command_order (h : Host) (cfg : Cfg) (σ' : World) :
  _prepare_remote h cfg (World_init h) = (Ok tt, σ') →
  ∃ pushed,
    executed σ' =
      check_workspace_commands h cfg ++
      (done_ok <$> staging_commands h cfg) ++ pushed ∧
    zero_exits pushed ∧
    (Py.truthy_list (cfg_push cfg) = false → pushed = []).
Proof.
  intros Hrun. unfold _prepare_remote in Hrun. invert_run Hrun.
  simpl in *.
  lazymatch goal with
  | H : _push_files _ _ ?σ = (_, ?σ1) |- _ =>
      destruct (fails_fast_Ok _ _ _ _ (fails_fast_push_files h cfg) H)
        as (pushed & Hpushed & Hzero);
      pose proof (push_files_nothing_run h cfg σ) as Hnothing;
      rewrite H in Hnothing; simpl in Hnothing, Hpushed
  end.
  exists pushed. split; [|split; [done|]].
  2:{ intros Hpush. rewrite Hnothing in Hpushed by done.
      lazymatch type of Hpushed with
      | ?l = _ => apply (app_inv_head l); by rewrite app_nil_r
      end. }
  rewrite Hpushed. clear Hpushed Hnothing Hzero.
  unfold check_workspace_commands, staging_commands, create_remote_dirs_cmd,
    copy_child_cmd, copy_dependencies_cmds, workspace_cmd,
    should_transfer_of, copy_workspace_check_rc, transfer_workspace_cmd,
    link_workspace_cmd, remote_workspace_of.
  rewrite <- last_field_split_basename.
  unfold local_workspace in *.
  lazymatch goal with
  | H : match cfg_copy_workspace_check cfg with _ => _ end _ = _ |- _ =>
      destruct (cfg_copy_workspace_check cfg) as [check|];
      invert_run H; simpl in *
  end.
  all: repeat lazymatch goal with
  | H : _execute_cmd _ _ false _ = _ |- _ =>
      apply execute_cmd_Ok_inv in H as (-> & -> & _)
  | H : _define_remote_dirs _ _ _ = _ |- _ =>
      unfold _define_remote_dirs in H; invert_run H
  | H : _create_remote_dirs _ _ _ = _ |- _ =>
      apply create_remote_dirs_Ok_inv in H as ->
  | H : _copy_dependencies_module _ _ _ = _ |- _ =>
      apply copy_dependencies_module_Ok_inv in H as ->
  | H : _copy_child_script _ _ _ = _ |- _ =>
      apply copy_child_script_Ok_exact in H as ->
  | H : _copy_workspace _ _ _ = _ |- _ =>
      apply (copy_workspace_Ok_executed _ _ _ _ _
               (fix_home_prefix h (cfg_workspace cfg))) in H;
      [|reflexivity]
  | H : _remote_working_dir _ _ = _ |- _ =>
      apply remote_working_dir_Ok_inv in H
        as (cwd & ws & ws_remote & Hcwd & Hws & Hwsr & Hsub & -> & ->)
  end.
  all: simpl in *.
  all: lazymatch goal with
       | H : executed _ = _ |- _ => rewrite H
       end.
  all: rewrite <- ?app_assoc; simpl.
  all: destruct (environ h !! "TESTPLAN_DEPENDENCIES_PATH"); simpl.
  all: destruct (cfg_remote_workspace cfg) as [[|c rw]|]; simpl.
  all: try destruct (negb _); reflexivity.
Qed.

Lemma prepare_remote_command_order_witness :
  let cfg := Scenario.make_cfg (Some [PushStr "/etc/cfg.yml"]) None None
               (Some Scenario.remote_filepath_exists) in
  let σ' := (_prepare_remote Scenario.host cfg (World_init Scenario.host)).2 in
  ∃ pushed,
    executed σ' =
      check_workspace_commands Scenario.host cfg ++
      (done_ok <$> staging_commands Scenario.host cfg) ++ pushed ∧
    zero_exits pushed ∧
    (Py.truthy_list (cfg_push cfg) = false → pushed = []).
Proof.
  apply (prepare_remote_command_order Scenario.host
           (Scenario.make_cfg (Some [PushStr "/etc/cfg.yml"]) None None
              (Some Scenario.remote_filepath_exists))).
  vm_compute. reflexivity.
Defined.

(** X18.  [_prepare_remote] stops at the first command that fails: for a
    new worker, whether it returns or raises, the commands it has run
    are the check of the workspace (when one is configured, with any
    exit code) followed by commands that all exited with 0, except that
    when it raises the failure of a command, that command is the last
    one run and its exit code is not 0. *)
Theorem prepare_remote_fails_fast (h : Host) (cfg : Cfg) :
  let run := _prepare_remote h cfg (World_init h) in
  ∃ cmds,
    executed run.2 = check_workspace_commands h cfg ++ cmds ∧
    trace_of run.1 cmds.
Proof.
  cbv zeta. unfold _prepare_remote.
  rewrite bind_run. simpl. rewrite bind_run. simpl.
  apply fails_fast_after_check; [|done..].
  apply fails_fast_staging.
  repeat fails_fast_step.
  all: unfold _remote_working_dir; repeat fails_fast_step.
Qed.

(** X19.  [stopping] stops at the first command that fails: whether it
    returns or raises, every command it has run exited with 0, except
    that when it raises the failure of a command (the fetch of the
    results or the pull of an entry), that command is the last one run
    and its exit code is not 0. *)
Theorem stopping_fails_fast (h : Host) (cfg : Cfg) (σ : World) :
  ∃ cmds,
    executed (stopping h cfg σ).2 = executed σ ++ cmds ∧
    trace_of (stopping h cfg σ).1 cmds.
Proof. apply fails_fast_stopping. Qed.

(** X20.  When [pathutils.is_subdir] does not find the current
    directory under the local workspace and every command succeeds,
    [_prepare_remote] raises the [RuntimeError] that names the workspace
    and the directory, and it does so only after the remote directory
    was created and the child script, the dependencies module and the
    workspace were transferred or linked; nothing is pushed. *)
Theorem prepare_remote_outside_workspace (h : Host) (cfg : Cfg) :
  (∀ history cmd, returncode h history cmd = 0%Z) →
  is_subdir h (pwd h) (local_workspace h cfg) = false →
  let run := _prepare_remote h cfg (World_init h) in
  run.1 =
    Raise (RuntimeError
             (WorkingDirOutsideWorkspace (local_workspace h cfg) (pwd h))) ∧
  executed run.2 =
    check_workspace_commands h cfg ++ (done_ok <$> staging_commands h cfg).
Proof.
  intros Hrc Hsub. cbv zeta.
  unfold _prepare_remote, _define_remote_dirs, _create_remote_dirs,
    _copy_child_script, _copy_dependencies_module, _copy_workspace,
    _transfer_data, _remote_working_dir, _execute_cmd,
    check_workspace_commands, staging_commands, create_remote_dirs_cmd,
    copy_child_cmd, copy_dependencies_cmds, workspace_cmd,
    should_transfer_of, copy_workspace_check_rc, transfer_workspace_cmd,
    link_workspace_cmd, remote_workspace_of.
  rewrite <- last_field_split_basename.
  unfold local_workspace in *.
  destruct (cfg_copy_workspace_check cfg) as [check|];
    destruct (environ h !! "TESTPLAN_DEPENDENCIES_PATH") as [path|];
    destruct (cfg_remote_workspace cfg) as [[|c rw]|];
    run; simpl; repeat (rewrite Hrc; simpl); rewrite ?Hsub; simpl; done.
Qed.

Lemma prepare_remote_outside_workspace_witness :
  let h := with_pwd "/tmp" Scenario.host in
  let run := _prepare_remote h Scenario.cfg (World_init h) in
  run.1 =
    Raise (RuntimeError (WorkingDirOutsideWorkspace "/home/u/ws" "/tmp")) ∧
  executed run.2 =
    check_workspace_commands h Scenario.cfg ++
    (done_ok <$> staging_commands h Scenario.cfg).
Proof.
  apply (prepare_remote_outside_workspace (with_pwd "/tmp" Scenario.host)
           Scenario.cfg).
  - reflexivity.
  - reflexivity.
Defined.

(** X21.  [_define_remote_dirs] gives the workers of one plan started
    from one machine the same remote testplan path, and run paths that
    differ exactly when their hosts differ. *)
Theorem runpaths_of_a_plan (h : Host) (cfg1 cfg2 : Cfg) (σ1 σ2 : World) :
  cfg_plan_name cfg1 = cfg_plan_name cfg2 →
  let w1 := worker (_define_remote_dirs h cfg1 σ1).2 in
  let w2 := worker (_define_remote_dirs h cfg2 σ2).2 in
  _remote_testplan_path w1 = _remote_testplan_path w2 ∧
  (_remote_testplan_runpath w1 = _remote_testplan_runpath w2 ↔
   cfg_index cfg1 = cfg_index cfg2).
Proof.
  intros Hplan. simpl. rewrite Hplan. split; [done|]. split.
  - intros Hrunpath. simplify_eq.
    repeat lazymatch goal with
    | H : _ +:+ _ = _ +:+ _ |- _ => apply String.app_inj in H
    end.
    by simplify_eq.
  - by intros ->.
Qed.

Lemma runpaths_of_a_plan_witness :
  let cfg2 := Scenario.windows_cfg in
  let w1 := worker (_define_remote_dirs Scenario.host Scenario.cfg
                      (World_init Scenario.host)).2 in
  let w2 := worker (_define_remote_dirs Scenario.host cfg2
                      Scenario.prepared).2 in
  _remote_testplan_path w1 = _remote_testplan_path w2 ∧
  (_remote_testplan_runpath w1 = _remote_testplan_runpath w2 ↔
   cfg_index Scenario.cfg = cfg_index cfg2).
Proof.
  apply (runpaths_of_a_plan Scenario.host Scenario.cfg Scenario.windows_cfg).
  reflexivity.
Defined.

(** ** The push lists of the two forms of [cfg.push] *)

Lemma build_push_lists_on_pairs (h : Host) (pairs : list (string * string))
    (σ : World) :
  ∃ dirs,
    Dedup.eliminate_duplications (omap (as_push_dir h) pairs) = Ok dirs ∧
    (classify h (Ok <$> pairs) [] [] ≫= λ '(push_files, push_dirs),
       push_dirs ← lift (Dedup.eliminate_duplications push_dirs);
       mret (push_files, push_dirs)) σ =
    (Ok (omap (as_push_file h) pairs, dirs),
     mkWorld (worker σ) (executed σ)
       (logged σ ++ omap (as_unpushable h) pairs)).
Proof.
  eexists. split; [apply eliminate_duplications_eq|].
  rewrite bind_run, classify_eq. simpl.
  rewrite bind_run. unfold lift. by rewrite eliminate_duplications_eq.
Qed.

(** X22.  For a push configuration made of (source, destination) pairs,
    [_build_push_lists] runs no command and leaves the worker as it is:
    the files are the pairs whose source is a file, with the
    destinations given, in the order given; the directories are the
    pairs whose source is a directory, after the elimination of
    duplications; a relative directory, if configured, is ignored with
    one warning in the log, followed by one error for each source that
    is neither a file nor a directory. *)
Theorem build_push_lists_of_pairs (h : Host) (cfg : Cfg)
    (pairs : list (string * string)) (σ : World) :
  pairs ≠ [] →
  cfg_push cfg = Some ((λ pair, PushTuple [pair.1; pair.2]) <$> pairs) →
  ∃ dirs,
    Dedup.eliminate_duplications (omap (as_push_dir h) pairs) = Ok dirs ∧
    _build_push_lists h cfg σ =
      (Ok (omap (as_push_file h) pairs, dirs),
       mkWorld (worker σ) (executed σ)
         (logged σ ++
          (if Py.truthy_str (cfg_push_relative_dir cfg)
           then [WarnIgnoringPushRelativeDir] else []) ++
          omap (as_unpushable h) pairs)).
Proof.
  intros Hne Hpush. unfold _build_push_lists. rewrite Hpush.
  rewrite bind_run. simpl.
  assert (forallb is_string
            ((λ pair, PushTuple [pair.1; pair.2]) <$> pairs) = false) as ->.
  { by destruct pairs. }
  assert (forallb (λ pair, Nat.eqb (item_len pair) 2)
            ((λ pair, PushTuple [pair.1; pair.2]) <$> pairs) = true) as ->.
  { clear. induction pairs; simpl; auto. }
  assert (unpack_pair <$> ((λ pair, PushTuple [pair.1; pair.2]) <$> pairs) =
          Ok <$> pairs) as Hunpack.
  { clear. induction pairs as [|[source dest] pairs IH]; simpl; [done|].
    by f_equal. }
  simpl. rewrite bind_run.
  destruct (Py.truthy_str (cfg_push_relative_dir cfg)); rewrite bind_run;
    simpl; rewrite Hunpack.
  - lazymatch goal with
    | |- context [classify h _ [] [] ≫= ?k] =>
        lazymatch goal with
        | |- context [(classify h (Ok <$> pairs) [] [] ≫= k) ?σ1] =>
            destruct (build_push_lists_on_pairs h pairs σ1)
              as (dirs & Hdirs & Hrun)
        end
    end.
    exists dirs. split; [done|]. rewrite Hrun. simpl.
    by rewrite <- app_assoc.
  - destruct (build_push_lists_on_pairs h pairs σ) as (dirs & Hdirs & Hrun).
    exists dirs. split; [done|]. rewrite Hrun. by destruct σ.
Qed.

Lemma build_push_lists_of_pairs_witness :
  let pairs := [("/etc/cfg.yml", "/srv/cfg.yml"); ("/a/", "/srv/a");
                ("/missing", "/srv/missing"); ("/a/b", "/srv/a/b")] in
  let cfg := Scenario.make_cfg
               (Some ((λ pair, PushTuple [pair.1; pair.2]) <$> pairs))
               (Some "/home/u/ws") None None in
  let σ := Scenario.with_remote_dirs in
  ∃ dirs,
    Dedup.eliminate_duplications (omap (as_push_dir Scenario.host) pairs) =
      Ok dirs ∧
    _build_push_lists Scenario.host cfg σ =
      (Ok (omap (as_push_file Scenario.host) pairs, dirs),
       mkWorld (worker σ) (executed σ)
         (logged σ ++
          (if Py.truthy_str (cfg_push_relative_dir cfg)
           then [WarnIgnoringPushRelativeDir] else []) ++
          omap (as_unpushable Scenario.host) pairs)).
Proof.
  apply (build_push_lists_of_pairs Scenario.host
           (Scenario.make_cfg
              (Some ((λ pair, PushTuple [pair.1; pair.2]) <$>
                     [("/etc/cfg.yml", "/srv/cfg.yml"); ("/a/", "/srv/a");
                      ("/missing", "/srv/missing"); ("/a/b", "/srv/a/b")]))
              (Some "/home/u/ws") None None)).
  - discriminate.
  - reflexivity.
Defined.

(** X23.  For a push configuration made of paths, without a relative
    directory, [_build_push_lists] runs no command and leaves the worker
    as it is: each source is pushed to the POSIX form of its own path
    (the source as configured, before its trailing separators are
    stripped), the files in the order given and the directories after
    the elimination of duplications, with one error in the log for each
    source that is neither. *)
Theorem build_push_lists_of_paths (h : Host) (cfg : Cfg)
    (sources : list string) (σ : World) :
  cfg_push cfg = Some (PushStr <$> sources) →
  Py.truthy_str (cfg_push_relative_dir cfg) = false →
  let pairs := (λ source, (source, to_posix_path h source)) <$> sources in
  ∃ dirs,
    Dedup.eliminate_duplications (omap (as_push_dir h) pairs) = Ok dirs ∧
    _build_push_lists h cfg σ =
      (Ok (omap (as_push_file h) pairs, dirs),
       mkWorld (worker σ) (executed σ)
         (logged σ ++ omap (as_unpushable h) pairs)).
Proof.
  intros Hpush Hrel pairs. unfold _build_push_lists, _build_push_dests.
  rewrite Hpush, Hrel. rewrite bind_run. simpl.
  assert (forallb is_string (PushStr <$> sources) = true) as ->.
  { clear. induction sources; simpl; auto. }
  assert (source_of <$> (PushStr <$> sources) = sources) as ->.
  { clear. induction sources; simpl; [done|]. by f_equal. }
  rewrite bind_run. simpl. rewrite bind_run. simpl.
  assert (zip sources (to_posix_path h <$> sources) = pairs) as ->.
  { subst pairs. clear. induction sources; simpl; [done|]. by f_equal. }
  destruct (build_push_lists_on_pairs h pairs σ) as (dirs & Hdirs & Hrun).
  exists dirs. by split.
Qed.

Lemma build_push_lists_of_paths_witness :
  let sources := ["/a/b"; "/etc/cfg.yml"; "/a/"; "/nowhere"] in
  let cfg := Scenario.make_cfg (Some (PushStr <$> sources)) None None None in
  let σ := World_init Scenario.host in
  let pairs :=
    (λ source, (source, to_posix_path Scenario.host source)) <$> sources in
  ∃ dirs,
    Dedup.eliminate_duplications (omap (as_push_dir Scenario.host) pairs) =
      Ok dirs ∧
    _build_push_lists Scenario.host cfg σ =
      (Ok (omap (as_push_file Scenario.host) pairs, dirs),
       mkWorld (worker σ) (executed σ)
         (logged σ ++ omap (as_unpushable Scenario.host) pairs)).
Proof.
  apply (build_push_lists_of_paths Scenario.host
           (Scenario.make_cfg
              (Some (PushStr <$> ["/a/b"; "/etc/cfg.yml"; "/a/"; "/nowhere"]))
              None None None)
           ["/a/b"; "/etc/cfg.yml"; "/a/"; "/nowhere"]).
  - reflexivity.
  - reflexivity.
Defined.
